(** * Riteway admin API: a shallow embedding of [server.js]

    The service is an Express application in front of two Firebase
    services: the Auth user store ([admin.auth()]) and the Realtime
    Database ([admin.database()]).  This development embeds the request
    handlers of [server.js] (its first 202 lines, the revision that
    defines [GET /driver-details]; the file then repeats an older copy of
    itself, with one header name in the key check and without that route)
    and, for comparison, the single-driver handler of the earlier revision
    kept beside it, and proves properties of the responses they produce.

    Conventions of the embedding:
    - a JavaScript value is a [JsVal]; a number is an IEEE 754 double
      (Rocq's primitive [float]: the same format and the same correctly
      rounded [+] and [/], with [NaN], both infinities and both zeros);
    - a string is the sequence of the bytes of its UTF-8 encoding;
      [String.prototype.toLowerCase], which follows the Unicode case
      mappings, is a parameter ([StringCase]) of which only two facts are
      used: no string but the empty one is lower-cased to the empty one,
      and on ASCII strings the letters [A-Z] become [a-z] and nothing
      else changes;
    - an object is the list of its own enumerable properties in the order
      [Object.entries] yields them;
    - an [async] handler is a state transformer over the outside world
      that also records the adapter calls it makes; a thrown exception or
      rejected promise is the outcome [Throw]. *)

From Corelib Require Import PrimFloat.
From Stdlib Require Import Ascii String.
From stdpp Require Import base tactics option list numbers strings gmap pretty.

Local Open Scope string_scope.
Local Open Scope list_scope.

(** ** JavaScript values *)

#[warnings="-register-all,-automation"]
Inductive JsVal : Type :=
| JUndefined
| JNull
| JBool (b : bool)
| JNum (x : float)
| JStr (s : string)
| JArr (items : list JsVal)
| JObj (fields : list (string * JsVal)).
Arguments JNum x%_float.

(** An exception value: Firebase errors carry a [code]
    (for instance [auth/user-not-found]); a [TypeError] has none. *)
Record JsError : Type := mkError {
  err_code : option string;
  err_message : string
}.

Definition TypeError (msg : string) : JsError :=
  {| err_code := None; err_message := msg |}.

(** Result of an evaluation that may throw. *)
Inductive Exc (A : Type) : Type :=
| Ok (a : A)
| Err (e : JsError).
Arguments Ok {A} a.
Arguments Err {A} e.

Definition exc_bind {A B} (f : A -> Exc B) (m : Exc A) : Exc B :=
  match m with
  | Ok a => f a
  | Err e => Err e
  end.

#[global] Instance Exc_ret : MRet Exc := fun _ a => Ok a.
#[global] Instance Exc_bind : MBind Exc := fun _ _ f m => exc_bind f m.

(** [ToBoolean] of a number: [+0], [-0] and [NaN] are falsy. *)
Definition number_truthy (x : float) : bool :=
  negb (PrimFloat.is_zero x || PrimFloat.is_nan x).

(** [ToBoolean]. *)
Definition truthy (v : JsVal) : bool :=
  match v with
  | JUndefined | JNull => false
  | JBool b => b
  | JNum x => number_truthy x
  | JStr s => negb (bool_decide (s = ""))
  | JArr _ | JObj _ => true
  end.

(** [a || b] on values (both operands here are free of effects). *)
Definition jor (a b : JsVal) : JsVal := if truthy a then a else b.

(** [v === s] for a string [s]. *)
Definition strict_eq_str (v : JsVal) (s : string) : bool :=
  match v with
  | JStr t => bool_decide (t = s)
  | _ => false
  end.

Fixpoint assoc (k : string) (fields : list (string * JsVal)) : JsVal :=
  match fields with
  | [] => JUndefined
  | (k', v) :: rest => if bool_decide (k' = k) then v else assoc k rest
  end.

(** Property read [v.k], for the property names the handlers read (none of
    them is defined on the prototypes of strings, numbers, booleans, arrays
    or plain objects).  Reading a property of [null] or [undefined]
    throws. *)
Definition get (v : JsVal) (k : string) : Exc JsVal :=
  match v with
  | JUndefined =>
      Err (TypeError ("Cannot read properties of undefined (reading '" +:+ k +:+ "')"))
  | JNull =>
      Err (TypeError ("Cannot read properties of null (reading '" +:+ k +:+ "')"))
  | JObj fields => Ok (assoc k fields)
  | JBool _ | JNum _ | JStr _ | JArr _ => Ok JUndefined
  end.

(** Lower-casing of ASCII text: the letters [A-Z] become [a-z], every
    other byte is kept. *)
Definition lower_ascii (c : ascii) : ascii :=
  let n := N_of_ascii c in
  if (65 <=? n)%N && (n <=? 90)%N then ascii_of_N (n + 32) else c.

Fixpoint ascii_toLowerCase (s : string) : string :=
  match s with
  | EmptyString => EmptyString
  | String c rest => String (lower_ascii c) (ascii_toLowerCase rest)
  end.

Fixpoint is_ascii (s : string) : bool :=
  match s with
  | EmptyString => true
  | String c rest => (N_of_ascii c <? 128)%N && is_ascii rest
  end.

(** [String.prototype.toLowerCase].  The method applies the Unicode
    lower-case mapping to every code point; the handlers are embedded over
    any function with the two properties below, which the method has. *)
Class StringCase : Type := {
  toLowerCase : string -> string;
  toLowerCase_nonempty : forall s, toLowerCase s = "" -> s = "";
  toLowerCase_ascii : forall s, is_ascii s = true -> toLowerCase s = ascii_toLowerCase s
}.

(** The method call [v.toLowerCase()]: only strings have the method. *)
Definition call_toLowerCase `{!StringCase} (v : JsVal) : Exc string :=
  match v with
  | JStr s => Ok (toLowerCase s)
  | JUndefined | JNull =>
      Err (TypeError "Cannot read properties of undefined (reading 'toLowerCase')")
  | _ => Err (TypeError "toLowerCase is not a function")
  end.

(** [Object.entries(v)]: the own properties of an object, the indexed
    elements of an array or characters of a string (one entry for each
    8-bit character of the embedding), nothing for a number or a boolean;
    [null] and [undefined] cannot be converted to an object. *)
Fixpoint string_entries (i : N) (s : string) : list (string * JsVal) :=
  match s with
  | EmptyString => []
  | String c rest => (pretty i, JStr (String c EmptyString)) :: string_entries (N.succ i) rest
  end.

Fixpoint array_entries (i : N) (items : list JsVal) : list (string * JsVal) :=
  match items with
  | [] => []
  | v :: rest => (pretty i, v) :: array_entries (N.succ i) rest
  end.

Definition entries (v : JsVal) : Exc (list (string * JsVal)) :=
  match v with
  | JObj fields => Ok fields
  | JArr items => Ok (array_entries 0 items)
  | JStr s => Ok (string_entries 0 s)
  | JBool _ | JNum _ => Ok []
  | JUndefined | JNull => Err (TypeError "Cannot convert undefined or null to object")
  end.

(** The length of an array as a number: exact, an array has fewer than
    [2^32] elements. *)
Fixpoint number_of_pos (p : positive) : float :=
  match p with
  | xH => 1%float
  | xO p => (2 * number_of_pos p)%float
  | xI p => (2 * number_of_pos p + 1)%float
  end.

Definition number_of_nat (n : nat) : float :=
  match N.of_nat n with
  | N0 => 0%float
  | Npos p => number_of_pos p
  end.

(** An optional string field of an SDK object, as a value. *)
Definition of_opt (o : option string) : JsVal :=
  match o with
  | Some s => JStr s
  | None => JUndefined
  end.

(** ** Objects of the Firebase Admin SDK *)

Record UserMetadata : Type := {
  creationTime : option string;
  lastSignInTime : option string
}.

Record UserRecord : Type := {
  uid : string;
  email : option string;
  displayName : option string;
  phoneNumber : option string;
  disabled : bool;
  metadata : UserMetadata
}.

Record ListUsersResult : Type := {
  users : list UserRecord;
  pageToken : option string
}.

(** The two services behind [admin.auth()] and [admin.database()], over a
    world [W] they may read and change.  [db_once path] stands for
    [db.ref(..).child(..).once('value')] followed by [.val()] on the
    snapshot: the value stored at [path], [null] where nothing is
    stored. *)
Record Firebase (W : Type) : Type := {
  auth_getUser : string -> W -> Exc UserRecord * W;
  auth_listUsers : N -> option string -> W -> Exc ListUsersResult * W;
  auth_deleteUser : string -> W -> Exc () * W;
  db_once : list string -> W -> Exc JsVal * W
}.
Arguments auth_getUser {W} _ _ _.
Arguments auth_listUsers {W} _ _ _ _.
Arguments auth_deleteUser {W} _ _ _.
Arguments db_once {W} _ _ _.

(** What a handler does to the outside, in order. *)
Inductive Event : Type :=
| EvGetUser (uid : string)
| EvListUsers (maxResults : N) (pageToken : option string)
| EvDeleteUser (uid : string)
| EvOnce (path : list string)
| EvConsoleError (label : string) (err : JsError).

Record St (W : Type) : Type := mkSt {
  world : W;
  events : list Event
}.
Arguments mkSt {W} _ _.
Arguments world {W} _.
Arguments events {W} _.

(** Outcome of running a handler body: a value, a thrown exception, or
    no outcome within the given number of loop iterations. *)
Inductive Outcome (A : Type) : Type :=
| Return (a : A)
| Throw (e : JsError)
| Diverge.
Arguments Return {A} a.
Arguments Throw {A} e.
Arguments Diverge {A}.

Definition M (W A : Type) : Type := St W -> Outcome A * St W.

Definition m_ret {W A} (a : A) : M W A := fun st => (Return a, st).

Definition m_bind {W A B} (f : A -> M W B) (m : M W A) : M W B :=
  fun st =>
    match m st with
    | (Return a, st') => f a st'
    | (Throw e, st') => (Throw e, st')
    | (Diverge, st') => (Diverge, st')
    end.

#[global] Instance M_ret {W} : MRet (M W) := fun _ a => m_ret a.
#[global] Instance M_bind {W} : MBind (M W) := fun _ _ f m => m_bind f m.

Definition diverge {W A} : M W A := fun st => (Diverge, st).

(** [try { body } catch (err) { handler }]. *)
Definition try_catch {W A} (body : M W A) (handler : JsError -> M W A) : M W A :=
  fun st =>
    match body st with
    | (Throw e, st') => handler e st'
    | r => r
    end.

(** A computation without effects inside a handler. *)
Definition lift {W A} (x : Exc A) : M W A :=
  fun st =>
    match x with
    | Ok a => (Return a, st)
    | Err e => (Throw e, st)
    end.

(** An awaited adapter call: the event is recorded, then the adapter
    acts on the world. *)
Definition call {W A} (ev : Event) (f : W -> Exc A * W) : M W A :=
  fun st =>
    let '(r, w) := f (world st) in
    let st' := mkSt w (events st ++ [ev]) in
    match r with
    | Ok a => (Return a, st')
    | Err e => (Throw e, st')
    end.

Definition console_error {W} (label : string) (err : JsError) : M W () :=
  fun st => (Return (), mkSt (world st) (events st ++ [EvConsoleError label err])).

(** ** Requests and responses *)

(** Header names are lower-cased by Node.  Query parameters are the scalar
    ones; [params] are the named segments of the matched route, which
    Express binds for every declared name. *)
Record Request : Type := {
  headers : gmap string string;
  query : gmap string string;
  params : string -> string
}.

Module UserInfo.
Record t : Type := mk {
  uid : string;
  email : JsVal;
  displayName : JsVal;
  phoneNumber : JsVal;
  disabled : JsVal;
  creationTime : JsVal;
  lastSignInTime : JsVal
}.
End UserInfo.

Module Load.
Record t : Type := mk {
  id : string;
  status : JsVal;
  customerName : JsVal;
  address : JsVal;
  items : JsVal;
  yards : JsVal;
  revenue : JsVal;
  profit : JsVal;
  createdAt : JsVal
}.
End Load.

Module Ticket.
Record t : Type := mk {
  id : string;
  url : JsVal;
  fileName : JsVal;
  uploadedAt : JsVal;
  loadId : JsVal
}.
End Ticket.

Module Rating.
Record t : Type := mk {
  id : string;
  rating : JsVal;
  comment : JsVal;
  customerName : JsVal;
  loadId : JsVal;
  createdAt : JsVal
}.
End Rating.

Module Stats.
Record t : Type := mk {
  totalLoads : nat;
  totalTickets : nat;
  totalRatings : nat;
  avgRating : JsVal
}.
End Stats.

Module Summary.
Record t : Type := mk {
  user : UserInfo.t;
  loads : list Load.t;
  tickets : list Ticket.t;
  ratings : list Rating.t;
  stats : Stats.t
}.
End Summary.

(** The earlier revision answers [GET /drivers/:uid] with
    [{ auth, profile }]. *)
Module AuthData.
Record meta : Type := mkMeta {
  creationTime : JsVal;
  lastSignInTime : JsVal
}.
Record t : Type := mk {
  uid : string;
  email : JsVal;
  displayName : JsVal;
  disabled : JsVal;
  metadata : meta
}.
End AuthData.

Inductive Body : Type :=
| BText (text : string)
| BError (error : string)
| BErrorDetails (error details : string)
| BUsers (users : list UserInfo.t)
| BOkTrue
| BSummary (summary : Summary.t)
| BAuthProfile (auth : AuthData.t) (profile : JsVal).

Record Response : Type := mkResponse {
  status : N;
  body : Body
}.

(** [res.status(c).json(b)], and [res.json(b)] with the default 200. *)
Definition status_json (c : N) (b : Body) : Response := mkResponse c b.
Definition json (b : Body) : Response := mkResponse 200 b.

(** ** The handlers of [server.js] *)

Section Handlers.
Context {W : Type}.
Context `{!StringCase}.
Variable fb : Firebase W.
(** The shared secret read from the environment at start-up. *)
Variable ADMIN_API_KEY : string.
(** [Number] applied to a string (ECMAScript's StringToNumber). *)
Variable StringToNumber : string -> float.

Definition getUser (uid : string) : M W UserRecord :=
  call (EvGetUser uid) (auth_getUser fb uid).

Definition listUsers (maxResults : N) (pageToken : option string) : M W ListUsersResult :=
  call (EvListUsers maxResults pageToken) (auth_listUsers fb maxResults pageToken).

Definition deleteUser (uid : string) : M W () :=
  call (EvDeleteUser uid) (auth_deleteUser fb uid).

Definition once (path : list string) : M W JsVal :=
  call (EvOnce path) (db_once fb path).

(** [app.get('/', ...)]. *)
Definition health (req : Request) : M W Response :=
  mret (mkResponse 200 (BText "OK")).

(** Middleware [requireAdminKey]: [Some r] when it answers the request
    itself, [None] when it calls [next()]. *)
Definition requireAdminKey (req : Request) : option Response :=
  let key :=
    jor (jor (of_opt (headers req !! "x-admin-api-key"))
             (of_opt (headers req !! "x-admin-key")))
        (of_opt (query req !! "key")) in
  if negb (truthy key) || negb (strict_eq_str key ADMIN_API_KEY)
  then Some (status_json 401 (BError "Unauthorized"))
  else None.

(** [app.METHOD(path, middleware, handler)]. *)
Definition route (middleware : Request -> option Response)
    (handler : Request -> M W Response) (req : Request) : M W Response :=
  match middleware req with
  | Some r => mret r
  | None => handler req
  end.

(** *** [GET /drivers] *)

Definition list_item (u : UserRecord) : UserInfo.t :=
  {| UserInfo.uid := uid u;
     UserInfo.email := of_opt (email u);
     UserInfo.displayName := of_opt (displayName u);
     UserInfo.phoneNumber := of_opt (phoneNumber u);
     UserInfo.disabled := JBool (disabled u);
     UserInfo.creationTime := of_opt (creationTime (metadata u));
     UserInfo.lastSignInTime := of_opt (lastSignInTime (metadata u)) |}.

(** The [do ... while (nextPageToken)] loop, at most [fuel] iterations. *)
Fixpoint listUsers_loop (fuel : nat) (users0 : list UserInfo.t)
    (nextPageToken : option string) : M W (list UserInfo.t) :=
  match fuel with
  | O => diverge
  | S fuel' =>
      result ← listUsers 1000 nextPageToken;
      let users1 := users0 ++ map list_item (users result) in
      let nextPageToken := pageToken result in
      if truthy (of_opt nextPageToken)
      then listUsers_loop fuel' users1 nextPageToken
      else mret users1
  end.

Definition get_drivers (fuel : nat) (req : Request) : M W Response :=
  try_catch
    (users1 ← listUsers_loop fuel [] None;
     mret (json (BUsers users1)))
    (fun err =>
       console_error "Error listing users:" err;;
       mret (status_json 500 (BError "Failed to list users"))).

(** *** [DELETE /drivers/:uid] *)

Definition delete_driver (req : Request) : M W Response :=
  try_catch
    (deleteUser (params req "uid");;
     mret (json BOkTrue))
    (fun err =>
       console_error "Error deleting user:" err;;
       mret (status_json 500 (BError "Failed to delete user"))).

(** *** [GET /driver-details] *)

(** [userRecord.email && assignedEmail === userRecord.email.toLowerCase()]. *)
Definition email_matches (userRecord : UserRecord) (assignedEmail : string) : bool :=
  match email userRecord with
  | Some e => truthy (JStr e) && bool_decide (assignedEmail = toLowerCase e)
  | None => false
  end.

(** The body of the [forEach] callback on one entry of the deliveries:
    the load it pushes, if any. *)
Definition load_of_entry (userRecord : UserRecord) (uid : string)
    (entry : string * JsVal) : Exc (option Load.t) :=
  let '(id, obj) := entry in
  d ← get obj "details";
  let details := jor d (JObj []) in
  s ← get obj "status";
  let status := jor s (JStr "pending") in
  ae ← get details "assignedDriverEmail";
  assignedEmail ← call_toLowerCase (jor ae (JStr ""));
  au ← get details "assignedDriverUid";
  let assignedUid := jor au JNull in
  if email_matches userRecord assignedEmail || strict_eq_str assignedUid uid
  then
    customerName ← get details "customerName";
    address ← get details "address";
    items ← get details "items";
    yards ← get details "yards";
    revenue ← get details "revenue";
    profit ← get details "profit";
    createdAt ← get obj "createdAt";
    mret (Some {| Load.id := id;
                  Load.status := status;
                  Load.customerName := jor customerName (JStr "");
                  Load.address := jor address (JStr "");
                  Load.items := jor items (JStr "");
                  Load.yards := jor yards (JNum 0);
                  Load.revenue := jor revenue (JNum 0);
                  Load.profit := jor profit (JNum 0);
                  Load.createdAt := jor createdAt JNull |})
  else mret None.

(** [Object.entries(deliveriesVal).forEach(...)] with its [loads.push]. *)
Fixpoint forEach_push (userRecord : UserRecord) (uid : string)
    (es : list (string * JsVal)) (loads : list Load.t) : Exc (list Load.t) :=
  match es with
  | [] => mret loads
  | entry :: rest =>
      pushed ← load_of_entry userRecord uid entry;
      forEach_push userRecord uid rest
        (match pushed with
         | Some l => loads ++ [l]
         | None => loads
         end)
  end.

(** [Array.prototype.map] with a callback that may throw. *)
Fixpoint map_exc {A B} (f : A -> Exc B) (l : list A) : Exc (list B) :=
  match l with
  | [] => mret []
  | a :: rest =>
      b ← f a;
      bs ← map_exc f rest;
      mret (b :: bs)
  end.

Definition ticket_of_entry (entry : string * JsVal) : Exc Ticket.t :=
  let '(id, t) := entry in
  url ← get t "url";
  fileName ← get t "fileName";
  uploadedAt ← get t "uploadedAt";
  loadId ← get t "loadId";
  mret {| Ticket.id := id;
          Ticket.url := jor url (JStr "");
          Ticket.fileName := jor fileName (JStr "");
          Ticket.uploadedAt := jor uploadedAt JNull;
          Ticket.loadId := jor loadId JNull |}.

Definition rating_of_entry (entry : string * JsVal) : Exc Rating.t :=
  let '(id, r) := entry in
  rating ← get r "rating";
  comment ← get r "comment";
  customerName ← get r "customerName";
  loadId ← get r "loadId";
  createdAt ← get r "createdAt";
  mret {| Rating.id := id;
          Rating.rating := jor rating JNull;
          Rating.comment := jor comment (JStr "");
          Rating.customerName := jor customerName (JStr "");
          Rating.loadId := jor loadId JNull;
          Rating.createdAt := jor createdAt JNull |}.

(** [Number(v)].  A primitive converts directly.  An array or object is
    first converted to a primitive: an array through [toString], the
    comma-separated join of its elements ([null] and [undefined] written
    as nothing), a plain object through ["[object Object]"].  The stored
    data holds no functions, so an object with an own property named
    [toString] has no callable [toString] (nor a [valueOf] returning a
    primitive) and its conversion throws a [TypeError]; so does that of an
    array holding such an object at any depth. *)
Definition has_key (k : string) (fields : list (string * JsVal)) : bool :=
  existsb (fun p => bool_decide (p.1 = k)) fields.

Fixpoint toString_throws (v : JsVal) : bool :=
  match v with
  | JObj fields => has_key "toString" fields
  | JArr items => existsb toString_throws items
  | JUndefined | JNull | JBool _ | JNum _ | JStr _ => false
  end.

(** The number [Number(v)] is when the conversion does not throw.  An
    array of one number converts through the number's text and back, which
    gives the number again, with [0] for [-0]. *)
Fixpoint to_number (v : JsVal) : float :=
  match v with
  | JUndefined => PrimFloat.nan
  | JNull => 0%float
  | JBool b => if b then 1%float else 0%float
  | JNum x => x
  | JStr s => StringToNumber s
  | JArr [] => 0%float
  | JArr [x] =>
      match x with
      | JUndefined | JNull => 0%float
      | JBool _ | JObj _ => PrimFloat.nan
      | JNum y => if PrimFloat.is_zero y then 0%float else y
      | JStr _ | JArr _ => to_number x
      end
  | JArr _ => PrimFloat.nan
  | JObj _ => PrimFloat.nan
  end.

Definition Number (v : JsVal) : Exc float :=
  if toString_throws v
  then Err (TypeError "Cannot convert object to primitive value")
  else Ok (to_number v).

(** [n || d] on numbers. *)
Definition num_or (n d : float) : float := if number_truthy n then n else d.

(** [ratings.reduce((acc, r) => acc + (Number(r.rating) || 0), acc0)]:
    the elements are visited from the left, and the first conversion that
    throws ends the reduction. *)
Fixpoint ratings_sum (ratings : list Rating.t) (acc : float) : Exc float :=
  match ratings with
  | [] => mret acc
  | r :: rest =>
      n ← Number (Rating.rating r);
      ratings_sum rest (acc + num_or n 0)%float
  end.

(** [let avgRating = null; if (ratings.length) { ... }]. *)
Definition avgRating_of (ratings : list Rating.t) : Exc JsVal :=
  if negb (length ratings =? 0)%nat
  then
    sum ← ratings_sum ratings 0%float;
    mret (JNum (sum / number_of_nat (length ratings)))
  else mret JNull.

Definition user_info (userRecord : UserRecord) : UserInfo.t :=
  {| UserInfo.uid := uid userRecord;
     UserInfo.email := jor (of_opt (email userRecord)) JNull;
     UserInfo.displayName := jor (of_opt (displayName userRecord)) JNull;
     UserInfo.phoneNumber := jor (of_opt (phoneNumber userRecord)) JNull;
     UserInfo.disabled := jor (JBool (disabled userRecord)) (JBool false);
     UserInfo.creationTime := jor (of_opt (creationTime (metadata userRecord))) JNull;
     UserInfo.lastSignInTime := jor (of_opt (lastSignInTime (metadata userRecord))) JNull |}.

(** The [try] block of the handler. *)
Definition driver_details_try (uid : string) : M W Response :=
  userRecord ← getUser uid;
  deliveriesSnap ← once ["deliveries"];
  let deliveriesVal := jor deliveriesSnap (JObj []) in
  loads ← lift (es ← entries deliveriesVal; forEach_push userRecord uid es []);
  ticketsSnap ← once ["scaleTickets"; uid];
  let ticketsVal := jor ticketsSnap (JObj []) in
  tickets ← lift (es ← entries ticketsVal; map_exc ticket_of_entry es);
  ratingsSnap ← once ["driverRatings"; uid];
  let ratingsVal := jor ratingsSnap (JObj []) in
  ratings ← lift (es ← entries ratingsVal; map_exc rating_of_entry es);
  avgRating ← lift (avgRating_of ratings);
  mret (json (BSummary
    {| Summary.user := user_info userRecord;
       Summary.loads := loads;
       Summary.tickets := tickets;
       Summary.ratings := ratings;
       Summary.stats :=
         {| Stats.totalLoads := length loads;
            Stats.totalTickets := length tickets;
            Stats.totalRatings := length ratings;
            Stats.avgRating := avgRating |} |})).

Definition missing_uid : Response :=
  status_json 400 (BError "Missing uid query parameter").

Definition driver_details (req : Request) : M W Response :=
  match query req !! "uid" with
  | None => mret missing_uid
  | Some uid =>
      if negb (truthy (JStr uid)) then mret missing_uid
      else
        try_catch (driver_details_try uid)
          (fun err =>
             console_error "Error in /driver-details:" err;;
             mret (status_json 500
                     (BErrorDetails "Failed to load driver details" (err_message err))))
  end.

(** The routes as registered on the application. *)
Definition app_get_drivers (fuel : nat) : Request -> M W Response :=
  route requireAdminKey (get_drivers fuel).

Definition app_delete_driver : Request -> M W Response :=
  route requireAdminKey delete_driver.

Definition app_get_driver_details : Request -> M W Response :=
  route requireAdminKey driver_details.

End Handlers.

(** ** The single-driver handler of the earlier revision

    The earlier revision of the file protects its routes with
    [requireApiKey] and serves [GET /drivers/:uid]; its [catch] block
    tells the identity store's "no such user" error from every other
    failure. *)

Module Part000.
Section Handlers.
Context {W : Type}.
Variable fb : Firebase W.
Variable ADMIN_API_KEY : string.

Definition requireApiKey (req : Request) : option Response :=
  let key := of_opt (headers req !! "x-admin-api-key") in
  if negb (truthy key) || negb (strict_eq_str key ADMIN_API_KEY)
  then Some (status_json 401 (BError "Unauthorized"))
  else None.

Definition auth_data (userRecord : UserRecord) : AuthData.t :=
  {| AuthData.uid := uid userRecord;
     AuthData.email := of_opt (email userRecord);
     AuthData.displayName := jor (of_opt (displayName userRecord)) JNull;
     AuthData.disabled := JBool (disabled userRecord);
     AuthData.metadata :=
       {| AuthData.creationTime := of_opt (creationTime (metadata userRecord));
          AuthData.lastSignInTime := of_opt (lastSignInTime (metadata userRecord)) |} |}.

Definition get_driver (req : Request) : M W Response :=
  let uid := params req "uid" in
  try_catch
    (userRecord ← getUser fb uid;
     let authData := auth_data userRecord in
     profileSnap ← once fb ["driverProfiles/" +:+ uid];
     let profile := jor profileSnap JNull in
     mret (json (BAuthProfile authData profile)))
    (fun err =>
       console_error "Error getting user:" err;;
       if bool_decide (err_code err = Some "auth/user-not-found")
       then mret (status_json 404 (BError "User not found"))
       else mret (status_json 500 (BError "Failed to fetch driver"))).

Definition app_get_driver : Request -> M W Response :=
  route requireApiKey get_driver.

End Handlers.
End Part000.

(** ** Vocabulary of the statements *)

Definition is_nullish (v : JsVal) : bool :=
  match v with
  | JUndefined | JNull => true
  | _ => false
  end.

(** The field [details.k] of a stored delivery record, [undefined] when
    the record has no [details] or no such field. *)
Definition details_field (obj : JsVal) (k : string) : JsVal :=
  match obj with
  | JObj fields =>
      match assoc "details" fields with
      | JObj dfields => assoc k dfields
      | _ => JUndefined
      end
  | _ => JUndefined
  end.

(** The top-level field [obj.k] of a stored record. *)
Definition record_field (obj : JsVal) (k : string) : JsVal :=
  match obj with
  | JObj fields => assoc k fields
  | _ => JUndefined
  end.

(** The delivery is assigned to the driver by e-mail: both addresses are
    there and agree once lower-cased, which is how the spec compares
    them. *)
Definition assigned_by_email `{!StringCase} (userRecord : UserRecord) (obj : JsVal)
    : bool :=
  match email userRecord, details_field obj "assignedDriverEmail" with
  | Some e, JStr a => bool_decide (toLowerCase a = toLowerCase e)
  | _, _ => false
  end.

(** Two ASCII addresses that differ in the case of their letters only. *)
Definition same_ascii_letters (a e : string) : Prop :=
  is_ascii a = true /\ is_ascii e = true /\
  ascii_toLowerCase a = ascii_toLowerCase e.

(** The delivery is assigned to the driver by id. *)
Definition assigned_by_uid (driverId : string) (obj : JsVal) : bool :=
  match details_field obj "assignedDriverUid" with
  | JStr a => bool_decide (a = driverId)
  | _ => false
  end.

Definition assigned_to `{!StringCase} (userRecord : UserRecord) (driverId : string)
    (obj : JsVal) : bool :=
  assigned_by_email userRecord obj || assigned_by_uid driverId obj.

(** A stored record as the database hands it out: never [null] (the
    database stores no nulls). *)
Definition stored_record (obj : JsVal) : bool := negb (is_nullish obj).

(** A stored delivery whose assigned e-mail, when it has one, is a
    string. *)
Definition stored_delivery (obj : JsVal) : bool :=
  stored_record obj &&
  match details_field obj "assignedDriverEmail" with
  | JStr _ => true
  | v => negb (truthy v)
  end.

(** The entries the handler enumerates from a snapshot value. *)
Definition snapshot_entries (snap : JsVal) : list (string * JsVal) :=
  match entries (jor snap (JObj [])) with
  | Ok es => es
  | Err _ => []
  end.

(** The account store never holds an empty e-mail address. *)
Definition email_nonempty (userRecord : UserRecord) : Prop :=
  email userRecord <> Some "".

(** A stored rating whose value converts to a number without throwing:
    the value is not an object with a property named [toString], nor an
    array holding one. *)
Definition stored_rating (obj : JsVal) : bool :=
  stored_record obj && negb (toString_throws (record_field obj "rating")).

(** What a stored rating value counts for in the average.  A number
    counts for itself and a string for the number it spells; [true] counts
    for 1; an array of one number, string or array counts for what that
    element counts for.  Every other value counts for [0]: a missing value,
    [null], [false], an object, an array of no or of several elements, and
    what would count for [NaN] or for a zero. *)
Definition nan_to_zero (x : float) : float :=
  if PrimFloat.is_nan x then 0%float
  else if PrimFloat.is_zero x then 0%float else x.

Fixpoint counts_for (StringToNumber : string -> float) (v : JsVal) : float :=
  match v with
  | JNum x => nan_to_zero x
  | JStr s => nan_to_zero (StringToNumber s)
  | JBool b => if b then 1%float else 0%float
  | JArr [x] =>
      match x with
      | JNum _ | JStr _ | JArr _ => counts_for StringToNumber x
      | JUndefined | JNull | JBool _ | JObj _ => 0%float
      end
  | JUndefined | JNull | JArr _ | JObj _ => 0%float
  end.

(** The sum of numbers added one by one from the left, starting from [0],
    and their mean, each operation rounded as doubles are. *)
Definition double_sum (l : list float) : float :=
  fold_left PrimFloat.add l 0%float.

Definition double_mean (l : list float) : float :=
  (double_sum l / number_of_nat (length l))%float.

(** What the entries of a rating partition count for, in order. *)
Definition counted_ratings (StringToNumber : string -> float) (ratingsSnap : JsVal)
    : list float :=
  map (fun e => counts_for StringToNumber (record_field e.2 "rating"))
    (snapshot_entries ratingsSnap).

(** What [JSON.stringify], and with it [res.json], writes for a value: a
    number that is not finite is written [null]. *)
Definition as_sent (v : JsVal) : JsVal :=
  match v with
  | JNum x => if PrimFloat.is_finite x then JNum x else JNull
  | _ => v
  end.

(** The pages [listUsers] hands out when each request carries the token of
    the previous response, up to the first response without a (non-empty)
    token. *)
Inductive page_chain {W : Type} (fb : Firebase W) :
    option string -> W -> list ListUsersResult -> list Event -> W -> Prop :=
| chain_last tok w r w' :
    auth_listUsers fb 1000 tok w = (Ok r, w') ->
    truthy (of_opt (pageToken r)) = false ->
    page_chain fb tok w [r] [EvListUsers 1000 tok] w'
| chain_next tok w r w' rs evs w'' :
    auth_listUsers fb 1000 tok w = (Ok r, w') ->
    truthy (of_opt (pageToken r)) = true ->
    page_chain fb (pageToken r) w' rs evs w'' ->
    page_chain fb tok w (r :: rs) (EvListUsers 1000 tok :: evs) w''.

(** What the [forEach] callback pushes for an entry, nothing when it
    throws. *)
Definition pushed_load `{!StringCase} (userRecord : UserRecord) (uid : string)
    (entry : string * JsVal) : option Load.t :=
  match load_of_entry userRecord uid entry with
  | Ok r => r
  | Err _ => None
  end.

(** The results of a callback on the entries on which it does not throw. *)
Definition values_of {A B} (f : A -> Exc B) (l : list A) : list B :=
  omap (fun a => match f a with Ok b => Some b | Err _ => None end) l.

(** The four reads of a successful [GET /driver-details], in order: the
    identity record, then the values stored under [deliveries],
    [scaleTickets/uid] and [driverRatings/uid]. *)
Definition store_reads {W} (fb : Firebase W) (uid : string) (w0 : W)
    (userRecord : UserRecord) (deliveriesSnap ticketsSnap ratingsSnap : JsVal)
    (w4 : W) : Prop :=
  exists w1 w2 w3,
    auth_getUser fb uid w0 = (Ok userRecord, w1) /\
    db_once fb ["deliveries"] w1 = (Ok deliveriesSnap, w2) /\
    db_once fb ["scaleTickets"; uid] w2 = (Ok ticketsSnap, w3) /\
    db_once fb ["driverRatings"; uid] w3 = (Ok ratingsSnap, w4).

Definition read_events (uid : string) : list Event :=
  [EvGetUser uid; EvOnce ["deliveries"]; EvOnce ["scaleTickets"; uid];
   EvOnce ["driverRatings"; uid]].

(** The three snapshots hold stored records only. *)
Definition well_stored (deliveriesSnap ticketsSnap ratingsSnap : JsVal) : Prop :=
  Forall (fun e => stored_delivery e.2 = true) (snapshot_entries deliveriesSnap) /\
  Forall (fun e => stored_record e.2 = true) (snapshot_entries ticketsSnap) /\
  Forall (fun e => stored_rating e.2 = true) (snapshot_entries ratingsSnap).

(** The average the handler computes, [null] when the computation
    throws. *)
Definition avgRating_value (StringToNumber : string -> float)
    (ratings : list Rating.t) : JsVal :=
  match avgRating_of StringToNumber ratings with
  | Ok v => v
  | Err _ => JNull
  end.

(** The summary the handler assembles from what it read. *)
Definition summary_of `{!StringCase} (StringToNumber : string -> float)
    (userRecord : UserRecord) (uid : string)
    (deliveriesSnap ticketsSnap ratingsSnap : JsVal) : Summary.t :=
  let loads := omap (pushed_load userRecord uid) (snapshot_entries deliveriesSnap) in
  let tickets := values_of ticket_of_entry (snapshot_entries ticketsSnap) in
  let ratings := values_of rating_of_entry (snapshot_entries ratingsSnap) in
  {| Summary.user := user_info userRecord;
     Summary.loads := loads;
     Summary.tickets := tickets;
     Summary.ratings := ratings;
     Summary.stats :=
       {| Stats.totalLoads := length loads;
          Stats.totalTickets := length tickets;
          Stats.totalRatings := length ratings;
          Stats.avgRating := avgRating_value StringToNumber ratings |} |}.

(** How a projected field relates to the stored one: a stored number is
    carried, a zero of either sign as [0], and an absent one becomes [0];
    a stored string is carried and an absent one becomes the empty string;
    an absent value becomes [null]. *)
Definition number_or_zero (stored projected : JsVal) : Prop :=
  (forall x, stored = JNum x -> number_truthy x = true -> projected = JNum x) /\
  (forall x, stored = JNum x -> PrimFloat.is_zero x = true -> projected = JNum 0) /\
  (stored = JUndefined -> projected = JNum 0).

Definition string_or_empty (stored projected : JsVal) : Prop :=
  (forall s, stored = JStr s -> projected = JStr s) /\
  (stored = JUndefined -> projected = JStr "").

Definition null_when_absent (stored projected : JsVal) : Prop :=
  stored = JUndefined -> projected = JNull.

(** A load is the projection of a stored delivery. *)
Definition load_projects (obj : JsVal) (l : Load.t) : Prop :=
  number_or_zero (details_field obj "yards") (Load.yards l) /\
  number_or_zero (details_field obj "revenue") (Load.revenue l) /\
  number_or_zero (details_field obj "profit") (Load.profit l) /\
  string_or_empty (details_field obj "customerName") (Load.customerName l) /\
  string_or_empty (details_field obj "address") (Load.address l) /\
  string_or_empty (details_field obj "items") (Load.items l) /\
  null_when_absent (record_field obj "createdAt") (Load.createdAt l).

(** No field of the load is [undefined]. *)
Definition load_defined (l : Load.t) : Prop :=
  Load.status l <> JUndefined /\
  Load.customerName l <> JUndefined /\
  Load.address l <> JUndefined /\
  Load.items l <> JUndefined /\
  Load.yards l <> JUndefined /\
  Load.revenue l <> JUndefined /\
  Load.profit l <> JUndefined /\
  Load.createdAt l <> JUndefined.

(** A channel carries a secret when it is present and not empty. *)
Definition nonempty (o : option string) : option string :=
  match o with
  | Some k => if bool_decide (k = "") then None else Some k
  | None => None
  end.

(** The secret a request presents: the first non-empty one of the two
    headers and the query parameter, in that order. *)
Definition presented_key (req : Request) : option string :=
  match nonempty (headers req !! "x-admin-api-key") with
  | Some k => Some k
  | None =>
      match nonempty (headers req !! "x-admin-key") with
      | Some k => Some k
      | None => nonempty (query req !! "key")
      end
  end.

(** ** Test doubles

    For the host's lower-casing: the ASCII one, which is the method's
    result on ASCII text. *)

#[global, refine] Instance ascii_case : StringCase :=
  {| toLowerCase := ascii_toLowerCase |}.
Proof.
  - intros [|c s]; [reflexivity | discriminate].
  - reflexivity.
Defined.

(** For the two Firebase services. *)

Module Mock.

Record World : Type := {
  accounts : list UserRecord;
  database : JsVal;
  database_up : bool
}.

Definition user_not_found : JsError :=
  {| err_code := Some "auth/user-not-found";
     err_message := "There is no user record corresponding to the provided identifier." |}.

Definition unavailable : JsError :=
  {| err_code := None; err_message := "Database unavailable" |}.

Definition has_uid (x : string) (u : UserRecord) : bool := bool_decide (uid u = x).

Definition getUser (x : string) (w : World) : Exc UserRecord * World :=
  match List.find (has_uid x) (accounts w) with
  | Some u => (Ok u, w)
  | None => (Err user_not_found, w)
  end.

Definition deleteUser (x : string) (w : World) : Exc () * World :=
  match List.find (has_uid x) (accounts w) with
  | Some _ =>
      (Ok (), {| accounts := List.filter (fun u => negb (has_uid x u)) (accounts w);
                 database := database w;
                 database_up := database_up w |})
  | None => (Err user_not_found, w)
  end.

(** Pages are cut after the account whose uid is the token. *)
Fixpoint after_uid (tok : string) (l : list UserRecord) : list UserRecord :=
  match l with
  | [] => []
  | u :: rest => if has_uid tok u then rest else after_uid tok rest
  end.

Definition listUsers (maxResults : N) (tok : option string) (w : World)
    : Exc ListUsersResult * World :=
  let rest :=
    match tok with
    | None => accounts w
    | Some t => after_uid t (accounts w)
    end in
  let page := take (N.to_nat maxResults) rest in
  (Ok {| users := page;
         pageToken :=
           match drop (N.to_nat maxResults) rest with
           | [] => None
           | _ :: _ => uid <$> last page
           end |}, w).

(** Path segments are separated by a slash. *)
Fixpoint split_path (acc : string) (s : string) : list string :=
  match s with
  | EmptyString => [acc]
  | String c rest =>
      if bool_decide (c = "/"%char) then acc :: split_path "" rest
      else split_path (acc +:+ String c EmptyString) rest
  end.

Definition child (v : JsVal) (k : string) : JsVal :=
  match v with
  | JObj fields => assoc k fields
  | _ => JUndefined
  end.

Definition once (path : list string) (w : World) : Exc JsVal * World :=
  if database_up w
  then
    let v := fold_left child (concat (map (split_path "") path)) (database w) in
    (Ok (if is_nullish v then JNull else v), w)
  else (Err unavailable, w).

Definition firebase : Firebase World :=
  {| auth_getUser := getUser;
     auth_listUsers := listUsers;
     auth_deleteUser := deleteUser;
     db_once := once |}.

(** Short decimal literals made of digits only, and the empty string;
    every other string is read as [NaN].  Enough for the examples. *)
Fixpoint digits_value (acc : float) (s : string) : float :=
  match s with
  | EmptyString => acc
  | String c rest =>
      let n := N_of_ascii c in
      if (48 <=? n)%N && (n <=? 57)%N
      then digits_value (acc * 10 + number_of_nat (N.to_nat (n - 48)))%float rest
      else PrimFloat.nan
  end.

Definition StringToNumber (s : string) : float := digits_value 0%float s.

Definition key : string := "s3cret".

Definition no_metadata : UserMetadata :=
  {| creationTime := Some "Mon, 01 Jan 2024 00:00:00 GMT"; lastSignInTime := None |}.

Definition driver (x : string) (mail : option string) : UserRecord :=
  {| uid := x; email := mail; displayName := None; phoneNumber := None;
     disabled := false; metadata := no_metadata |}.

Definition request (hs qs : list (string * string)) (x : string) : Request :=
  {| headers := list_to_map hs; query := list_to_map qs; params := fun _ => x |}.

Definition st0 (w : World) : St World := mkSt w [].

(** A small data set: three drivers, five deliveries, one ticket and
    three ratings. *)
Definition deliveries : JsVal :=
  JObj
    [("L1", JObj [("details",
                   JObj [("assignedDriverEmail", JStr "a@b.com");
                         ("customerName", JStr "Ann");
                         ("revenue", JNum 120)]);
                  ("createdAt", JNum 1700000000)]);
     ("L2", JObj [("details",
                   JObj [("assignedDriverUid", JStr "d1");
                         ("assignedDriverEmail", JStr "A@b.COM");
                         ("yards", JNum 12)]);
                  ("status", JStr "delivered")]);
     ("L3", JObj [("details", JObj [("assignedDriverUid", JStr "d2")])]);
     ("L4", JObj [("status", JStr "pending")]);
     ("L5", JObj [("details", JObj [("assignedDriverEmail", JStr "")])])].

Definition tickets_d1 : JsVal :=
  JObj [("t1", JObj [("url", JStr "https://files.example/t1.jpg")])].

Definition ratings_d1 : JsVal :=
  JObj [("r1", JObj [("rating", JNum 5)]);
        ("r2", JObj [("rating", JNum 3); ("comment", JStr "on time")]);
        ("r3", JObj [("rating", JNull); ("comment", JStr "no stars given")])].

Definition d1 : UserRecord := driver "d1" (Some "A@B.com").
Definition d2 : UserRecord := driver "d2" None.
Definition d3 : UserRecord := driver "d3" (Some "carol@example.com").

Definition demo : World :=
  {| accounts := [d1; d2; d3];
     database :=
       JObj [("deliveries", deliveries);
             ("scaleTickets", JObj [("d1", tickets_d1)]);
             ("driverRatings", JObj [("d1", ratings_d1)])];
     database_up := true |}.

(** An authorised request for the driver [x], as a query parameter and as
    a route parameter. *)
Definition request_for (x : string) : Request :=
  request [("x-admin-api-key", key)] [("uid", x)] x.


(** An account store of 2037 drivers, which [listUsers] hands out in
    pages of 1000, 1000 and 37. *)
Definition fleet : World :=
  {| accounts := map (fun i : nat => driver ("u" +:+ pretty i) None) (seq 0 2037);
     database := JNull;
     database_up := true |}.

Definition fleet_page (tok : option string) : ListUsersResult :=
  match (listUsers 1000 tok fleet).1 with
  | Ok r => r
  | Err _ => {| users := []; pageToken := None |}
  end.

Definition fleet_pages : list ListUsersResult :=
  let p1 := fleet_page None in
  let p2 := fleet_page (pageToken p1) in
  let p3 := fleet_page (pageToken p2) in
  [p1; p2; p3].

End Mock.

(** ** The rest of [server.js] *)

(** *** Start-up (lines 6-32 and 199)

    [FB_PRIVATE_KEY.replace(/\\n/g, '\n')]: every backslash followed by
    the letter [n] becomes a line feed, scanning from the left. *)

Definition backslash : ascii := ascii_of_N 92.
Definition line_feed : ascii := ascii_of_N 10.

Definition is_escaped_newline (c c' : ascii) : bool :=
  bool_decide (c = backslash) && bool_decide (c' = "n"%char).

Fixpoint replace_escaped_newlines (s : string) : string :=
  match s with
  | EmptyString => EmptyString
  | String c rest =>
      match rest with
      | String c' rest' =>
          if is_escaped_newline c c'
          then String line_feed (replace_escaped_newlines rest')
          else String c (replace_escaped_newlines rest)
      | EmptyString => String c EmptyString
      end
  end.

(** The string contains a backslash followed by [n]. *)
Fixpoint has_escaped_newline (s : string) : bool :=
  match s with
  | EmptyString => false
  | String c rest =>
      match rest with
      | String c' _ => is_escaped_newline c c' || has_escaped_newline rest
      | EmptyString => false
      end
  end.

(** What the process is started with: the arguments of
    [admin.initializeApp], the admin key and the port. *)
Record Config : Type := {
  projectId : string;
  clientEmail : string;
  privateKey : string;
  databaseURL : string;
  ADMIN_API_KEY : string;
  PORT : JsVal
}.

Inductive Startup : Type :=
| Exit (code : N) (stderr : list string)
| Listening (cfg : Config).

(** The module body up to [app.listen]: the five variables must be set
    and not empty, otherwise the process logs two lines and exits with
    code 1. *)
Definition startup (env : gmap string string) : Startup :=
  let missing :=
    Exit 1 ["Missing one or more required environment variables.";
            "Required: FB_PROJECT_ID, FB_CLIENT_EMAIL, FB_PRIVATE_KEY, FB_DATABASE_URL, ADMIN_API_KEY"] in
  match env !! "FB_PROJECT_ID", env !! "FB_CLIENT_EMAIL", env !! "FB_PRIVATE_KEY",
        env !! "FB_DATABASE_URL", env !! "ADMIN_API_KEY" with
  | Some FB_PROJECT_ID, Some FB_CLIENT_EMAIL, Some FB_PRIVATE_KEY,
    Some FB_DATABASE_URL, Some key =>
      if negb (truthy (JStr FB_PROJECT_ID)) || negb (truthy (JStr FB_CLIENT_EMAIL))
         || negb (truthy (JStr FB_PRIVATE_KEY)) || negb (truthy (JStr FB_DATABASE_URL))
         || negb (truthy (JStr key))
      then missing
      else
        Listening
          {| projectId := FB_PROJECT_ID;
             clientEmail := FB_CLIENT_EMAIL;
             privateKey := replace_escaped_newlines FB_PRIVATE_KEY;
             databaseURL := FB_DATABASE_URL;
             ADMIN_API_KEY := key;
             PORT := jor (of_opt (env !! "PORT")) (JNum 10000) |}
  | _, _, _, _, _ => missing
  end.

(** The variables the process cannot start without. *)
Definition required_variables : list string :=
  ["FB_PROJECT_ID"; "FB_CLIENT_EMAIL"; "FB_PRIVATE_KEY"; "FB_DATABASE_URL";
   "ADMIN_API_KEY"].

(** *** The older copy of the key check (lines 247-253) *)

Module Older.

Definition requireAdminKey (ADMIN_API_KEY : string) (req : Request) : option Response :=
  let key :=
    jor (of_opt (headers req !! "x-admin-api-key")) (of_opt (query req !! "key")) in
  if negb (truthy key) || negb (strict_eq_str key ADMIN_API_KEY)
  then Some (status_json 401 (BError "Unauthorized"))
  else None.

End Older.

(** *** The earlier revision's [DELETE /drivers/:uid]

    It deletes the account and then clears two database nodes with one
    multi-path [update].  The update is an adapter call of its own,
    [db_update]; it is not among the recorded events. *)

Module Part000Delete.

Inductive DeleteBody : Type :=
| BSuccess (uid : string)
| BFailed (error : string).

Record DeleteResponse : Type := {
  status : N;
  body : DeleteBody
}.

Section Handlers.
Context {W : Type}.
Variable fb : Firebase W.
Variable db_update : JsVal -> W -> Exc () * W.

Definition update (updates : JsVal) : M W () :=
  fun st =>
    let '(r, w) := db_update updates (world st) in
    match r with
    | Ok a => (Return a, mkSt w (events st))
    | Err e => (Throw e, mkSt w (events st))
    end.

Definition delete_driver (req : Request) : M W DeleteResponse :=
  let uid := params req "uid" in
  try_catch
    (deleteUser fb uid;;
     let updates :=
       JObj [("/driverProfiles/" +:+ uid, JNull);
             ("/driverUploads/" +:+ uid, JNull)] in
     update updates;;
     mret {| status := 200; body := BSuccess uid |})
    (fun err =>
       console_error "Error deleting user:" err;;
       mret {| status := 500; body := BFailed "Failed to delete driver" |}).

End Handlers.
End Part000Delete.

(** ** More vocabulary *)

(** Pages that all carry a token: the requests made before the one for
    [tok'] in world [w']. *)
Inductive page_prefix {W : Type} (fb : Firebase W) :
    option string -> W -> list ListUsersResult -> list Event
    -> option string -> W -> Prop :=
| prefix_nil tok w : page_prefix fb tok w [] [] tok w
| prefix_cons tok w r w1 rs evs tok' w' :
    auth_listUsers fb 1000 tok w = (Ok r, w1) ->
    truthy (of_opt (pageToken r)) = true ->
    page_prefix fb (pageToken r) w1 rs evs tok' w' ->
    page_prefix fb tok w (r :: rs) (EvListUsers 1000 tok :: evs) tok' w'.

(** The events [GET /drivers] may add. *)
Definition listing_event (ev : Event) : Prop :=
  (exists tok, ev = EvListUsers 1000 tok) \/
  (exists e, ev = EvConsoleError "Error listing users:" e).

(** Two identity records whose e-mail addresses differ in letter case
    only. *)
Definition same_email_up_to_case `{!StringCase} (u u' : UserRecord) : Prop :=
  match email u, email u' with
  | Some e, Some e' => toLowerCase e = toLowerCase e'
  | None, None => True
  | _, _ => False
  end.

(** A projected value is the stored one when that is truthy, and the
    default otherwise. *)
Definition stored_or (default stored projected : JsVal) : Prop :=
  (truthy stored = true -> projected = stored) /\
  (truthy stored = false -> projected = default).

(** A ticket and a rating are the projections of a stored record. *)
Definition ticket_projects (obj : JsVal) (t : Ticket.t) : Prop :=
  stored_or (JStr "") (record_field obj "url") (Ticket.url t) /\
  stored_or (JStr "") (record_field obj "fileName") (Ticket.fileName t) /\
  stored_or JNull (record_field obj "uploadedAt") (Ticket.uploadedAt t) /\
  stored_or JNull (record_field obj "loadId") (Ticket.loadId t).

Definition rating_projects (obj : JsVal) (r : Rating.t) : Prop :=
  stored_or JNull (record_field obj "rating") (Rating.rating r) /\
  stored_or (JStr "") (record_field obj "comment") (Rating.comment r) /\
  stored_or (JStr "") (record_field obj "customerName") (Rating.customerName r) /\
  stored_or JNull (record_field obj "loadId") (Rating.loadId r) /\
  stored_or JNull (record_field obj "createdAt") (Rating.createdAt r).

(** A test double whose [listUsers] always hands out one more token. *)
Definition endless : Firebase () :=
  {| auth_getUser := fun _ w => (Err (TypeError "not used"), w);
     auth_listUsers := fun _ _ w => (Ok {| users := []; pageToken := Some "more" |}, w);
     auth_deleteUser := fun _ w => (Err (TypeError "not used"), w);
     db_once := fun _ w => (Err (TypeError "not used"), w) |}.

(** A test double whose second page request fails. *)
Definition second_page_fails : Firebase () :=
  {| auth_getUser := fun _ w => (Err (TypeError "not used"), w);
     auth_listUsers := fun _ tok w =>
       match tok with
       | None => (Ok {| users := [Mock.d1]; pageToken := Some "p2" |}, w)
       | Some _ => (Err Mock.unavailable, w)
       end;
     auth_deleteUser := fun _ w => (Err (TypeError "not used"), w);
     db_once := fun _ w => (Err (TypeError "not used"), w) |}.

(** An environment with every variable set, the private key with escaped
    line breaks. *)
Definition sample_env : gmap string string :=
  list_to_map
    [("FB_PROJECT_ID", "riteway"); ("FB_CLIENT_EMAIL", "svc@riteway.example");
     ("FB_PRIVATE_KEY", "-----BEGIN KEY-----" +:+ String backslash "nMIIB"
                        +:+ String backslash "n-----END KEY-----");
     ("FB_DATABASE_URL", "https://riteway.example"); ("ADMIN_API_KEY", "s3cret")].

(** A driver without deliveries or tickets and with the given rating
    values. *)
Definition rated (values : list JsVal) : Mock.World :=
  {| Mock.accounts := [Mock.driver "d4" None];
     Mock.database :=
       JObj [("driverRatings",
              JObj [("d4", JArr (map (fun v => JObj [("rating", v)]) values))])];
     Mock.database_up := true |}.

(** Two ratings of [2^1023], half the largest power of two a double
    holds. *)
Definition huge_ratings : Mock.World := rated [JNum 0x1p1023; JNum 0x1p1023].

(** The error of the first adapter call that fails in the earlier
    revision's [GET /drivers/:uid], if any: the identity lookup, then the
    read of the profile. *)
Definition get_driver_failure {W} (fb : Firebase W) (uid : string) (w : W)
    : option JsError :=
  match auth_getUser fb uid w with
  | (Err e, _) => Some e
  | (Ok _, w1) =>
      match db_once fb ["driverProfiles/" +:+ uid] w1 with
      | (Err e, _) => Some e
      | (Ok _, _) => None
      end
  end.

(** The two nodes the earlier revision's delete clears. *)
Definition cascade_updates (uid : string) : JsVal :=
  JObj [("/driverProfiles/" +:+ uid, JNull); ("/driverUploads/" +:+ uid, JNull)].

(** A stand-in for the multi-path update: it fails when the database is
    down and leaves the stored data alone. *)
Definition mock_update (updates : JsVal) (w : Mock.World) : Exc () * Mock.World :=
  if Mock.database_up w then (Ok (), w) else (Err Mock.unavailable, w).

Definition database_down : Mock.World :=
  {| Mock.accounts := [Mock.d1; Mock.d2];
     Mock.database := JNull;
     Mock.database_up := false |}.

(** ** Proof steps

    [unfold_m] exposes the state transformer behind the monadic notation;
    [mock_reads] and [all_entries] discharge, by evaluation, the reads of
    the test double and a condition on every entry of a concrete
    snapshot. *)

Ltac unfold_m :=
  unfold mbind, mret, M_bind, M_ret, m_bind, m_ret, try_catch, call, lift,
    console_error, diverge in *.

Ltac mock_reads :=
  exists Mock.demo, Mock.demo, Mock.demo; repeat split; vm_compute; reflexivity.

Ltac all_entries :=
  match goal with
  | |- Forall _ ?l => let l' := eval vm_compute in l in change l with l'
  end;
  repeat first [apply List.Forall_nil
               | apply List.Forall_cons; [try split; reflexivity|]].

(** Names the required variable that the hypothesis [H] shows unset or
    empty. *)
Ltac name_missing H :=
  match type of H with
  | _ !! ?v = _ =>
      exists v; split; [unfold required_variables; repeat constructor | by rewrite H]
  end.

(** * Properties *)

(** ** Values *)

Example truthy_zero :
  truthy (JNum 0) = false /\ truthy (JNum (-0)) = false /\
  truthy (JNum PrimFloat.nan) = false.
Proof. repeat split. Qed.

Example truthy_five : truthy (JNum 5) = true.
Proof. reflexivity. Qed.

Example lower_mixed : ascii_toLowerCase "A@B.com" = "a@b.com".
Proof. reflexivity. Qed.

(** Whatever the host's lower-casing does to other text, it agrees with
    the ASCII one on the addresses of the spec's example. *)
Lemma lower_mixed_everywhere {SC : StringCase} :
  toLowerCase "A@B.com" = "a@b.com" /\ toLowerCase "a@b.com" = "a@b.com".
Proof. split; by rewrite toLowerCase_ascii. Qed.

Example entries_string : entries (JStr "ab") = Ok [("0", JStr "a"); ("1", JStr "b")].
Proof. reflexivity. Qed.

Lemma truthy_JStr s : truthy (JStr s) = true <-> s <> "".
Proof.
  simpl. case_bool_decide; simpl; split; intros; congruence.
Qed.


Lemma toLowerCase_empty {SC : StringCase} s : toLowerCase s = "" -> s = "".
Proof. apply toLowerCase_nonempty. Qed.

Lemma toLowerCase_of_empty {SC : StringCase} : toLowerCase "" = "".
Proof. by rewrite toLowerCase_ascii. Qed.



Lemma jor_not_undefined a b : b <> JUndefined -> jor a b <> JUndefined.
Proof.
  unfold jor. intros Hb. destruct (truthy a) eqn:Ha; [|exact Hb].
  intros ->. discriminate.
Qed.

Lemma get_stored obj k :
  is_nullish obj = false -> get obj k = Ok (record_field obj k).
Proof. destruct obj; simpl; intros; congruence. Qed.

(** ** The API key check *)

Lemma nonempty_cases o :
  (exists k, nonempty o = Some k /\ of_opt o = JStr k /\ k <> ""
             /\ truthy (of_opt o) = true) \/
  (nonempty o = None /\ truthy (of_opt o) = false).
Proof.
  destruct o as [k|]; simpl; [|right; auto].
  case_bool_decide; simpl; [right; auto|].
  left. exists k. auto.
Qed.

Lemma requireAdminKey_presented K req :
  requireAdminKey K req =
  if bool_decide (presented_key req = Some K) then None
  else Some (status_json 401 (BError "Unauthorized")).
Proof.
  unfold requireAdminKey, presented_key, jor.
  destruct (nonempty_cases (headers req !! "x-admin-api-key"))
    as [(a & -> & Ha & Hna & ->) | [-> ->]].
  { rewrite Ha. simpl. rewrite (bool_decide_false (a = "")) by done. simpl.
    repeat case_bool_decide; simpl; congruence. }
  destruct (nonempty_cases (headers req !! "x-admin-key"))
    as [(b & -> & Hb & Hnb & ->) | [-> ->]].
  { rewrite Hb. simpl. rewrite (bool_decide_false (b = "")) by done. simpl.
    repeat case_bool_decide; simpl; congruence. }
  destruct (nonempty_cases (query req !! "key"))
    as [(c & -> & Hc & Hnc & Htc) | [-> ->]].
  { rewrite Htc, Hc. simpl.
    destruct (decide (c = K)) as [->|Hne].
    - rewrite !bool_decide_true by done. reflexivity.
    - rewrite !bool_decide_false by congruence. reflexivity. }
  reflexivity.
Qed.

(** ** Running handler bodies *)



Lemma delete_driver_run {W} (fb : Firebase W) req w evs :
  delete_driver fb req (mkSt w evs) =
  match auth_deleteUser fb (params req "uid") w with
  | (Ok _, w') =>
      (Return (json BOkTrue), mkSt w' (evs ++ [EvDeleteUser (params req "uid")]))
  | (Err e, w') =>
      (Return (status_json 500 (BError "Failed to delete user")),
       mkSt w' ((evs ++ [EvDeleteUser (params req "uid")])
                ++ [EvConsoleError "Error deleting user:" e]))
  end.
Proof.
  unfold delete_driver, deleteUser. unfold_m. simpl.
  destruct (auth_deleteUser fb (params req "uid") w) as [[[]|e] w']; reflexivity.
Qed.

(** When the identity lookup fails, the handler answers 500 with the
    error's message, after exactly one adapter call. *)
Lemma driver_details_lookup_fails {SC : StringCase} {W} (fb : Firebase W) S req uid w evs e w' :
  query req !! "uid" = Some uid ->
  uid <> "" ->
  auth_getUser fb uid w = (Err e, w') ->
  driver_details fb S req (mkSt w evs) =
  (Return (status_json 500
             (BErrorDetails "Failed to load driver details" (err_message e))),
   mkSt w' ((evs ++ [EvGetUser uid])
            ++ [EvConsoleError "Error in /driver-details:" e])).
Proof.
  intros Hq Hne Hget. unfold driver_details. rewrite Hq.
  rewrite (proj2 (truthy_JStr uid) Hne). simpl.
  unfold driver_details_try, getUser. unfold_m. simpl.
  rewrite Hget. reflexivity.
Qed.

Lemma get_driver_lookup_fails {W} (fb : Firebase W) req w evs e w' :
  auth_getUser fb (params req "uid") w = (Err e, w') ->
  Part000.get_driver fb req (mkSt w evs) =
  (Return (if bool_decide (err_code e = Some "auth/user-not-found")
           then status_json 404 (BError "User not found")
           else status_json 500 (BError "Failed to fetch driver")),
   mkSt w' ((evs ++ [EvGetUser (params req "uid")])
            ++ [EvConsoleError "Error getting user:" e])).
Proof.
  intros Hget. unfold Part000.get_driver, getUser. unfold_m. simpl.
  rewrite Hget. case_bool_decide; reflexivity.
Qed.

(** ** The scan of the deliveries *)

Lemma entries_snapshot snap :
  entries (jor snap (JObj [])) = Ok (snapshot_entries snap).
Proof.
  unfold snapshot_entries, jor.
  destruct snap; simpl; try reflexivity.
  - destruct b; reflexivity.
  - destruct (number_truthy _); reflexivity.
  - destruct (negb _); reflexivity.
Qed.

Lemma get_details obj k :
  is_nullish obj = false ->
  get (jor (record_field obj "details") (JObj [])) k = Ok (details_field obj k).
Proof.
  intros Hn. unfold details_field, record_field, jor.
  destruct obj as [| |b|q|s|l|fields]; try discriminate; try reflexivity.
  destruct (assoc "details" fields) as [| |b|q|s|l|dfields]; simpl;
    try reflexivity.
  - destruct b; reflexivity.
  - destruct (number_truthy _); reflexivity.
  - destruct (negb _); reflexivity.
Qed.

(** The callback, once the property reads are resolved. *)
Lemma load_of_entry_stored_eq {SC : StringCase} userRecord uid id obj :
  is_nullish obj = false ->
  load_of_entry userRecord uid (id, obj) =
  (assignedEmail ← call_toLowerCase
                     (jor (details_field obj "assignedDriverEmail") (JStr ""));
   if email_matches userRecord assignedEmail
      || strict_eq_str (jor (details_field obj "assignedDriverUid") JNull) uid
   then
     Ok (Some {| Load.id := id;
                 Load.status := jor (record_field obj "status") (JStr "pending");
                 Load.customerName := jor (details_field obj "customerName") (JStr "");
                 Load.address := jor (details_field obj "address") (JStr "");
                 Load.items := jor (details_field obj "items") (JStr "");
                 Load.yards := jor (details_field obj "yards") (JNum 0);
                 Load.revenue := jor (details_field obj "revenue") (JNum 0);
                 Load.profit := jor (details_field obj "profit") (JNum 0);
                 Load.createdAt := jor (record_field obj "createdAt") JNull |})
   else Ok None).
Proof.
  intros Hn. unfold load_of_entry.
  rewrite !(get_stored obj) by exact Hn.
  unfold mbind, mret, Exc_bind, Exc_ret. simpl.
  rewrite !(get_details obj) by exact Hn. simpl.
  destruct (call_toLowerCase _) as [assignedEmail|e]; simpl; [|reflexivity].
  destruct (_ || _); reflexivity.
Qed.

Lemma load_of_entry_nullish {SC : StringCase} userRecord uid id obj :
  is_nullish obj = true ->
  exists e, load_of_entry userRecord uid (id, obj) = Err e.
Proof.
  destruct obj; try discriminate; intros _; eexists; reflexivity.
Qed.

(** The assigned e-mail of a stored delivery, lower-cased as the callback
    does. *)
Lemma assigned_email_lowered {SC : StringCase} obj :
  stored_delivery obj = true ->
  exists a,
    call_toLowerCase (jor (details_field obj "assignedDriverEmail") (JStr ""))
      = Ok (toLowerCase a) /\
    match details_field obj "assignedDriverEmail" with
    | JStr s => a = s
    | _ => a = ""
    end.
Proof.
  unfold stored_delivery, jor. intros [_ Hok]%andb_true_iff.
  destruct (details_field obj "assignedDriverEmail") as [| |b|q|s|l|fields];
    simpl in *; try (exists ""; split; reflexivity).
  - destruct b; [discriminate|]. exists "". split; reflexivity.
  - apply negb_true_iff in Hok. rewrite Hok. exists "". split; reflexivity.
  - exists s. case_bool_decide; subst; split; reflexivity.
  - discriminate.
  - discriminate.
Qed.

Lemma uid_test_assigned uid obj :
  uid <> "" ->
  strict_eq_str (jor (details_field obj "assignedDriverUid") JNull) uid
  = assigned_by_uid uid obj.
Proof.
  intros Hne. unfold assigned_by_uid, jor.
  destruct (details_field obj "assignedDriverUid") as [| |b|q|s|l|fields];
    simpl; try reflexivity.
  - destruct b; reflexivity.
  - destruct (number_truthy _); reflexivity.
  - case_bool_decide; subst; simpl; [|reflexivity].
    symmetry. apply bool_decide_false. congruence.
Qed.

Lemma email_test_assigned {SC : StringCase} userRecord obj a :
  match details_field obj "assignedDriverEmail" with
  | JStr s => a = s
  | _ => a = ""
  end ->
  email_matches userRecord (toLowerCase a)
  = truthy (of_opt (email userRecord)) && assigned_by_email userRecord obj.
Proof.
  unfold email_matches, assigned_by_email. intros Ha.
  destruct (email userRecord) as [e|]; [|reflexivity].
  change (truthy (of_opt (Some e))) with (truthy (JStr e)).
  destruct (truthy (JStr e)) eqn:He; [|reflexivity]. simpl.
  apply truthy_JStr in He.
  destruct (details_field obj "assignedDriverEmail"); subst;
    try (apply bool_decide_false; rewrite toLowerCase_of_empty; intros Hl;
         symmetry in Hl; apply toLowerCase_empty in Hl; congruence).
  reflexivity.
Qed.

(** The callback on a stored delivery never throws, and pushes exactly
    when the e-mail test or the id test succeeds. *)
Lemma load_of_entry_stored {SC : StringCase} userRecord uid id obj :
  stored_delivery obj = true ->
  uid <> "" ->
  exists r,
    load_of_entry userRecord uid (id, obj) = Ok r /\
    (forall l, r = Some l -> Load.id l = id) /\
    (is_Some r <->
     truthy (of_opt (email userRecord)) && assigned_by_email userRecord obj
     || assigned_by_uid uid obj = true).
Proof.
  intros Hst Hne.
  assert (Hn : is_nullish obj = false).
  { unfold stored_delivery, stored_record in Hst.
    apply andb_true_iff in Hst as [Hst _]. by apply negb_true_iff in Hst. }
  rewrite load_of_entry_stored_eq by exact Hn.
  destruct (assigned_email_lowered obj Hst) as (a & -> & Ha).
  unfold mbind, Exc_bind. simpl.
  rewrite (email_test_assigned userRecord obj a Ha), (uid_test_assigned uid obj Hne).
  destruct (_ || _); eexists; (split; [reflexivity|]); split.
  - intros l [= <-]. reflexivity.
  - split; [reflexivity | eauto].
  - intros l [=].
  - split; [intros [l [=]] | discriminate].
Qed.

Lemma forEach_push_cons {SC : StringCase} userRecord uid entry es loads :
  forEach_push userRecord uid (entry :: es) loads =
  match load_of_entry userRecord uid entry with
  | Ok pushed =>
      forEach_push userRecord uid es
        (match pushed with
         | Some l => loads ++ [l]
         | None => loads
         end)
  | Err e => Err e
  end.
Proof. reflexivity. Qed.

Lemma omap_pushed_cons {SC : StringCase} userRecord uid entry es :
  omap (pushed_load userRecord uid) (entry :: es) =
  match pushed_load userRecord uid entry with
  | Some l => l :: omap (pushed_load userRecord uid) es
  | None => omap (pushed_load userRecord uid) es
  end.
Proof. reflexivity. Qed.

Lemma forEach_push_stored {SC : StringCase} userRecord uid es loads :
  Forall (fun e => stored_delivery e.2 = true) es ->
  uid <> "" ->
  forEach_push userRecord uid es loads
  = Ok (loads ++ omap (pushed_load userRecord uid) es).
Proof.
  intros Hall Hne. revert loads.
  induction Hall as [|[id obj] es Hst Hall IH]; intros loads.
  - simpl. by rewrite app_nil_r.
  - destruct (load_of_entry_stored userRecord uid id obj Hst Hne) as (r & Hr & _).
    rewrite forEach_push_cons, omap_pushed_cons. unfold pushed_load at 1.
    rewrite Hr, IH. destruct r as [l|]; [|reflexivity].
    by rewrite <- app_assoc.
Qed.

Lemma map_exc_values {A B} (f : A -> Exc B) (l : list A) :
  Forall (fun a => exists b, f a = Ok b) l ->
  map_exc f l = Ok (values_of f l).
Proof.
  unfold values_of. induction 1 as [|a l [b Hb] _ IH]; simpl; [reflexivity|].
  unfold mbind, mret, Exc_bind, Exc_ret. rewrite Hb. simpl. rewrite IH.
  reflexivity.
Qed.

Lemma ticket_of_entry_stored id t :
  stored_record t = true ->
  ticket_of_entry (id, t) =
  Ok {| Ticket.id := id;
        Ticket.url := jor (record_field t "url") (JStr "");
        Ticket.fileName := jor (record_field t "fileName") (JStr "");
        Ticket.uploadedAt := jor (record_field t "uploadedAt") JNull;
        Ticket.loadId := jor (record_field t "loadId") JNull |}.
Proof.
  intros Hn%negb_true_iff. unfold ticket_of_entry.
  rewrite !(get_stored t) by exact Hn. reflexivity.
Qed.

Lemma rating_of_entry_stored id r :
  stored_record r = true ->
  rating_of_entry (id, r) =
  Ok {| Rating.id := id;
        Rating.rating := jor (record_field r "rating") JNull;
        Rating.comment := jor (record_field r "comment") (JStr "");
        Rating.customerName := jor (record_field r "customerName") (JStr "");
        Rating.loadId := jor (record_field r "loadId") JNull;
        Rating.createdAt := jor (record_field r "createdAt") JNull |}.
Proof.
  intros Hn%negb_true_iff. unfold rating_of_entry.
  rewrite !(get_stored r) by exact Hn. reflexivity.
Qed.

(** ** The sum of the ratings *)

Lemma values_of_cons {A B} (f : A -> Exc B) a l :
  values_of f (a :: l) =
  match f a with
  | Ok b => b :: values_of f l
  | Err _ => values_of f l
  end.
Proof. unfold values_of. simpl. by destruct (f a). Qed.

Lemma stored_rating_record obj :
  stored_rating obj = true -> stored_record obj = true.
Proof. unfold stored_rating. by intros [? _]%andb_true_iff. Qed.

Lemma stored_ratings_records (es : list (string * JsVal)) :
  Forall (fun e => stored_rating e.2 = true) es ->
  Forall (fun e => stored_record e.2 = true) es.
Proof.
  intros Hall. eapply Forall_impl; [exact Hall|].
  intros e. apply stored_rating_record.
Qed.

(** A falsy value converts without throwing, so [r.rating || null]
    throws in [Number] exactly when [r.rating] does. *)
Lemma rating_value_throws v :
  toString_throws (jor v JNull) = toString_throws v.
Proof.
  unfold jor. destruct (truthy v) eqn:Ht; [reflexivity|].
  destruct v; try discriminate; reflexivity.
Qed.

Lemma ratings_sum_cons S r rest acc :
  ratings_sum S (r :: rest) acc =
  match Number S (Rating.rating r) with
  | Ok n => ratings_sum S rest (acc + num_or n 0)%float
  | Err e => Err e
  end.
Proof. reflexivity. Qed.

(** The reduction over stored ratings, as a sum over the stored
    entries. *)
Lemma ratings_sum_stored S es :
  Forall (fun e => stored_rating e.2 = true) es ->
  length (values_of rating_of_entry es) = length es /\
  forall acc,
    ratings_sum S (values_of rating_of_entry es) acc
    = Ok (fold_left
            (fun a e =>
               (a + num_or (to_number S (jor (record_field e.2 "rating") JNull)) 0)%float)
            es acc).
Proof.
  induction 1 as [|[id r] es Hst _ [IHlen IHsum]]; [split; reflexivity|].
  rewrite values_of_cons, (rating_of_entry_stored id r (stored_rating_record r Hst)).
  split; [cbn [length]; by rewrite IHlen|].
  intros acc. rewrite ratings_sum_cons. cbn [Rating.rating fold_left snd].
  unfold Number. rewrite rating_value_throws.
  unfold stored_rating in Hst. apply andb_true_iff in Hst as [_ Hno].
  apply negb_true_iff in Hno. cbn [snd] in Hno. rewrite Hno. apply IHsum.
Qed.

Lemma avgRating_of_stored S es :
  Forall (fun e => stored_rating e.2 = true) es ->
  avgRating_of S (values_of rating_of_entry es) =
  Ok (if negb (length es =? 0)%nat
      then JNum (fold_left
                   (fun a e =>
                      (a + num_or (to_number S (jor (record_field e.2 "rating") JNull))
                             0)%float)
                   es 0%float
                 / number_of_nat (length es))
      else JNull).
Proof.
  intros Hall. destruct (ratings_sum_stored S es Hall) as [Hlen Hsum].
  unfold avgRating_of. rewrite Hlen.
  destruct (negb _); [|reflexivity].
  unfold mbind, Exc_bind. by rewrite Hsum.
Qed.

Lemma avgRating_of_value S es :
  Forall (fun e => stored_rating e.2 = true) es ->
  avgRating_of S (values_of rating_of_entry es)
  = Ok (avgRating_value S (values_of rating_of_entry es)).
Proof.
  intros Hall. unfold avgRating_value. by rewrite (avgRating_of_stored S es Hall).
Qed.

(** A rating value whose conversion throws ends the reduction. *)
Lemma ratings_sum_throws S es :
  Forall (fun e => stored_record e.2 = true) es ->
  Exists (fun e => toString_throws (record_field e.2 "rating") = true) es ->
  values_of rating_of_entry es <> [] /\
  forall acc, exists err, ratings_sum S (values_of rating_of_entry es) acc = Err err.
Proof.
  induction 1 as [|[id r] es Hst Hall IH]; intros Hex;
    [by apply Exists_nil in Hex|].
  rewrite values_of_cons, (rating_of_entry_stored id r Hst).
  split; [discriminate|].
  intros acc. rewrite ratings_sum_cons. cbn [Rating.rating].
  unfold Number. rewrite rating_value_throws.
  destruct (toString_throws (record_field r "rating")) eqn:Hthrows; [eauto|].
  apply Exists_cons in Hex as [Hbad|Hex]; [cbn [snd] in Hbad; congruence|].
  apply IH, Hex.
Qed.

Lemma avgRating_of_throws S es :
  Forall (fun e => stored_record e.2 = true) es ->
  Exists (fun e => toString_throws (record_field e.2 "rating") = true) es ->
  exists err, avgRating_of S (values_of rating_of_entry es) = Err err.
Proof.
  intros Hall Hex. destruct (ratings_sum_throws S es Hall Hex) as [Hne Hsum].
  unfold avgRating_of.
  destruct (values_of rating_of_entry es) as [|r rs] eqn:Hvals; [congruence|].
  cbn [length Nat.eqb negb]. destruct (Hsum 0%float) as [err ->]. eauto.
Qed.

(** ** The successful run of [GET /driver-details] *)

Lemma bind_call_ok {W A B} (ev : Event) (f : W -> Exc A * W) (k : A -> M W B)
    w evs a w' :
  f w = (Ok a, w') ->
  (call ev f ≫= k) (mkSt w evs) = k a (mkSt w' (evs ++ [ev])).
Proof. intros H. unfold_m. simpl. rewrite H. reflexivity. Qed.


Lemma bind_lift_ok {W A B} (x : Exc A) (k : A -> M W B) st a :
  x = Ok a -> (lift x ≫= k) st = k a st.
Proof. intros ->. reflexivity. Qed.

Lemma driver_details_try_run {SC : StringCase} {W} (fb : Firebase W) S uid w0 evs u dv tv rv w4 :
  uid <> "" ->
  store_reads fb uid w0 u dv tv rv w4 ->
  well_stored dv tv rv ->
  driver_details_try fb S uid (mkSt w0 evs) =
  (Return (json (BSummary (summary_of S u uid dv tv rv))),
   mkSt w4 (evs ++ read_events uid)).
Proof.
  intros Hne (w1 & w2 & w3 & H1 & H2 & H3 & H4) (Hd & Ht & Hr).
  unfold driver_details_try, getUser, once.
  rewrite (bind_call_ok _ _ _ _ _ _ _ H1).
  rewrite (bind_call_ok _ _ _ _ _ _ _ H2).
  erewrite bind_lift_ok.
  2:{ rewrite entries_snapshot. apply (forEach_push_stored u uid _ [] Hd Hne). }
  rewrite (bind_call_ok _ _ _ _ _ _ _ H3).
  erewrite bind_lift_ok.
  2:{ rewrite entries_snapshot. apply map_exc_values.
      eapply Forall_impl; [exact Ht|]. intros [id t] Hs. simpl in Hs.
      rewrite ticket_of_entry_stored by exact Hs. eauto. }
  rewrite (bind_call_ok _ _ _ _ _ _ _ H4).
  erewrite bind_lift_ok.
  2:{ rewrite entries_snapshot. apply map_exc_values.
      eapply Forall_impl; [exact Hr|]. intros [id r] Hs%stored_rating_record.
      simpl in Hs. rewrite rating_of_entry_stored by exact Hs. eauto. }
  erewrite bind_lift_ok; [|by apply avgRating_of_value].
  unfold summary_of, read_events. rewrite <- !app_assoc. reflexivity.
Qed.

Lemma driver_details_run {SC : StringCase} {W} (fb : Firebase W) S req uid w0 evs u dv tv rv w4 :
  query req !! "uid" = Some uid ->
  uid <> "" ->
  store_reads fb uid w0 u dv tv rv w4 ->
  well_stored dv tv rv ->
  driver_details fb S req (mkSt w0 evs) =
  (Return (json (BSummary (summary_of S u uid dv tv rv))),
   mkSt w4 (evs ++ read_events uid)).
Proof.
  intros Hq Hne Hreads Hwell.
  unfold driver_details. rewrite Hq, (proj2 (truthy_JStr uid) Hne).
  cbn [negb]. unfold try_catch.
  rewrite (driver_details_try_run fb S uid w0 evs u dv tv rv w4 Hne Hreads Hwell).
  reflexivity.
Qed.

(** ** Identity lookup failures *)

(** C1.  The spec asks for 404 when the identity lookup reports the record
    absent.  On a store without the account ["ghost"], the lookup fails
    with [auth/user-not-found] and [GET /driver-details?uid=ghost]
    answers 500, whereas the earlier revision's [GET /drivers/ghost]
    answers 404 for the same failure. *)
Theorem driver_details_absent_identity_answers_500 :
  auth_getUser Mock.firebase "ghost" Mock.demo = (Err Mock.user_not_found, Mock.demo) /\
  app_get_driver_details Mock.firebase Mock.key Mock.StringToNumber
      (Mock.request_for "ghost") (Mock.st0 Mock.demo)
  = (Return (status_json 500
               (BErrorDetails "Failed to load driver details"
                  "There is no user record corresponding to the provided identifier.")),
     mkSt Mock.demo
       [EvGetUser "ghost";
        EvConsoleError "Error in /driver-details:" Mock.user_not_found]) /\
  Part000.app_get_driver Mock.firebase Mock.key
      (Mock.request_for "ghost") (Mock.st0 Mock.demo)
  = (Return (status_json 404 (BError "User not found")),
     mkSt Mock.demo
       [EvGetUser "ghost"; EvConsoleError "Error getting user:" Mock.user_not_found]).
Proof. repeat split; vm_compute; reflexivity. Qed.

(** C7.  When the identity lookup fails, the handler makes no further
    adapter call: the only events are the lookup and the log line, no
    database read among them, and the world is the one the lookup left. *)
Theorem failed_lookup_reads_no_store {SC : StringCase} {W} (fb : Firebase W)
    (S : string -> float) req uid w evs e w' :
  query req !! "uid" = Some uid ->
  uid <> "" ->
  auth_getUser fb uid w = (Err e, w') ->
  exists r st,
    driver_details fb S req (mkSt w evs) = (Return r, st) /\
    world st = w' /\
    events st = evs ++ [EvGetUser uid; EvConsoleError "Error in /driver-details:" e] /\
    (forall path, ~ In (EvOnce path) evs -> ~ In (EvOnce path) (events st)).
Proof.
  intros Hq Hne Hget. do 2 eexists.
  rewrite (driver_details_lookup_fails fb S req uid w evs e w' Hq Hne Hget).
  split; [reflexivity|]. cbn [world events]. split; [reflexivity|].
  split; [by rewrite <- app_assoc|].
  intros path Hnot Hin. rewrite !in_app_iff in Hin. simpl in Hin.
  destruct Hin as [[Hin|[Hin|[]]]|[Hin|[]]]; [tauto|discriminate|discriminate].
Qed.

Lemma failed_lookup_reads_no_store_witness :
  exists r st,
    driver_details Mock.firebase Mock.StringToNumber (Mock.request_for "ghost")
      (mkSt Mock.demo []) = (Return r, st) /\
    world st = Mock.demo /\
    events st = [] ++ [EvGetUser "ghost";
                       EvConsoleError "Error in /driver-details:" Mock.user_not_found] /\
    (forall path, ~ In (EvOnce path) [] -> ~ In (EvOnce path) (events st)).
Proof.
  apply (failed_lookup_reads_no_store Mock.firebase Mock.StringToNumber
           (Mock.request_for "ghost") "ghost" Mock.demo [] Mock.user_not_found Mock.demo).
  - vm_compute. reflexivity.
  - discriminate.
  - vm_compute. reflexivity.
Defined.

(** ** Deletion *)

(** C5 as stated fails: deleting an account the store does not have
    answers 500, not 404. *)
Lemma delete_absent_driver_answers_500 :
  auth_deleteUser Mock.firebase "ghost" Mock.demo
    = (Err Mock.user_not_found, Mock.demo) /\
  exists r st,
    app_delete_driver Mock.firebase Mock.key (Mock.request_for "ghost")
      (Mock.st0 Mock.demo) = (Return r, st) /\
    status r = 500%N /\ status r <> 404%N.
Proof.
  split; [vm_compute; reflexivity|].
  do 2 eexists. split; [vm_compute; reflexivity|].
  split; [reflexivity | discriminate].
Qed.

(** C5 (amended).  [DELETE /drivers/:uid] answers [200 {ok: true}] when
    the identity adapter deletes the account, and the same
    [500 "Failed to delete user"] for every failure of the adapter,
    whatever the error is, "record not found" included. *)
Theorem delete_driver_answers_200_or_500 {W} (fb : Firebase W) req w evs :
  delete_driver fb req (mkSt w evs) =
  match auth_deleteUser fb (params req "uid") w with
  | (Ok _, w') =>
      (Return (json BOkTrue), mkSt w' (evs ++ [EvDeleteUser (params req "uid")]))
  | (Err e, w') =>
      (Return (status_json 500 (BError "Failed to delete user")),
       mkSt w' ((evs ++ [EvDeleteUser (params req "uid")])
                ++ [EvConsoleError "Error deleting user:" e]))
  end.
Proof. apply delete_driver_run. Qed.

(** ** Status codes of the handlers *)

Lemma bind_Return_inv {W A B} (m : M W A) (k : A -> M W B) st b st' :
  (m ≫= k) st = (Return b, st') ->
  exists a st1, m st = (Return a, st1) /\ k a st1 = (Return b, st').
Proof.
  unfold_m. destruct (m st) as [[a|e|] st1]; intros H; try discriminate.
  eauto.
Qed.

Lemma get_drivers_status {W} (fb : Firebase W) fuel req st r st' :
  get_drivers fb fuel req st = (Return r, st') ->
  status r = 200%N \/ status r = 500%N.
Proof.
  unfold get_drivers. unfold_m.
  destruct (listUsers_loop fb fuel [] None st) as [[a|e|] st1];
    intros [= <- <-]; auto.
Qed.

Lemma delete_driver_status {W} (fb : Firebase W) req st r st' :
  delete_driver fb req st = (Return r, st') ->
  status r = 200%N \/ status r = 500%N.
Proof.
  destruct st as [w evs]. rewrite delete_driver_run.
  destruct (auth_deleteUser fb (params req "uid") w) as [[[]|e] w'];
    intros [= <- <-]; auto.
Qed.

Lemma driver_details_try_status {SC : StringCase} {W} (fb : Firebase W) S uid st r st' :
  driver_details_try fb S uid st = (Return r, st') -> status r = 200%N.
Proof.
  unfold driver_details_try. intros H.
  repeat (apply bind_Return_inv in H as (? & ? & _ & H)).
  by injection H as <- <-.
Qed.

Lemma driver_details_status {SC : StringCase} {W} (fb : Firebase W) S req st r st' :
  driver_details fb S req st = (Return r, st') ->
  status r = 200%N \/ status r = 400%N \/ status r = 500%N.
Proof.
  unfold driver_details.
  destruct (query req !! "uid") as [uid|]; [|intros [= <- <-]; auto].
  destruct (negb _); [intros [= <- <-]; auto|].
  unfold try_catch.
  destruct (driver_details_try fb S uid st) as [[a|e|] st1] eqn:Htry.
  - intros [= <- <-]. left. eapply driver_details_try_status, Htry.
  - unfold_m. intros [= <- <-]. auto.
  - discriminate.
Qed.

(** C9 as stated fails: a request may carry the right secret in one
    channel and still be rejected, when an earlier channel carries another
    value. *)
Lemma right_key_behind_wrong_header_rejected :
  ~ (forall (K : string) (req : Request),
       K <> "" ->
       headers req !! "x-admin-api-key" = Some K \/
       headers req !! "x-admin-key" = Some K \/
       query req !! "key" = Some K ->
       requireAdminKey K req = None).
Proof.
  intros H.
  specialize (H Mock.key
                (Mock.request [("x-admin-api-key", "guess")] [("key", Mock.key)] "")).
  assert (Hrej : requireAdminKey Mock.key
                   (Mock.request [("x-admin-api-key", "guess")] [("key", Mock.key)] "")
                 = Some (status_json 401 (BError "Unauthorized")))
    by (vm_compute; reflexivity).
  rewrite H in Hrej; [discriminate | discriminate |].
  right. right. vm_compute. reflexivity.
Qed.

(** C9 (amended).  The secret a request presents is the first non-empty
    value among the [x-admin-api-key] header, the [x-admin-key] header and
    the [key] query parameter.  On each of the three protected routes the
    request reaches the handler when that value is the admin key, and is
    answered [401 Unauthorized] otherwise; a protected route answers 401
    in no other case. *)
Theorem admin_key_gate {SC : StringCase} {W} (fb : Firebase W) (K : string)
    (S : string -> float) (fuel : nat) (req : Request) :
  let admitted := bool_decide (presented_key req = Some K) in
  let unauthorized := status_json 401 (BError "Unauthorized") in
  requireAdminKey K req = (if admitted then None else Some unauthorized) /\
  app_get_drivers fb K fuel req
    = (if admitted then get_drivers fb fuel req else mret unauthorized) /\
  app_delete_driver fb K req
    = (if admitted then delete_driver fb req else mret unauthorized) /\
  app_get_driver_details fb K S req
    = (if admitted then driver_details fb S req else mret unauthorized) /\
  (forall st r st',
      app_get_drivers fb K fuel req st = (Return r, st') \/
      app_delete_driver fb K req st = (Return r, st') \/
      app_get_driver_details fb K S req st = (Return r, st') ->
      (status r = 401%N <-> presented_key req <> Some K)).
Proof.
  intros admitted unauthorized.
  pose proof (requireAdminKey_presented K req) as Hgate.
  fold admitted unauthorized in Hgate.
  assert (Hroute : forall h : Request -> M W Response,
             route (requireAdminKey K) h req
             = if admitted then h req else mret unauthorized).
  { intros h. unfold route. rewrite Hgate. by destruct admitted. }
  split; [exact Hgate|].
  unfold app_get_drivers, app_delete_driver, app_get_driver_details.
  rewrite !Hroute. repeat (split; [reflexivity|]).
  intros st r st' Hrun. subst admitted. case_bool_decide as Hk.
  - assert (Hs : status r = 200%N \/ status r = 400%N \/ status r = 500%N).
    { destruct Hrun as [Hrun|[Hrun|Hrun]].
      - apply get_drivers_status in Hrun. tauto.
      - apply delete_driver_status in Hrun. tauto.
      - apply driver_details_status in Hrun. tauto. }
    split; [|tauto]. intros H401. rewrite H401 in Hs.
    destruct Hs as [Hs|[Hs|Hs]]; discriminate.
  - assert (r = unauthorized) as ->.
    { destruct Hrun as [Hrun|[Hrun|Hrun]]; by injection Hrun as <- <-. }
    split; [auto | reflexivity].
Qed.

Lemma admin_key_gate_witness :
  status (status_json 401 (BError "Unauthorized")) = 401%N
  <-> presented_key (Mock.request [("x-admin-key", "")] [("key", "guess")] "d1")
      <> Some Mock.key.
Proof.
  destruct (admin_key_gate Mock.firebase Mock.key Mock.StringToNumber 1
              (Mock.request [("x-admin-key", "")] [("key", "guess")] "d1"))
    as (_ & _ & _ & _ & Hiff).
  apply (Hiff (Mock.st0 Mock.demo) _ (Mock.st0 Mock.demo)).
  right. left. vm_compute. reflexivity.
Defined.

(** ** Which deliveries become loads *)

(** The test the callback applies to a stored delivery. *)
Lemma pushed_load_stored {SC : StringCase} userRecord uid id obj :
  stored_delivery obj = true ->
  uid <> "" ->
  (exists l, pushed_load userRecord uid (id, obj) = Some l /\ Load.id l = id /\
             truthy (of_opt (email userRecord)) && assigned_by_email userRecord obj
             || assigned_by_uid uid obj = true) \/
  (pushed_load userRecord uid (id, obj) = None /\
   truthy (of_opt (email userRecord)) && assigned_by_email userRecord obj
   || assigned_by_uid uid obj = false).
Proof.
  intros Hst Hne.
  destruct (load_of_entry_stored userRecord uid id obj Hst Hne)
    as (r & Hr & Hid & Hiff).
  unfold pushed_load. rewrite Hr. destruct r as [l|].
  - left. exists l. split; [reflexivity|]. split; [by apply Hid|].
    apply Hiff. eauto.
  - right. split; [reflexivity|].
    destruct (_ || _); [|reflexivity].
    destruct (proj2 Hiff eq_refl) as [l [=]].
Qed.

Lemma pushed_load_ids {SC : StringCase} userRecord uid es (test : JsVal -> bool) :
  Forall (fun e => stored_delivery e.2 = true) es ->
  uid <> "" ->
  (forall obj,
      truthy (of_opt (email userRecord)) && assigned_by_email userRecord obj
      || assigned_by_uid uid obj = test obj) ->
  map Load.id (omap (pushed_load userRecord uid) es)
  = map fst (List.filter (fun e => test e.2) es).
Proof.
  intros Hall Hne Htest.
  induction Hall as [|[id obj] es Hst Hall IH]; [reflexivity|].
  rewrite omap_pushed_cons. cbn [List.filter snd].
  rewrite <- Htest.
  destruct (pushed_load_stored userRecord uid id obj Hst Hne)
    as [(l & -> & Hid & ->) | [-> ->]].
  - cbn [map fst]. by rewrite Hid, IH.
  - exact IH.
Qed.

Lemma email_test_nonempty {SC : StringCase} userRecord obj :
  email_nonempty userRecord ->
  truthy (of_opt (email userRecord)) && assigned_by_email userRecord obj
  = assigned_by_email userRecord obj.
Proof.
  unfold email_nonempty, assigned_by_email.
  destruct (email userRecord) as [e|]; [|reflexivity].
  intros He. change (truthy (of_opt (Some e))) with (truthy (JStr e)).
  rewrite (proj2 (truthy_JStr e)) by congruence. reflexivity.
Qed.

Lemma NoDup_keys_filter {A} (f : string * A -> bool) (es : list (string * A)) :
  NoDup (map fst es) -> NoDup (map fst (List.filter f es)).
Proof.
  induction es as [|e es IH]; simpl; [auto|].
  intros [Hnotin Hnd]%NoDup_cons. destruct (f e); simpl; [|auto].
  apply NoDup_cons. split; [|auto].
  intros Hin. apply Hnotin.
  apply list_elem_of_In in Hin. apply list_elem_of_In.
  apply in_map_iff in Hin as (e' & <- & [Hin' _]%filter_In).
  apply in_map. exact Hin'.
Qed.

Lemma both_fields_missing {SC : StringCase} userRecord uid obj :
  details_field obj "assignedDriverEmail" = JUndefined ->
  details_field obj "assignedDriverUid" = JUndefined ->
  assigned_to userRecord uid obj = false.
Proof.
  unfold assigned_to, assigned_by_email, assigned_by_uid. intros -> ->.
  by destruct (email userRecord).
Qed.

(** Addresses that differ in the case of ASCII letters only agree once
    lower-cased, whatever the host's lower-casing does to other text. *)
Lemma assigned_by_email_ascii {SC : StringCase} u obj a e :
  email u = Some e ->
  details_field obj "assignedDriverEmail" = JStr a ->
  same_ascii_letters a e ->
  assigned_by_email u obj = true.
Proof.
  intros He Ha (Hasc_a & Hasc_e & Hsame). unfold assigned_by_email.
  rewrite He, Ha. apply bool_decide_true.
  by rewrite !toLowerCase_ascii.
Qed.

(** C2.  For a driver whose identity record exists, the ids of [loads]
    are, in order, the keys of the stored deliveries assigned to the
    driver by e-mail (the two addresses compared once lower-cased by the
    host) or by id.  Each such delivery is listed once, also when both
    tests succeed; a delivery without either assignment field is not
    assigned and is not listed; and a delivery whose assigned address
    differs from the identity's in the case of ASCII letters only is
    listed. *)
Theorem loads_are_the_assigned_deliveries {SC : StringCase} {W} (fb : Firebase W)
    (S : string -> float) req uid w0 evs u dv tv rv w4 :
  query req !! "uid" = Some uid ->
  uid <> "" ->
  store_reads fb uid w0 u dv tv rv w4 ->
  well_stored dv tv rv ->
  email_nonempty u ->
  exists s,
    driver_details fb S req (mkSt w0 evs)
      = (Return (json (BSummary s)), mkSt w4 (evs ++ read_events uid)) /\
    map Load.id (Summary.loads s)
      = map fst (List.filter (fun e => assigned_to u uid e.2) (snapshot_entries dv)) /\
    (NoDup (map fst (snapshot_entries dv)) -> NoDup (map Load.id (Summary.loads s))) /\
    (forall id, In id (map Load.id (Summary.loads s)) <->
                exists obj, In (id, obj) (snapshot_entries dv)
                            /\ assigned_to u uid obj = true) /\
    (forall id obj,
        In (id, obj) (snapshot_entries dv) ->
        details_field obj "assignedDriverEmail" = JUndefined ->
        details_field obj "assignedDriverUid" = JUndefined ->
        assigned_to u uid obj = false /\ pushed_load u uid (id, obj) = None) /\
    (forall id obj a e,
        In (id, obj) (snapshot_entries dv) ->
        details_field obj "assignedDriverEmail" = JStr a ->
        email u = Some e ->
        same_ascii_letters a e ->
        In id (map Load.id (Summary.loads s))).
Proof.
  intros Hq Hne Hreads Hwell Hmail.
  exists (summary_of S u uid dv tv rv).
  split; [by apply driver_details_run|].
  destruct Hwell as (Hd & _ & _).
  assert (Hids : map Load.id (Summary.loads (summary_of S u uid dv tv rv))
                 = map fst (List.filter (fun e => assigned_to u uid e.2)
                              (snapshot_entries dv))).
  { cbn [summary_of Summary.loads].
    apply pushed_load_ids; [exact Hd | exact Hne |].
    intros obj. unfold assigned_to. by rewrite email_test_nonempty. }
  split; [exact Hids|]. rewrite Hids.
  assert (Hlisted : forall id obj,
             In (id, obj) (snapshot_entries dv) ->
             assigned_to u uid obj = true ->
             In id (map fst (List.filter (fun e => assigned_to u uid e.2)
                               (snapshot_entries dv)))).
  { intros id obj Hin Ha. apply in_map_iff. exists (id, obj).
    split; [reflexivity|]. apply filter_In. auto. }
  split; [apply NoDup_keys_filter|]. split; [|split].
  - intros id. split.
    + intros ([id' obj] & <- & [Hin Ha]%filter_In)%in_map_iff. eauto.
    + intros (obj & Hin & Ha). by apply (Hlisted id obj).
  - intros id obj Hin He Hu.
    pose proof (both_fields_missing u uid obj He Hu) as Hno.
    split; [exact Hno|].
    rewrite Forall_forall in Hd.
    specialize (Hd (id, obj) (proj2 (list_elem_of_In _ _) Hin)).
    destruct (pushed_load_stored u uid id obj Hd Hne)
      as [(l & _ & _ & Hyes) | [Hnone _]]; [|exact Hnone].
    unfold assigned_to in Hno. rewrite email_test_nonempty in Hyes by exact Hmail.
    congruence.
  - intros id obj a e Hin Ha He Hsame. apply (Hlisted id obj Hin).
    unfold assigned_to. by rewrite (assigned_by_email_ascii u obj a e He Ha Hsame).
Qed.

Lemma loads_are_the_assigned_deliveries_witness :
  store_reads Mock.firebase "d1" Mock.demo Mock.d1 Mock.deliveries
    Mock.tickets_d1 Mock.ratings_d1 Mock.demo /\
  well_stored Mock.deliveries Mock.tickets_d1 Mock.ratings_d1 /\
  exists s,
    driver_details Mock.firebase Mock.StringToNumber (Mock.request_for "d1")
      (mkSt Mock.demo [])
      = (Return (json (BSummary s)), mkSt Mock.demo ([] ++ read_events "d1")) /\
    map Load.id (Summary.loads s) = ["L1"; "L2"].
Proof.
  assert (Hreads : store_reads Mock.firebase "d1" Mock.demo Mock.d1 Mock.deliveries
                     Mock.tickets_d1 Mock.ratings_d1 Mock.demo) by mock_reads.
  assert (Hwell : well_stored Mock.deliveries Mock.tickets_d1 Mock.ratings_d1).
  { repeat split; all_entries. }
  split; [exact Hreads|]. split; [exact Hwell|].
  destruct (loads_are_the_assigned_deliveries Mock.firebase Mock.StringToNumber
              (Mock.request_for "d1") "d1" Mock.demo [] Mock.d1 Mock.deliveries
              Mock.tickets_d1 Mock.ratings_d1 Mock.demo)
    as (s & Hrun & Hids & _).
  - vm_compute. reflexivity.
  - discriminate.
  - exact Hreads.
  - exact Hwell.
  - discriminate.
  - exists s. split; [exact Hrun|]. rewrite Hids. vm_compute. reflexivity.
Defined.

(** The case-insensitive match of the spec's example, under every
    lower-casing, and a delivery that matches both ways. *)
Lemma email_case_insensitive {SC : StringCase} :
  assigned_by_email (Mock.driver "d1" (Some "A@B.com"))
    (JObj [("details", JObj [("assignedDriverEmail", JStr "a@b.com")])]) = true.
Proof.
  apply (assigned_by_email_ascii _ _ "a@b.com" "A@B.com"); try reflexivity.
  repeat split.
Qed.

Example both_tests_one_load :
  omap (pushed_load Mock.d1 "d1")
    [("L2", JObj [("details", JObj [("assignedDriverUid", JStr "d1");
                                    ("assignedDriverEmail", JStr "A@b.COM")])])]
  = [{| Load.id := "L2"; Load.status := JStr "pending";
        Load.customerName := JStr ""; Load.address := JStr "";
        Load.items := JStr ""; Load.yards := JNum 0; Load.revenue := JNum 0;
        Load.profit := JNum 0; Load.createdAt := JNull |}].
Proof. reflexivity. Qed.

(** A truthy assigned e-mail that is not a string makes the scan throw:
    such a delivery is outside [stored_delivery]. *)
Example numeric_email_throws :
  load_of_entry Mock.d1 "d1"
    ("L9", JObj [("details", JObj [("assignedDriverEmail", JNum 7)])])
  = Err (TypeError "toLowerCase is not a function").
Proof. reflexivity. Qed.

(** C10.  When the identity record has no e-mail address, the ids of
    [loads] are the keys of the deliveries whose assigned driver id is the
    driver id: the e-mail test never succeeds, in particular not against a
    delivery whose assigned e-mail is missing or empty. *)
Theorem without_identity_email_only_uid_matches {SC : StringCase} {W} (fb : Firebase W)
    (S : string -> float) req uid w0 evs u dv tv rv w4 :
  query req !! "uid" = Some uid ->
  uid <> "" ->
  store_reads fb uid w0 u dv tv rv w4 ->
  well_stored dv tv rv ->
  truthy (of_opt (email u)) = false ->
  exists s,
    driver_details fb S req (mkSt w0 evs)
      = (Return (json (BSummary s)), mkSt w4 (evs ++ read_events uid)) /\
    map Load.id (Summary.loads s)
      = map fst (List.filter (fun e => assigned_by_uid uid e.2) (snapshot_entries dv)) /\
    (forall id obj,
        In (id, obj) (snapshot_entries dv) ->
        details_field obj "assignedDriverEmail" = JUndefined \/
        details_field obj "assignedDriverEmail" = JStr "" ->
        assigned_by_uid uid obj = false ->
        pushed_load u uid (id, obj) = None).
Proof.
  intros Hq Hne Hreads Hwell Hmail.
  exists (summary_of S u uid dv tv rv).
  split; [by apply driver_details_run|].
  destruct Hwell as (Hd & _ & _). split.
  - cbn [summary_of Summary.loads].
    apply pushed_load_ids; [exact Hd | exact Hne |].
    intros obj. by rewrite Hmail.
  - intros id obj Hin _ Hu.
    rewrite Forall_forall in Hd.
    specialize (Hd (id, obj) (proj2 (list_elem_of_In _ _) Hin)).
    destruct (pushed_load_stored u uid id obj Hd Hne)
      as [(l & _ & _ & Hyes) | [Hnone _]]; [|exact Hnone].
    rewrite Hmail, Hu in Hyes. discriminate.
Qed.

Lemma without_identity_email_only_uid_matches_witness :
  store_reads Mock.firebase "d2" Mock.demo Mock.d2 Mock.deliveries JNull JNull
    Mock.demo /\
  email Mock.d2 = None /\
  exists s,
    driver_details Mock.firebase Mock.StringToNumber (Mock.request_for "d2")
      (mkSt Mock.demo [])
      = (Return (json (BSummary s)), mkSt Mock.demo ([] ++ read_events "d2")) /\
    map Load.id (Summary.loads s) = ["L3"] /\
    pushed_load Mock.d2 "d2" ("L4", JObj [("status", JStr "pending")]) = None /\
    pushed_load Mock.d2 "d2"
      ("L5", JObj [("details", JObj [("assignedDriverEmail", JStr "")])]) = None.
Proof.
  assert (Hreads : store_reads Mock.firebase "d2" Mock.demo Mock.d2 Mock.deliveries
                     JNull JNull Mock.demo) by mock_reads.
  split; [exact Hreads|]. split; [reflexivity|].
  destruct (without_identity_email_only_uid_matches Mock.firebase
              Mock.StringToNumber (Mock.request_for "d2") "d2" Mock.demo []
              Mock.d2 Mock.deliveries JNull JNull Mock.demo)
    as (s & Hrun & Hids & Hnone).
  - vm_compute. reflexivity.
  - discriminate.
  - exact Hreads.
  - repeat split; all_entries.
  - reflexivity.
  - exists s. split; [exact Hrun|]. split; [rewrite Hids; vm_compute; reflexivity|].
    split; apply Hnone; try (vm_compute; tauto); try reflexivity.
Defined.

(** ** A driver with nothing but an identity *)

(** C6.  When the identity exists, no stored delivery is assigned to the
    driver, and nothing is stored under the driver's ticket and rating
    partitions (both snapshots are [null]), the handler answers 200 with
    empty [loads], [tickets] and [ratings], zero counts and a [null]
    average. *)
Theorem bare_identity_gives_empty_summary {SC : StringCase} {W} (fb : Firebase W)
    (S : string -> float) req uid w0 evs u dv w4 :
  query req !! "uid" = Some uid ->
  uid <> "" ->
  store_reads fb uid w0 u dv JNull JNull w4 ->
  Forall (fun e => stored_delivery e.2 = true /\ assigned_to u uid e.2 = false)
    (snapshot_entries dv) ->
  driver_details fb S req (mkSt w0 evs)
  = (Return (json (BSummary
       {| Summary.user := user_info u;
          Summary.loads := [];
          Summary.tickets := [];
          Summary.ratings := [];
          Summary.stats :=
            {| Stats.totalLoads := 0;
               Stats.totalTickets := 0;
               Stats.totalRatings := 0;
               Stats.avgRating := JNull |} |})),
     mkSt w4 (evs ++ read_events uid)).
Proof.
  intros Hq Hne Hreads Hall.
  assert (Hd : Forall (fun e => stored_delivery e.2 = true) (snapshot_entries dv)).
  { eapply Forall_impl; [exact Hall|]. by intros e [? _]. }
  rewrite (driver_details_run fb S req uid w0 evs u dv JNull JNull w4 Hq Hne Hreads).
  2:{ split; [exact Hd|]. split; apply List.Forall_nil. }
  assert (Hloads : omap (pushed_load u uid) (snapshot_entries dv) = []).
  { clear Hd. induction Hall as [|[id obj] es [Hst Hno] _ IH]; [reflexivity|].
    rewrite omap_pushed_cons.
    destruct (pushed_load_stored u uid id obj Hst Hne)
      as [(l & _ & _ & Hyes) | [-> _]]; [|exact IH].
    exfalso. cbn [snd] in Hno. unfold assigned_to in Hno.
    apply orb_false_iff in Hno as [He Hu]. rewrite He, Hu in Hyes.
    by rewrite andb_false_r in Hyes. }
  unfold summary_of. rewrite Hloads. reflexivity.
Qed.

Lemma bare_identity_gives_empty_summary_witness :
  store_reads Mock.firebase "d3" Mock.demo Mock.d3 Mock.deliveries JNull JNull
    Mock.demo /\
  driver_details Mock.firebase Mock.StringToNumber (Mock.request_for "d3")
    (mkSt Mock.demo [])
  = (Return (json (BSummary
       {| Summary.user := user_info Mock.d3;
          Summary.loads := [];
          Summary.tickets := [];
          Summary.ratings := [];
          Summary.stats :=
            {| Stats.totalLoads := 0;
               Stats.totalTickets := 0;
               Stats.totalRatings := 0;
               Stats.avgRating := JNull |} |})),
     mkSt Mock.demo ([] ++ read_events "d3")).
Proof.
  assert (Hreads : store_reads Mock.firebase "d3" Mock.demo Mock.d3 Mock.deliveries
                     JNull JNull Mock.demo) by mock_reads.
  split; [exact Hreads|].
  apply (bare_identity_gives_empty_summary Mock.firebase Mock.StringToNumber
           (Mock.request_for "d3") "d3" Mock.demo [] Mock.d3 Mock.deliveries
           Mock.demo).
  - vm_compute. reflexivity.
  - discriminate.
  - exact Hreads.
  - all_entries.
Defined.

(** ** Ratings and their average *)

(** [Number(v) || 0] is what the value [v] counts for. *)
Lemma num_or_counts_for S : forall v, num_or (to_number S v) 0 = counts_for S v.
Proof.
  fix IH 1. intros [| |b|x|s|items|fields]; try reflexivity.
  - destruct b; reflexivity.
  - cbn [to_number counts_for]. unfold num_or, number_truthy, nan_to_zero.
    destruct (PrimFloat.is_zero x), (PrimFloat.is_nan x); reflexivity.
  - cbn [to_number counts_for]. unfold num_or, number_truthy, nan_to_zero.
    destruct (PrimFloat.is_zero _), (PrimFloat.is_nan _); reflexivity.
  - destruct items as [|x [|y rest]]; try reflexivity.
    destruct x as [| |b|y|s|items|fields] eqn:Hx; try reflexivity.
    + cbn [to_number counts_for]. unfold num_or, number_truthy, nan_to_zero.
      destruct (PrimFloat.is_zero y) eqn:Hz; [by destruct (PrimFloat.is_nan y)|].
      rewrite Hz. by destruct (PrimFloat.is_nan y).
    + cbn [to_number counts_for]. unfold num_or, number_truthy, nan_to_zero.
      destruct (PrimFloat.is_zero _), (PrimFloat.is_nan _); reflexivity.
    + change (num_or (to_number S (JArr items)) 0 = counts_for S (JArr items)).
      rewrite <- Hx. apply IH.
Qed.

(** [Number(r.rating || null) || 0] is what the stored value counts
    for. *)
Lemma rating_contribution S v :
  S "" = 0%float ->
  num_or (to_number S (jor v JNull)) 0 = counts_for S v.
Proof.
  intros Hempty. unfold jor.
  destruct (truthy v) eqn:Ht; [apply num_or_counts_for|].
  destruct v as [| |b|x|s|items|fields]; cbn [truthy] in Ht;
    try discriminate; try reflexivity.
  - subst b. reflexivity.
  - cbn [counts_for]. unfold number_truthy in Ht. unfold nan_to_zero.
    destruct (PrimFloat.is_zero x), (PrimFloat.is_nan x);
      try discriminate; reflexivity.
  - apply negb_false_iff, bool_decide_eq_true in Ht. subst s.
    cbn [counts_for]. rewrite Hempty. reflexivity.
Qed.

Lemma contributions_sum S (es : list (string * JsVal)) :
  S "" = 0%float ->
  forall acc,
    fold_left
      (fun a e =>
         (a + num_or (to_number S (jor (record_field e.2 "rating") JNull)) 0)%float)
      es acc
    = fold_left PrimFloat.add
        (map (fun e => counts_for S (record_field e.2 "rating")) es) acc.
Proof.
  intros Hempty. induction es as [|e es IH]; intros acc; [reflexivity|].
  cbn [fold_left map]. by rewrite IH, rating_contribution.
Qed.

Lemma as_sent_number x :
  as_sent (JNum x) = JNull <-> PrimFloat.is_finite x = false.
Proof.
  cbn [as_sent]. destruct (PrimFloat.is_finite x); split; congruence.
Qed.

(** C3 as stated fails.  With two ratings of [2^1023] the sum overflows:
    [stats.avgRating] is [Infinity], which is not the mean [2^1023] of the
    two values, and the response carries [null] for it although the
    partition holds two ratings. *)
Lemma avgRating_overflows_with_two_ratings :
  exists s,
    driver_details Mock.firebase Mock.StringToNumber (Mock.request_for "d4")
      (mkSt huge_ratings [])
      = (Return (json (BSummary s)), mkSt huge_ratings (read_events "d4")) /\
    map Rating.rating (Summary.ratings s) = [JNum 0x1p1023; JNum 0x1p1023] /\
    Stats.totalRatings (Summary.stats s) = 2%nat /\
    Stats.avgRating (Summary.stats s) = JNum PrimFloat.infinity /\
    Stats.avgRating (Summary.stats s) <> JNum 0x1p1023 /\
    as_sent (Stats.avgRating (Summary.stats s)) = JNull.
Proof.
  eexists. split; [vm_compute; reflexivity|]. cbn.
  repeat split; discriminate.
Qed.

(** C3 (amended).  [stats.avgRating] is [null] when the rating partition
    holds no rating.  Otherwise it is a number: what the stored rating
    values count for (a number or numeric string its value; a missing
    value, [null], and whatever converts to [NaN], 0), added in double
    arithmetic one by one in partition order from [0], and divided by the
    number of ratings.  The response carries [null] for it when the
    partition is empty and also when that quotient is not finite. *)
Theorem avgRating_is_the_mean_of_coerced_ratings {SC : StringCase} {W}
    (fb : Firebase W) (S : string -> float) req uid w0 evs u dv tv rv w4 :
  S "" = 0%float ->
  query req !! "uid" = Some uid ->
  uid <> "" ->
  store_reads fb uid w0 u dv tv rv w4 ->
  well_stored dv tv rv ->
  exists s,
    driver_details fb S req (mkSt w0 evs)
      = (Return (json (BSummary s)), mkSt w4 (evs ++ read_events uid)) /\
    Stats.totalRatings (Summary.stats s) = length (snapshot_entries rv) /\
    (Stats.avgRating (Summary.stats s) = JNull <-> snapshot_entries rv = []) /\
    (snapshot_entries rv <> [] ->
     Stats.avgRating (Summary.stats s) = JNum (double_mean (counted_ratings S rv))) /\
    (as_sent (Stats.avgRating (Summary.stats s)) = JNull <->
     snapshot_entries rv = [] \/
     PrimFloat.is_finite (double_mean (counted_ratings S rv)) = false).
Proof.
  intros Hempty Hq Hne Hreads Hwell.
  exists (summary_of S u uid dv tv rv).
  split; [by apply driver_details_run|].
  destruct Hwell as (_ & _ & Hr).
  destruct (ratings_sum_stored S (snapshot_entries rv) Hr) as [Hlen _].
  cbn [summary_of Summary.stats Stats.totalRatings Stats.avgRating].
  split; [exact Hlen|].
  unfold avgRating_value. rewrite (avgRating_of_stored S _ Hr).
  rewrite (contributions_sum S _ Hempty).
  unfold double_mean, double_sum, counted_ratings. rewrite length_map.
  destruct (snapshot_entries rv) as [|e es] eqn:Hes.
  - cbn [length Nat.eqb negb]. split; [tauto|].
    split; [intros Hnil; by destruct Hnil|]. split; auto.
  - cbn [length Nat.eqb negb]. split; [split; discriminate|].
    split; [reflexivity|]. rewrite as_sent_number.
    split; [auto | by intros [[=]|?]].
Qed.

Lemma avgRating_is_the_mean_of_coerced_ratings_witness :
  store_reads Mock.firebase "d1" Mock.demo Mock.d1 Mock.deliveries
    Mock.tickets_d1 Mock.ratings_d1 Mock.demo /\
  counted_ratings Mock.StringToNumber Mock.ratings_d1 = [5; 3; 0]%float /\
  exists s,
    driver_details Mock.firebase Mock.StringToNumber (Mock.request_for "d1")
      (mkSt Mock.demo [])
      = (Return (json (BSummary s)), mkSt Mock.demo ([] ++ read_events "d1")) /\
    Stats.totalRatings (Summary.stats s) = 3%nat /\
    Stats.avgRating (Summary.stats s) = JNum 0x1.5555555555555p+1 /\
    as_sent (Stats.avgRating (Summary.stats s)) <> JNull.
Proof.
  assert (Hreads : store_reads Mock.firebase "d1" Mock.demo Mock.d1 Mock.deliveries
                     Mock.tickets_d1 Mock.ratings_d1 Mock.demo) by mock_reads.
  split; [exact Hreads|]. split; [reflexivity|].
  destruct (avgRating_is_the_mean_of_coerced_ratings Mock.firebase
              Mock.StringToNumber (Mock.request_for "d1") "d1" Mock.demo []
              Mock.d1 Mock.deliveries Mock.tickets_d1 Mock.ratings_d1 Mock.demo)
    as (s & Hrun & Hlen & _ & Havg & _).
  - reflexivity.
  - vm_compute. reflexivity.
  - discriminate.
  - exact Hreads.
  - repeat split; all_entries.
  - exists s. split; [exact Hrun|]. split; [exact Hlen|].
    rewrite Havg by discriminate. split; [reflexivity | discriminate].
Defined.

(** The mean of the spec's example, [(5 + 3 + 0) / 3], is the double next
    to 8/3, which prints as 2.6666666666666665. *)
Example mean_of_5_3_null :
  double_mean [5; 3; 0]%float = (8 / 3)%float /\
  double_mean [5; 3; 0]%float = 0x1.5555555555555p+1%float.
Proof. split; reflexivity. Qed.

(** Rounding can take the mean of equal values away from them: three
    ratings of 0.1 (the double [0x1.999999999999ap-4]) average to the next
    double up. *)
Example mean_of_three_tenths :
  double_mean [0x1.999999999999ap-4; 0x1.999999999999ap-4; 0x1.999999999999ap-4]%float
  = 0x1.999999999999bp-4%float.
Proof. reflexivity. Qed.

(** What rating values count for: a number, a numeric string, text that
    is no number, [null], a missing value, [true], an array of one number,
    an object, and a zero with a sign. *)
Example counts_for_values :
  map (counts_for Mock.StringToNumber)
    [JNum 4; JStr "4"; JStr "four"; JNull; JUndefined; JBool true;
     JArr [JNum 4]; JObj []; JNum (-0)]
  = [4; 4; 0; 0; 0; 1; 4; 0; 0]%float.
Proof. reflexivity. Qed.

(** A rating whose value is an object with a [toString] property cannot
    be converted: [Number] throws, and the request is answered 500 after
    all four reads. *)
Example Number_of_shadowed_toString :
  Number Mock.StringToNumber (JObj [("toString", JNum 1)])
  = Err (TypeError "Cannot convert object to primitive value").
Proof. reflexivity. Qed.

Example unconvertible_rating_is_500 :
  let w := rated [JNum 5; JObj [("toString", JNum 1)]] in
  driver_details Mock.firebase Mock.StringToNumber (Mock.request_for "d4") (mkSt w [])
  = (Return (status_json 500
               (BErrorDetails "Failed to load driver details"
                  "Cannot convert object to primitive value")),
     mkSt w (read_events "d4"
             ++ [EvConsoleError "Error in /driver-details:"
                   (TypeError "Cannot convert object to primitive value")])).
Proof. vm_compute. reflexivity. Qed.

(** ** The projection of a delivery *)

Lemma jor_number_or_zero v : number_or_zero v (jor v (JNum 0)).
Proof.
  unfold number_or_zero, jor. split; [|split].
  - intros x -> Hx. cbn [truthy]. by rewrite Hx.
  - intros x -> Hx. cbn [truthy]. unfold number_truthy. by rewrite Hx.
  - intros ->. reflexivity.
Qed.

Lemma jor_string_or_empty v : string_or_empty v (jor v (JStr "")).
Proof.
  split.
  - intros s ->. unfold jor. simpl. case_bool_decide; simpl; congruence.
  - intros ->. reflexivity.
Qed.

Lemma jor_null_when_absent v : null_when_absent v (jor v JNull).
Proof. intros ->. reflexivity. Qed.

Lemma pushed_load_fields {SC : StringCase} userRecord uid id obj l :
  pushed_load userRecord uid (id, obj) = Some l ->
  l = {| Load.id := id;
         Load.status := jor (record_field obj "status") (JStr "pending");
         Load.customerName := jor (details_field obj "customerName") (JStr "");
         Load.address := jor (details_field obj "address") (JStr "");
         Load.items := jor (details_field obj "items") (JStr "");
         Load.yards := jor (details_field obj "yards") (JNum 0);
         Load.revenue := jor (details_field obj "revenue") (JNum 0);
         Load.profit := jor (details_field obj "profit") (JNum 0);
         Load.createdAt := jor (record_field obj "createdAt") JNull |}.
Proof.
  unfold pushed_load. destruct (is_nullish obj) eqn:Hn.
  - destruct (load_of_entry_nullish userRecord uid id obj Hn) as [e ->].
    discriminate.
  - rewrite (load_of_entry_stored_eq userRecord uid id obj Hn).
    unfold mbind, Exc_bind.
    destruct (call_toLowerCase _) as [a|e]; simpl; [|discriminate].
    destruct (_ || _); [|discriminate]. by intros [= <-].
Qed.

(** What the callback pushes is the projection of the delivery. *)
Lemma pushed_load_projects {SC : StringCase} userRecord uid id obj l :
  pushed_load userRecord uid (id, obj) = Some l ->
  Load.id l = id /\ load_projects obj l /\ load_defined l.
Proof.
  intros Hl. apply pushed_load_fields in Hl. subst l.
  split; [reflexivity|].
  unfold load_projects, load_defined. cbn [Load.status Load.customerName
    Load.address Load.items Load.yards Load.revenue Load.profit Load.createdAt].
  split.
  - repeat (split;
            [first [apply jor_number_or_zero | apply jor_string_or_empty]|]).
    apply jor_null_when_absent.
  - repeat (split; [apply jor_not_undefined; discriminate|]).
    apply jor_not_undefined; discriminate.
Qed.

(** The loads of a scan, paired with the deliveries that pass the
    test. *)
Lemma pushed_loads_project {SC : StringCase} userRecord uid es (test : JsVal -> bool) :
  Forall (fun e => stored_delivery e.2 = true) es ->
  uid <> "" ->
  (forall obj,
      truthy (of_opt (email userRecord)) && assigned_by_email userRecord obj
      || assigned_by_uid uid obj = test obj) ->
  Forall2 (fun e l => Load.id l = e.1 /\ load_projects e.2 l /\ load_defined l)
    (List.filter (fun e => test e.2) es)
    (omap (pushed_load userRecord uid) es).
Proof.
  intros Hall Hne Htest.
  induction Hall as [|[id obj] es Hst Hall IH]; [apply Forall2_nil_2|].
  rewrite omap_pushed_cons. cbn [List.filter snd].
  rewrite <- Htest.
  destruct (pushed_load_stored userRecord uid id obj Hst Hne)
    as [(l & Hl & _ & ->) | [-> ->]]; [|exact IH].
  rewrite Hl. apply Forall2_cons_2; [|exact IH].
  by apply (pushed_load_projects userRecord uid).
Qed.

(** C4.  The loads of the summary are the projections of the stored
    deliveries assigned to the driver, one load for each of them, in
    order and under the delivery's id: [yards], [revenue] and [profit]
    carry the stored number ([0] for a stored zero), or [0] when the field
    is absent; [customerName], [address] and [items] carry the stored
    string, or the empty string when absent; [createdAt] is [null] when
    absent; and no field of a load is [undefined]. *)
Theorem loads_carry_stored_fields_or_defaults {SC : StringCase} {W}
    (fb : Firebase W) (S : string -> float) req uid w0 evs u dv tv rv w4 :
  query req !! "uid" = Some uid ->
  uid <> "" ->
  store_reads fb uid w0 u dv tv rv w4 ->
  well_stored dv tv rv ->
  exists s,
    driver_details fb S req (mkSt w0 evs)
      = (Return (json (BSummary s)), mkSt w4 (evs ++ read_events uid)) /\
    (forall l, In l (Summary.loads s) ->
       exists obj,
         In (Load.id l, obj) (snapshot_entries dv) /\
         load_projects obj l /\
         load_defined l) /\
    (email_nonempty u ->
     Forall2 (fun e l => Load.id l = e.1 /\ load_projects e.2 l /\ load_defined l)
       (List.filter (fun e => assigned_to u uid e.2) (snapshot_entries dv))
       (Summary.loads s)).
Proof.
  intros Hq Hne Hreads Hwell.
  exists (summary_of S u uid dv tv rv).
  split; [by apply driver_details_run|].
  cbn [summary_of Summary.loads]. split.
  - intros l Hin.
    apply list_elem_of_In, list_elem_of_omap in Hin as ([id obj] & Hin & Hl).
    apply list_elem_of_In in Hin.
    destruct (pushed_load_projects u uid id obj l Hl) as (Hid & Hp & Hdef).
    exists obj. rewrite Hid. auto.
  - intros Hmail. destruct Hwell as (Hd & _ & _).
    apply pushed_loads_project; [exact Hd | exact Hne |].
    intros obj. unfold assigned_to. by rewrite email_test_nonempty.
Qed.

Lemma loads_carry_stored_fields_or_defaults_witness :
  store_reads Mock.firebase "d1" Mock.demo Mock.d1 Mock.deliveries
    Mock.tickets_d1 Mock.ratings_d1 Mock.demo /\
  exists s l1 l2,
    driver_details Mock.firebase Mock.StringToNumber (Mock.request_for "d1")
      (mkSt Mock.demo [])
      = (Return (json (BSummary s)), mkSt Mock.demo ([] ++ read_events "d1")) /\
    Summary.loads s = [l1; l2] /\
    (Load.id l1 = "L1" /\ Load.customerName l1 = JStr "Ann" /\
     Load.address l1 = JStr "" /\ Load.items l1 = JStr "" /\
     Load.yards l1 = JNum 0 /\ Load.revenue l1 = JNum 120 /\
     Load.profit l1 = JNum 0) /\
    (Load.id l2 = "L2" /\ Load.customerName l2 = JStr "" /\
     Load.yards l2 = JNum 12 /\ Load.revenue l2 = JNum 0 /\
     Load.createdAt l2 = JNull /\ Load.status l2 <> JUndefined).
Proof.
  assert (Hreads : store_reads Mock.firebase "d1" Mock.demo Mock.d1 Mock.deliveries
                     Mock.tickets_d1 Mock.ratings_d1 Mock.demo) by mock_reads.
  split; [exact Hreads|].
  destruct (loads_carry_stored_fields_or_defaults Mock.firebase Mock.StringToNumber
              (Mock.request_for "d1") "d1" Mock.demo [] Mock.d1 Mock.deliveries
              Mock.tickets_d1 Mock.ratings_d1 Mock.demo)
    as (s & Hrun & _ & Hpairs).
  - vm_compute. reflexivity.
  - discriminate.
  - exact Hreads.
  - repeat split; all_entries.
  - specialize (Hpairs ltac:(discriminate)).
    apply Forall2_cons_inv_l in Hpairs as (l1 & ls & (Hid1 & Hp1 & _) & Hpairs & Hloads).
    apply Forall2_cons_inv_l in Hpairs as (l2 & ls' & (Hid2 & Hp2 & Hd2) & Hpairs & ->).
    apply Forall2_nil_inv_l in Hpairs as ->.
    exists s, l1, l2. split; [exact Hrun|]. split; [exact Hloads|].
    destruct Hp1 as ((_ & _ & Hy1) & (Hr1 & _) & (_ & _ & Hp1) & (Hc1 & _)
                     & (_ & Ha1) & (_ & Hi1) & _).
    destruct Hp2 as ((Hy2 & _) & (_ & _ & Hr2) & _ & (_ & Hc2) & _ & _ & Ht2).
    split.
    + split; [exact Hid1|]. split; [by apply Hc1|]. split; [by apply Ha1|].
      split; [by apply Hi1|]. split; [by apply Hy1|].
      split; [by apply Hr1 | by apply Hp1].
    + split; [exact Hid2|]. split; [by apply Hc2|]. split; [by apply Hy2|].
      split; [by apply Hr2|]. split; [by apply Ht2 | apply Hd2].
Defined.

(** The two loads of driver [d1] in the sample data. *)
Example loads_of_d1 :
  omap (pushed_load Mock.d1 "d1") (snapshot_entries Mock.deliveries)
  = [{| Load.id := "L1"; Load.status := JStr "pending";
        Load.customerName := JStr "Ann"; Load.address := JStr "";
        Load.items := JStr ""; Load.yards := JNum 0;
        Load.revenue := JNum 120; Load.profit := JNum 0;
        Load.createdAt := JNum 1700000000 |};
     {| Load.id := "L2"; Load.status := JStr "delivered";
        Load.customerName := JStr ""; Load.address := JStr "";
        Load.items := JStr ""; Load.yards := JNum 12;
        Load.revenue := JNum 0; Load.profit := JNum 0;
        Load.createdAt := JNull |}].
Proof. reflexivity. Qed.

(** A stored zero with a sign is reported as [0]. *)
Example negative_zero_yards :
  jor (JNum (-0)) (JNum 0) = JNum 0.
Proof. reflexivity. Qed.

(** ** Listing all drivers *)

Lemma listUsers_loop_chain {W} (fb : Firebase W) tok w rs calls w' :
  page_chain fb tok w rs calls w' ->
  forall fuel users0 evs,
    (length rs <= fuel)%nat ->
    listUsers_loop fb fuel users0 tok (mkSt w evs)
    = (Return (users0 ++ concat (map (fun r => map list_item (users r)) rs)),
       mkSt w' (evs ++ calls)).
Proof.
  induction 1 as [tok w r w' Hcall Hstop | tok w r w' rs calls w'' Hcall Hmore _ IH];
    intros fuel users0 evs Hfuel.
  - destruct fuel as [|fuel]; [simpl in Hfuel; lia|].
    cbn [listUsers_loop]. unfold listUsers.
    rewrite (bind_call_ok _ _ _ _ _ _ _ Hcall), Hstop.
    cbn [map concat]. by rewrite app_nil_r.
  - destruct fuel as [|fuel]; [simpl in Hfuel; lia|].
    cbn [listUsers_loop]. unfold listUsers.
    rewrite (bind_call_ok _ _ _ _ _ _ _ Hcall), Hmore.
    rewrite IH by (simpl in Hfuel; lia).
    cbn [map concat]. by rewrite <- !app_assoc.
Qed.

Lemma listed_uids (l : list UserRecord) :
  map UserInfo.uid (map list_item l) = map uid l.
Proof. induction l as [|u l IH]; simpl; [reflexivity | by rewrite IH]. Qed.

Lemma listed_pages (rs : list ListUsersResult) :
  let us := concat (map (fun r => map list_item (users r)) rs) in
  map UserInfo.uid us = map uid (concat (map users rs)) /\
  length us = sum_list_with (fun r => length (users r)) rs.
Proof.
  induction rs as [|r rs [IHu IHl]]; [split; reflexivity|].
  cbn [map concat sum_list_with]. rewrite !map_app, !length_app, length_map.
  rewrite listed_uids. split; [by rewrite IHu | by rewrite IHl].
Qed.

(** C8.  When the identity adapter hands out the pages [rs] for requests
    of up to 1000 records, each request carrying the token of the previous
    response and the last response carrying none, [GET /drivers] makes
    exactly those requests and answers with the records of all pages, in
    order, whatever number of iterations beyond [length rs] it is allowed.
    The result has as many entries as the pages together, 2037 for pages of
    1000, 1000 and 37, and no uid twice unless the pages have one twice. *)
Theorem get_drivers_concatenates_pages {W} (fb : Firebase W)
    req w evs rs calls w' fuel :
  page_chain fb None w rs calls w' ->
  (length rs <= fuel)%nat ->
  exists us,
    get_drivers fb fuel req (mkSt w evs)
      = (Return (json (BUsers us)), mkSt w' (evs ++ calls)) /\
    us = concat (map (fun r => map list_item (users r)) rs) /\
    length us = sum_list_with (fun r => length (users r)) rs /\
    (map (fun r => length (users r)) rs = [1000; 1000; 37]%nat ->
     length us = 2037%nat) /\
    (NoDup (map uid (concat (map users rs))) -> NoDup (map UserInfo.uid us)).
Proof.
  intros Hchain Hfuel.
  exists (concat (map (fun r => map list_item (users r)) rs)).
  destruct (listed_pages rs) as [Huids Hlen]. cbv zeta in Huids, Hlen.
  split.
  { unfold get_drivers, try_catch. unfold mbind at 1. unfold M_bind, m_bind.
    rewrite (listUsers_loop_chain fb None w rs calls w' Hchain fuel [] evs Hfuel).
    reflexivity. }
  split; [reflexivity|]. split; [exact Hlen|]. split.
  - intros Hsizes. rewrite Hlen.
    destruct rs as [|r1 [|r2 [|r3 [|r4 rs]]]]; try discriminate.
    injection Hsizes as H1 H2 H3. cbn [sum_list_with].
    rewrite H1, H2, H3. reflexivity.
  - by rewrite Huids.
Qed.

Lemma fleet_chain :
  page_chain Mock.firebase None Mock.fleet Mock.fleet_pages
    [EvListUsers 1000 None; EvListUsers 1000 (Some "u999");
     EvListUsers 1000 (Some "u1999")]
    Mock.fleet.
Proof.
  unfold Mock.fleet_pages. cbv zeta.
  assert (Ht1 : pageToken (Mock.fleet_page None) = Some "u999")
    by (vm_compute; reflexivity).
  rewrite Ht1.
  assert (Ht2 : pageToken (Mock.fleet_page (Some "u999")) = Some "u1999")
    by (vm_compute; reflexivity).
  rewrite Ht2.
  apply (chain_next Mock.firebase None Mock.fleet (Mock.fleet_page None) Mock.fleet).
  { vm_compute. reflexivity. }
  { rewrite Ht1. reflexivity. }
  rewrite Ht1.
  apply (chain_next Mock.firebase (Some "u999") Mock.fleet
           (Mock.fleet_page (Some "u999")) Mock.fleet).
  { vm_compute. reflexivity. }
  { rewrite Ht2. reflexivity. }
  rewrite Ht2.
  apply (chain_last Mock.firebase (Some "u1999") Mock.fleet
           (Mock.fleet_page (Some "u1999")) Mock.fleet).
  { vm_compute. reflexivity. }
  vm_compute. reflexivity.
Defined.

Lemma fleet_uids_distinct :
  NoDup (map uid (concat (map users Mock.fleet_pages))).
Proof.
  assert (Hall : concat (map users Mock.fleet_pages) = Mock.accounts Mock.fleet)
    by (vm_compute; reflexivity).
  rewrite Hall. cbn [Mock.fleet Mock.accounts]. rewrite map_map.
  cbn [uid Mock.driver].
  assert (Hinj : Inj (=) (=) (fun i : nat => "u" +:+ pretty i)).
  { intros i j Hij. injection Hij as Hij. by apply (inj pretty). }
  apply (NoDup_fmap_2 (fun i : nat => "u" +:+ pretty i)), NoDup_seq.
Qed.

Lemma get_drivers_concatenates_pages_witness :
  map (fun r => length (users r)) Mock.fleet_pages = [1000; 1000; 37]%nat /\
  exists us,
    get_drivers Mock.firebase 3 (Mock.request_for "") (mkSt Mock.fleet [])
      = (Return (json (BUsers us)),
         mkSt Mock.fleet
           ([] ++ [EvListUsers 1000 None; EvListUsers 1000 (Some "u999");
                   EvListUsers 1000 (Some "u1999")])) /\
    length us = 2037%nat /\
    NoDup (map UserInfo.uid us).
Proof.
  assert (Hsizes : map (fun r => length (users r)) Mock.fleet_pages
                   = [1000; 1000; 37]%nat) by (vm_compute; reflexivity).
  split; [exact Hsizes|].
  destruct (get_drivers_concatenates_pages Mock.firebase (Mock.request_for "")
              Mock.fleet [] Mock.fleet_pages
              [EvListUsers 1000 None; EvListUsers 1000 (Some "u999");
               EvListUsers 1000 (Some "u1999")]
              Mock.fleet 3)
    as (us & Hrun & _ & _ & H2037 & Hnodup).
  - exact fleet_chain.
  - vm_compute. lia.
  - exists us. split; [exact Hrun|]. split; [exact (H2037 Hsizes)|].
    exact (Hnodup fleet_uids_distinct).
Defined.

(** The loop stops at the first response without a token, and a loop that
    is not allowed enough iterations has no outcome. *)
Example one_page :
  get_drivers Mock.firebase 1 (Mock.request_for "") (mkSt Mock.demo [])
  = (Return (json (BUsers (map list_item [Mock.d1; Mock.d2; Mock.d3]))),
     mkSt Mock.demo [EvListUsers 1000 None]).
Proof. vm_compute. reflexivity. Qed.

Example fleet_needs_three_iterations :
  (get_drivers Mock.firebase 2 (Mock.request_for "") (mkSt Mock.fleet [])).1
  = Diverge.
Proof. vm_compute. reflexivity. Qed.

(** ** Other paths through the handlers *)

(** A request without [uid] is answered 400 before any adapter call. *)
Example missing_uid_is_400 :
  app_get_driver_details Mock.firebase Mock.key Mock.StringToNumber
    (Mock.request [("x-admin-key", Mock.key)] [] "") (Mock.st0 Mock.demo)
  = (Return (status_json 400 (BError "Missing uid query parameter")),
     mkSt Mock.demo []).
Proof. vm_compute. reflexivity. Qed.

(** A failing database read aborts the aggregation with 500 and the
    error's message; the later partitions are not read. *)
Example store_failure_is_500 :
  let down := {| Mock.accounts := [Mock.d1]; Mock.database := JNull;
                 Mock.database_up := false |} in
  app_get_driver_details Mock.firebase Mock.key Mock.StringToNumber
    (Mock.request_for "d1") (Mock.st0 down)
  = (Return (status_json 500
               (BErrorDetails "Failed to load driver details" "Database unavailable")),
     mkSt down [EvGetUser "d1"; EvOnce ["deliveries"];
                EvConsoleError "Error in /driver-details:" Mock.unavailable]).
Proof. vm_compute. reflexivity. Qed.

(** Deleting an existing driver removes the account and nothing else:
    the ticket and rating partitions are still there. *)
Example delete_existing_driver :
  exists st,
    app_delete_driver Mock.firebase Mock.key (Mock.request_for "d1")
      (Mock.st0 Mock.demo) = (Return (json BOkTrue), st) /\
    map uid (Mock.accounts (world st)) = ["d2"; "d3"] /\
    db_once Mock.firebase ["scaleTickets"; "d1"] (world st)
      = (Ok Mock.tickets_d1, world st) /\
    db_once Mock.firebase ["driverRatings"; "d1"] (world st)
      = (Ok Mock.ratings_d1, world st).
Proof. eexists. repeat split; vm_compute; reflexivity. Qed.

(** The earlier revision's single-driver handler on an existing driver
    without a stored profile. *)
Example get_driver_found :
  Part000.app_get_driver Mock.firebase Mock.key (Mock.request_for "d2")
    (Mock.st0 Mock.demo)
  = (Return (json (BAuthProfile (Part000.auth_data Mock.d2) JNull)),
     mkSt Mock.demo [EvGetUser "d2"; EvOnce ["driverProfiles/d2"]]).
Proof. vm_compute. reflexivity. Qed.

(** * Further properties of the code *)

(** ** The private key's line breaks *)

Lemma is_escaped_newline_line_feed_l c : is_escaped_newline line_feed c = false.
Proof. reflexivity. Qed.

Lemma is_escaped_newline_line_feed_r c : is_escaped_newline c line_feed = false.
Proof. unfold is_escaped_newline. by rewrite andb_false_r. Qed.

Lemma replace_escaped_newlines_head c rest :
  exists x y,
    replace_escaped_newlines (String c rest) = String x y /\
    (x = line_feed \/ x = c).
Proof.
  destruct rest as [|c' rest']; simpl; [eauto|].
  destruct (is_escaped_newline c c'); eauto.
Qed.

Lemma replace_escaped_newlines_cons c c' rest' :
  replace_escaped_newlines (String c (String c' rest')) =
  if is_escaped_newline c c'
  then String line_feed (replace_escaped_newlines rest')
  else String c (replace_escaped_newlines (String c' rest')).
Proof. reflexivity. Qed.

Lemma has_escaped_newline_cons c c' rest' :
  has_escaped_newline (String c (String c' rest')) =
  is_escaped_newline c c' || has_escaped_newline (String c' rest').
Proof. reflexivity. Qed.

Lemma replace_escaped_newlines_bounded n :
  forall s,
    (String.length s <= n)%nat ->
    has_escaped_newline (replace_escaped_newlines s) = false /\
    (String.length (replace_escaped_newlines s) <= String.length s)%nat /\
    (has_escaped_newline s = false -> replace_escaped_newlines s = s).
Proof.
  induction n as [|n IH]; intros s Hlen.
  { destruct s; [repeat split; auto | simpl in Hlen; lia]. }
  destruct s as [|c [|c' rest']]; [repeat split; auto .. |].
  rewrite replace_escaped_newlines_cons, has_escaped_newline_cons.
  cbn [String.length] in Hlen.
  destruct (is_escaped_newline c c') eqn:Hesc.
  - destruct (IH rest') as (Hno & Hle & _); [lia|].
    split; [|split; [cbn [String.length]; lia | discriminate]].
    destruct (replace_escaped_newlines rest') as [|x y] eqn:Hr; [reflexivity|].
    rewrite has_escaped_newline_cons.
    by rewrite is_escaped_newline_line_feed_l.
  - destruct (IH (String c' rest')) as (Hno & Hle & Hfix);
      [cbn [String.length]; lia|].
    split; [|split].
    + destruct (replace_escaped_newlines_head c' rest') as (x & y & Hxy & Hx).
      rewrite Hxy in Hno |- *. rewrite has_escaped_newline_cons.
      rewrite Hno, orb_false_r.
      destruct Hx as [-> | ->]; [apply is_escaped_newline_line_feed_r | exact Hesc].
    + cbn [String.length] in Hle |- *. lia.
    + intros Hhas. cbn [orb] in Hhas. by rewrite (Hfix Hhas).
Qed.

(** X1.  After the replacement the key holds no backslash followed by
    [n], it is no longer than before, and replacing again changes
    nothing. *)
Theorem replace_escaped_newlines_clears (s : string) :
  has_escaped_newline (replace_escaped_newlines s) = false /\
  (String.length (replace_escaped_newlines s) <= String.length s)%nat /\
  replace_escaped_newlines (replace_escaped_newlines s) = replace_escaped_newlines s.
Proof.
  destruct (replace_escaped_newlines_bounded (String.length s) s) as (Hno & Hle & _);
    [lia|].
  split; [exact Hno|]. split; [exact Hle|].
  by apply (replace_escaped_newlines_bounded
              (String.length (replace_escaped_newlines s))).
Qed.

(** X2.  The replacement leaves a key unchanged exactly when the key
    holds no backslash followed by [n]; real line feeds are kept. *)
Theorem replace_escaped_newlines_fixes (s : string) :
  replace_escaped_newlines s = s <-> has_escaped_newline s = false.
Proof.
  split.
  - intros Heq. rewrite <- Heq.
    apply (replace_escaped_newlines_bounded (String.length s)). lia.
  - by apply (replace_escaped_newlines_bounded (String.length s)).
Qed.

Example private_key_unescaped :
  replace_escaped_newlines
    ("BEGIN" +:+ String backslash "nMIIB" +:+ String backslash "nEND")
  = "BEGIN" +:+ String line_feed "MIIB" +:+ String line_feed "END".
Proof. reflexivity. Qed.

Example backslash_before_escape_kept :
  replace_escaped_newlines (String backslash (String backslash "n"))
  = String backslash (String line_feed "").
Proof. reflexivity. Qed.

(** ** Start-up *)

Lemma startup_cases (env : gmap string string) :
  (exists a b c d k,
      (env !! "FB_PROJECT_ID" = Some a /\ a <> "") /\
      (env !! "FB_CLIENT_EMAIL" = Some b /\ b <> "") /\
      (env !! "FB_PRIVATE_KEY" = Some c /\ c <> "") /\
      (env !! "FB_DATABASE_URL" = Some d /\ d <> "") /\
      (env !! "ADMIN_API_KEY" = Some k /\ k <> "") /\
      startup env =
      Listening {| projectId := a; clientEmail := b;
                   privateKey := replace_escaped_newlines c;
                   databaseURL := d; ADMIN_API_KEY := k;
                   PORT := jor (of_opt (env !! "PORT")) (JNum 10000) |}) \/
  ((exists v, v ∈ required_variables /\ nonempty (env !! v) = None) /\
   exists stderr, startup env = Exit 1 stderr).
Proof.
  unfold startup, required_variables.
  destruct (env !! "FB_PROJECT_ID") as [a|] eqn:Ha;
    [destruct (decide (a = "")) as [->|Hna]|];
    (destruct (env !! "FB_CLIENT_EMAIL") as [b|] eqn:Hb;
     [destruct (decide (b = "")) as [->|Hnb]|]);
    (destruct (env !! "FB_PRIVATE_KEY") as [c|] eqn:Hc;
     [destruct (decide (c = "")) as [->|Hnc]|]);
    (destruct (env !! "FB_DATABASE_URL") as [d|] eqn:Hd;
     [destruct (decide (d = "")) as [->|Hnd]|]);
    (destruct (env !! "ADMIN_API_KEY") as [k|] eqn:Hk;
     [destruct (decide (k = "")) as [->|Hnk]|]);
    cbn [truthy];
    rewrite ?(bool_decide_false (_ = "")) by assumption;
    cbn [bool_decide decide_rel negb orb];
    first
      [ left; exists a, b, c, d, k; repeat split; solve [assumption | reflexivity]
      | right; split; [| eexists; reflexivity];
        first [name_missing Ha | name_missing Hb | name_missing Hc
              | name_missing Hd | name_missing Hk] ].
Qed.

(** X3.  The process reaches [app.listen] exactly when each of the five
    variables is set to a non-empty string, and exits with code 1
    otherwise.  When it listens, the admin key is the non-empty value of
    [ADMIN_API_KEY], the private key handed to Firebase is the value of
    [FB_PRIVATE_KEY] with no escaped line break left, and the port is
    [PORT] when that is set and not empty and 10000 otherwise. *)
Theorem startup_requires_all_variables (env : gmap string string) :
  ((exists cfg, startup env = Listening cfg) <->
   Forall (fun v => exists s, env !! v = Some s /\ s <> "") required_variables) /\
  (forall cfg,
      startup env = Listening cfg ->
      ADMIN_API_KEY cfg <> "" /\
      env !! "ADMIN_API_KEY" = Some (ADMIN_API_KEY cfg) /\
      (exists raw, env !! "FB_PRIVATE_KEY" = Some raw /\
                   privateKey cfg = replace_escaped_newlines raw) /\
      has_escaped_newline (privateKey cfg) = false /\
      PORT cfg = match nonempty (env !! "PORT") with
                 | Some p => JStr p
                 | None => JNum 10000
                 end) /\
  (forall code stderr, startup env = Exit code stderr -> code = 1%N).
Proof.
  destruct (startup_cases env)
    as [(a & b & c & d & k & Ha & Hb & Hc & Hd & Hk & Hrun)
       | [(v & Hv & Hnone) [stderr Hrun]]];
    rewrite Hrun.
  - split; [|split].
    + split; [|eauto]. intros _. unfold required_variables.
      repeat (apply List.Forall_cons; [eauto|]). apply List.Forall_nil.
    + intros cfg [= <-]. cbn.
      split; [exact (proj2 Hk)|]. split; [exact (proj1 Hk)|].
      split; [exists c; split; [exact (proj1 Hc) | reflexivity]|].
      split; [by apply (replace_escaped_newlines_bounded (String.length c))|].
      unfold jor.
      destruct (nonempty_cases (env !! "PORT")) as [(p & -> & -> & Hp & _) | [-> ->]];
        [|reflexivity].
      by rewrite (proj2 (truthy_JStr p) Hp).
    + intros code stderr' [=].
  - split; [|split].
    + split; [intros [cfg [=]]|]. intros Hall. exfalso.
      rewrite Forall_forall in Hall. destruct (Hall v Hv) as (s & Hs & Hne).
      rewrite Hs in Hnone. simpl in Hnone.
      by rewrite bool_decide_false in Hnone.
    + intros cfg [=].
    + by intros code stderr' [= <- _].
Qed.

Lemma startup_requires_all_variables_witness :
  exists cfg,
    startup sample_env = Listening cfg /\
    ADMIN_API_KEY cfg <> "" /\
    has_escaped_newline (privateKey cfg) = false.
Proof.
  destruct (startup_requires_all_variables sample_env) as ([_ Hstart] & Hcfg & _).
  destruct Hstart as [cfg Hrun].
  { unfold required_variables.
    repeat (apply List.Forall_cons; [eexists; split; [vm_compute; reflexivity | discriminate]|]).
    apply List.Forall_nil. }
  exists cfg. split; [exact Hrun|].
  destruct (Hcfg cfg Hrun) as (Hk & _ & _ & Hpk & _). auto.
Defined.

Example startup_sample :
  startup sample_env =
  Listening {| projectId := "riteway";
               clientEmail := "svc@riteway.example";
               privateKey := "-----BEGIN KEY-----" +:+ String line_feed "MIIB"
                             +:+ String line_feed "-----END KEY-----";
               databaseURL := "https://riteway.example";
               ADMIN_API_KEY := "s3cret";
               PORT := JNum 10000 |}.
Proof. vm_compute. reflexivity. Qed.

Example startup_without_key_exits :
  exists stderr, startup (delete "ADMIN_API_KEY" sample_env) = Exit 1 stderr.
Proof. eexists. vm_compute. reflexivity. Qed.

(** ** The key check across the revisions *)

Lemma requireApiKey_presented K req :
  Part000.requireApiKey K req =
  if bool_decide (nonempty (headers req !! "x-admin-api-key") = Some K) then None
  else Some (status_json 401 (BError "Unauthorized")).
Proof.
  unfold Part000.requireApiKey.
  destruct (nonempty_cases (headers req !! "x-admin-api-key"))
    as [(a & -> & Ha & Hna & ->) | [-> ->]]; [|reflexivity].
  rewrite Ha. simpl.
  destruct (decide (a = K)) as [->|Hne].
  - rewrite !bool_decide_true by done. reflexivity.
  - rewrite !bool_decide_false by congruence. reflexivity.
Qed.

Lemma older_requireAdminKey_presented K req :
  Older.requireAdminKey K req =
  if bool_decide (match nonempty (headers req !! "x-admin-api-key") with
                  | Some k => Some k
                  | None => nonempty (query req !! "key")
                  end = Some K)
  then None
  else Some (status_json 401 (BError "Unauthorized")).
Proof.
  unfold Older.requireAdminKey, jor.
  destruct (nonempty_cases (headers req !! "x-admin-api-key"))
    as [(a & -> & Ha & Hna & ->) | [-> ->]].
  { rewrite Ha. simpl. rewrite (bool_decide_false (a = "")) by done. simpl.
    destruct (decide (a = K)) as [->|Hne].
    - rewrite !bool_decide_true by done. reflexivity.
    - rewrite !bool_decide_false by congruence. reflexivity. }
  destruct (nonempty_cases (query req !! "key"))
    as [(c & -> & Hc & Hnc & Htc) | [-> ->]]; [|reflexivity].
  rewrite Htc, Hc. simpl.
  destruct (decide (c = K)) as [->|Hne].
  - rewrite !bool_decide_true by done. reflexivity.
  - rewrite !bool_decide_false by congruence. reflexivity.
Qed.

(** X4.  A request admitted by the header-only check of the earlier
    revision is admitted by both later checks, and the current check
    agrees with the older copy on every request whose [x-admin-key] header
    is absent or empty. *)
Theorem key_check_across_revisions (K : string) (req : Request) :
  (Part000.requireApiKey K req = None ->
   Older.requireAdminKey K req = None /\ requireAdminKey K req = None) /\
  (nonempty (headers req !! "x-admin-key") = None ->
   requireAdminKey K req = Older.requireAdminKey K req).
Proof.
  rewrite requireApiKey_presented, older_requireAdminKey_presented,
    requireAdminKey_presented.
  unfold presented_key. split.
  - case_bool_decide as H1; [|discriminate]. intros _. rewrite H1.
    rewrite !bool_decide_true by done. auto.
  - intros ->. reflexivity.
Qed.

Lemma key_check_across_revisions_witness :
  Older.requireAdminKey Mock.key (Mock.request_for "d1") = None /\
  requireAdminKey Mock.key (Mock.request_for "d1") = None.
Proof.
  apply (key_check_across_revisions Mock.key (Mock.request_for "d1")).
  vm_compute. reflexivity.
Defined.

(** With a wrong [x-admin-key] header the current check rejects a request
    the older copy admits through the query parameter. *)
Example second_header_can_shadow_query :
  let req := Mock.request [("x-admin-key", "guess")] [("key", Mock.key)] "" in
  Older.requireAdminKey Mock.key req = None /\
  requireAdminKey Mock.key req = Some (status_json 401 (BError "Unauthorized")).
Proof. split; vm_compute; reflexivity. Qed.

(** ** Listing: failures, endless tokens, adapter calls *)

Lemma bind_call_throw {W A B} (ev : Event) (f : W -> Exc A * W) (k : A -> M W B)
    w evs e w' :
  f w = (Err e, w') ->
  (call ev f ≫= k) (mkSt w evs) = (Throw e, mkSt w' (evs ++ [ev])).
Proof. intros H. unfold_m. simpl. rewrite H. reflexivity. Qed.

Lemma listUsers_loop_prefix {W} (fb : Firebase W) tok w rs calls tok' w' :
  page_prefix fb tok w rs calls tok' w' ->
  forall fuel users0 evs,
    listUsers_loop fb (length rs + fuel) users0 tok (mkSt w evs)
    = listUsers_loop fb fuel
        (users0 ++ concat (map (fun r => map list_item (users r)) rs)) tok'
        (mkSt w' (evs ++ calls)).
Proof.
  induction 1 as [tok w | tok w r w1 rs calls tok' w' Hcall Hmore _ IH];
    intros fuel users0 evs.
  - simpl. by rewrite !app_nil_r.
  - cbn [length Nat.add listUsers_loop]. unfold listUsers.
    rewrite (bind_call_ok _ _ _ _ _ _ _ Hcall), Hmore, IH.
    cbn [map concat]. by rewrite <- !app_assoc.
Qed.

(** X5.  When a page request fails after some pages were fetched,
    [GET /drivers] answers [500 "Failed to list users"]: the records of
    the pages already fetched are dropped, the failing request is the last
    adapter call, and the error is logged. *)
Theorem get_drivers_page_failure {W} (fb : Firebase W)
    req w evs rs calls tok' w' e w'' fuel :
  page_prefix fb None w rs calls tok' w' ->
  auth_listUsers fb 1000 tok' w' = (Err e, w'') ->
  (length rs < fuel)%nat ->
  get_drivers fb fuel req (mkSt w evs)
  = (Return (status_json 500 (BError "Failed to list users")),
     mkSt w'' (evs ++ calls ++ [EvListUsers 1000 tok';
                                EvConsoleError "Error listing users:" e])).
Proof.
  intros Hprefix Hfail Hfuel.
  replace fuel with (length rs + S (fuel - S (length rs)))%nat by lia.
  unfold get_drivers, try_catch. unfold mbind at 1. unfold M_bind, m_bind.
  rewrite (listUsers_loop_prefix fb None w rs calls tok' w' Hprefix).
  cbn [listUsers_loop]. unfold listUsers.
  rewrite (bind_call_throw _ _ _ _ _ _ _ Hfail).
  unfold_m. cbn [world events]. by rewrite <- !app_assoc.
Qed.

Lemma get_drivers_page_failure_witness :
  get_drivers second_page_fails 2 (Mock.request_for "") (mkSt () [])
  = (Return (status_json 500 (BError "Failed to list users")),
     mkSt () ([] ++ [EvListUsers 1000 None]
                 ++ [EvListUsers 1000 (Some "p2");
                     EvConsoleError "Error listing users:" Mock.unavailable])).
Proof.
  apply (get_drivers_page_failure second_page_fails (Mock.request_for "") () []
           [{| users := [Mock.d1]; pageToken := Some "p2" |}]
           [EvListUsers 1000 None] (Some "p2") () Mock.unavailable () 2).
  - eapply prefix_cons; [reflexivity | reflexivity | apply prefix_nil].
  - reflexivity.
  - simpl. lia.
Defined.

Lemma listUsers_loop_endless {W} (fb : Firebase W) :
  (forall tok w, exists r w',
      auth_listUsers fb 1000 tok w = (Ok r, w')
      /\ truthy (of_opt (pageToken r)) = true) ->
  forall fuel users0 tok st,
    (listUsers_loop fb fuel users0 tok st).1 = Diverge.
Proof.
  intros Hmore. induction fuel as [|fuel IH]; intros users0 tok [w evs];
    [reflexivity|].
  destruct (Hmore tok w) as (r & w' & Hcall & Htok).
  cbn [listUsers_loop]. unfold listUsers.
  rewrite (bind_call_ok _ _ _ _ _ _ _ Hcall), Htok. apply IH.
Qed.

(** X6.  The loop has no bound of its own: against an adapter that
    answers every page request with another token, [GET /drivers] gives
    no response, however many iterations it is allowed. *)
Theorem get_drivers_endless_tokens {W} (fb : Firebase W) :
  (forall tok w, exists r w',
      auth_listUsers fb 1000 tok w = (Ok r, w')
      /\ truthy (of_opt (pageToken r)) = true) ->
  forall fuel req st, (get_drivers fb fuel req st).1 = Diverge.
Proof.
  intros Hmore fuel req st.
  pose proof (listUsers_loop_endless fb Hmore fuel [] None st) as Hloop.
  unfold get_drivers, try_catch. unfold mbind at 1. unfold M_bind, m_bind.
  destruct (listUsers_loop fb fuel [] None st) as [[a|e|] st1];
    simpl in Hloop; try discriminate.
  reflexivity.
Qed.

Lemma get_drivers_endless_tokens_witness :
  (get_drivers endless 50 (Mock.request_for "") (mkSt () [])).1 = Diverge.
Proof.
  apply (get_drivers_endless_tokens endless).
  intros tok w. do 2 eexists. split; reflexivity.
Defined.

Lemma listUsers_loop_events {W} (fb : Firebase W) fuel :
  forall users0 tok st,
  exists new,
    events (listUsers_loop fb fuel users0 tok st).2 = events st ++ new /\
    Forall (fun ev => exists tok', ev = EvListUsers 1000 tok') new.
Proof.
  induction fuel as [|fuel IH]; intros users0 tok [w evs].
  { exists []. split; [by rewrite app_nil_r | apply List.Forall_nil]. }
  cbn [listUsers_loop]. unfold listUsers.
  destruct (auth_listUsers fb 1000 tok w) as [[r|e] w'] eqn:Hcall.
  - rewrite (bind_call_ok _ _ _ _ _ _ _ Hcall).
    destruct (truthy (of_opt (pageToken r))).
    + destruct (IH (users0 ++ map list_item (users r)) (pageToken r)
                  (mkSt w' (evs ++ [EvListUsers 1000 tok]))) as (new & Hev & Hall).
      exists (EvListUsers 1000 tok :: new). rewrite Hev. cbn [events].
      split; [by rewrite <- app_assoc|]. apply List.Forall_cons; eauto.
    + exists [EvListUsers 1000 tok]. split; [reflexivity|].
      apply List.Forall_cons; [eauto | apply List.Forall_nil].
  - rewrite (bind_call_throw _ _ _ _ _ _ _ Hcall).
    exists [EvListUsers 1000 tok]. split; [reflexivity|].
    apply List.Forall_cons; [eauto | apply List.Forall_nil].
Qed.

(** X7.  Whatever the adapter does and however the run ends,
    [GET /drivers] calls nothing but [listUsers] with a page size of 1000:
    it never looks up or deletes an account and never reads the database;
    besides those calls it only logs the error of a failed listing. *)
Theorem get_drivers_only_lists {W} (fb : Firebase W) fuel req st :
  exists new,
    events (get_drivers fb fuel req st).2 = events st ++ new /\
    Forall listing_event new.
Proof.
  destruct (listUsers_loop_events fb fuel [] None st) as (new & Hev & Hall).
  assert (Hlist : Forall listing_event new).
  { eapply Forall_impl; [exact Hall|]. intros ev [tok ->]. left. eauto. }
  unfold get_drivers, try_catch. unfold mbind at 1. unfold M_bind, m_bind.
  destruct (listUsers_loop fb fuel [] None st) as [[a|e|] st1]; cbn [snd] in Hev.
  - exists new. auto.
  - exists (new ++ [EvConsoleError "Error listing users:" e]).
    unfold_m. cbn [snd events]. rewrite Hev, <- app_assoc. split; [reflexivity|].
    apply Forall_app. split; [exact Hlist|].
    apply List.Forall_cons; [right; eauto | apply List.Forall_nil].
  - exists new. auto.
Qed.

(** ** When [GET /driver-details] succeeds *)

Lemma bind_lift_throw {W A B} (x : Exc A) (k : A -> M W B) st e :
  x = Err e -> (lift x ≫= k) st = (Throw e, st).
Proof. intros ->. reflexivity. Qed.

Lemma load_of_entry_throws {SC : StringCase} userRecord uid id obj :
  stored_delivery obj = false ->
  exists e, load_of_entry userRecord uid (id, obj) = Err e.
Proof.
  intros Hst. destruct (is_nullish obj) eqn:Hn.
  { by apply load_of_entry_nullish. }
  rewrite load_of_entry_stored_eq by exact Hn.
  unfold stored_delivery, stored_record in Hst. rewrite Hn in Hst.
  cbn [negb andb] in Hst. unfold jor.
  destruct (details_field obj "assignedDriverEmail") as [| |b|q|s|l|fields];
    simpl in Hst |- *; try discriminate;
    try (destruct b; try discriminate);
    try (destruct (number_truthy q); try discriminate);
    simpl; eexists; reflexivity.
Qed.

Lemma forEach_push_throws {SC : StringCase} userRecord uid es :
  Exists (fun e => stored_delivery e.2 = false) es ->
  forall loads, exists e, forEach_push userRecord uid es loads = Err e.
Proof.
  induction es as [|[id obj] es IH]; intros Hex loads.
  { by apply Exists_nil in Hex. }
  rewrite forEach_push_cons.
  destruct (load_of_entry userRecord uid (id, obj)) as [r|e] eqn:Hr; [|eauto].
  apply Exists_cons in Hex as [Hbad|Hex]; [|by apply IH].
  destruct (load_of_entry_throws userRecord uid id obj Hbad) as [e He].
  congruence.
Qed.

Lemma map_exc_throws {A B} (f : A -> Exc B) (l : list A) :
  Exists (fun a => exists e, f a = Err e) l ->
  exists e, map_exc f l = Err e.
Proof.
  induction l as [|a l IH]; intros Hex; [by apply Exists_nil in Hex|].
  cbn [map_exc]. unfold mbind, Exc_bind.
  destruct (f a) as [b|e] eqn:Hfa; simpl; [|eauto].
  apply Exists_cons in Hex as [[e He]|Hex]; [congruence|].
  destruct (IH Hex) as [e ->]. simpl. eauto.
Qed.

Lemma null_record_throws (es : list (string * JsVal)) :
  Exists (fun e => stored_record e.2 = false) es ->
  (exists e, map_exc ticket_of_entry es = Err e) /\
  (exists e, map_exc rating_of_entry es = Err e).
Proof.
  intros Hex. split; apply map_exc_throws;
    (eapply Exists_impl; [exact Hex|]); intros [id v] Hn; simpl in Hn;
    apply negb_false_iff in Hn; destruct v; try discriminate;
    eexists; reflexivity.
Qed.

Lemma stored_or_not (f : JsVal -> bool) (es : list (string * JsVal)) :
  Forall (fun e => f e.2 = true) es \/ Exists (fun e => f e.2 = false) es.
Proof.
  induction es as [|e es [IH|IH]].
  - left. apply List.Forall_nil.
  - destruct (f e.2) eqn:He.
    + left. by apply List.Forall_cons.
    + right. by apply Exists_cons_hd.
  - right. by apply Exists_cons_tl.
Qed.

Lemma stored_and_not (f : JsVal -> bool) (es : list (string * JsVal)) :
  Forall (fun e => f e.2 = true) es ->
  Exists (fun e => f e.2 = false) es -> False.
Proof.
  intros Hall Hex. apply Exists_exists in Hex as (e & Hin & He).
  rewrite Forall_forall in Hall. specialize (Hall e Hin). congruence.
Qed.

Lemma driver_details_caught {SC : StringCase} {W} (fb : Firebase W) S req uid st e st' :
  query req !! "uid" = Some uid ->
  uid <> "" ->
  driver_details_try fb S uid st = (Throw e, st') ->
  driver_details fb S req st
  = (Return (status_json 500
               (BErrorDetails "Failed to load driver details" (err_message e))),
     mkSt (world st') (events st' ++ [EvConsoleError "Error in /driver-details:" e])).
Proof.
  intros Hq Hne Htry. unfold driver_details.
  rewrite Hq, (proj2 (truthy_JStr uid) Hne). cbn [negb].
  unfold try_catch. rewrite Htry. reflexivity.
Qed.

(** The two ways the handler can end, for a request with a [uid]. *)
Lemma driver_details_outcome {SC : StringCase} {W} (fb : Firebase W) S req uid w0 evs :
  query req !! "uid" = Some uid ->
  uid <> "" ->
  (exists u dv tv rv w4,
      store_reads fb uid w0 u dv tv rv w4 /\
      well_stored dv tv rv /\
      driver_details fb S req (mkSt w0 evs)
      = (Return (json (BSummary (summary_of S u uid dv tv rv))),
         mkSt w4 (evs ++ read_events uid))) \/
  (exists e k w',
      (1 <= k <= 4)%nat /\
      driver_details fb S req (mkSt w0 evs)
      = (Return (status_json 500
                   (BErrorDetails "Failed to load driver details" (err_message e))),
         mkSt w' (evs ++ take k (read_events uid)
                      ++ [EvConsoleError "Error in /driver-details:" e])) /\
      ~ exists u dv tv rv w4,
          store_reads fb uid w0 u dv tv rv w4 /\ well_stored dv tv rv).
Proof.
  intros Hq Hne.
  destruct (auth_getUser fb uid w0) as [[u|e] w1] eqn:H1.
  2:{ right. exists e, 1%nat, w1. split; [lia|]. split.
      - rewrite (driver_details_caught fb S req uid _ e
                   (mkSt w1 (evs ++ [EvGetUser uid])) Hq Hne).
        + cbn [world events take read_events]. by rewrite <- !app_assoc.
        + unfold driver_details_try, getUser.
          by rewrite (bind_call_throw _ _ _ _ _ _ _ H1).
      - intros (u' & dv & tv & rv & w4 & (w1' & w2 & w3 & H1' & _) & _).
        congruence. }
  destruct (db_once fb ["deliveries"] w1) as [[dv|e] w2] eqn:H2.
  2:{ right. exists e, 2%nat, w2. split; [lia|]. split.
      - rewrite (driver_details_caught fb S req uid _ e
                   (mkSt w2 ((evs ++ [EvGetUser uid]) ++ [EvOnce ["deliveries"]]))
                   Hq Hne).
        + cbn [world events take read_events]. by rewrite <- !app_assoc.
        + unfold driver_details_try, getUser, once.
          rewrite (bind_call_ok _ _ _ _ _ _ _ H1).
          by rewrite (bind_call_throw _ _ _ _ _ _ _ H2).
      - intros (u' & dv & tv & rv & w4 & (w1' & w2' & w3 & H1' & H2' & _) & _).
        congruence. }
  destruct (stored_or_not stored_delivery (snapshot_entries dv)) as [Hd|Hd].
  2:{ destruct (forEach_push_throws u uid _ Hd []) as [e He].
      right. exists e, 2%nat, w2. split; [lia|]. split.
      - rewrite (driver_details_caught fb S req uid _ e
                   (mkSt w2 ((evs ++ [EvGetUser uid]) ++ [EvOnce ["deliveries"]]))
                   Hq Hne).
        + cbn [world events take read_events]. by rewrite <- !app_assoc.
        + unfold driver_details_try, getUser, once.
          rewrite (bind_call_ok _ _ _ _ _ _ _ H1), (bind_call_ok _ _ _ _ _ _ _ H2).
          erewrite bind_lift_throw; [reflexivity|].
          rewrite entries_snapshot. exact He.
      - intros (u' & dv' & tv & rv & w4 & (w1' & w2' & w3 & H1' & H2' & _)
                & Hd' & _).
        assert (dv' = dv) as -> by congruence.
        exact (stored_and_not _ _ Hd' Hd). }
  pose proof (forEach_push_stored u uid _ [] Hd Hne) as Hloads.
  destruct (db_once fb ["scaleTickets"; uid] w2) as [[tv|e] w3] eqn:H3.
  2:{ right. exists e, 3%nat, w3. split; [lia|]. split.
      - rewrite (driver_details_caught fb S req uid _ e
                   (mkSt w3 (((evs ++ [EvGetUser uid]) ++ [EvOnce ["deliveries"]])
                             ++ [EvOnce ["scaleTickets"; uid]]))
                   Hq Hne).
        + cbn [world events take read_events]. by rewrite <- !app_assoc.
        + unfold driver_details_try, getUser, once.
          rewrite (bind_call_ok _ _ _ _ _ _ _ H1), (bind_call_ok _ _ _ _ _ _ _ H2).
          erewrite bind_lift_ok; [|rewrite entries_snapshot; exact Hloads].
          by rewrite (bind_call_throw _ _ _ _ _ _ _ H3).
      - intros (u' & dv' & tv & rv & w4
                & (w1' & w2' & w3' & H1' & H2' & H3' & _) & _).
        congruence. }
  destruct (stored_or_not stored_record (snapshot_entries tv)) as [Ht|Ht].
  2:{ destruct (null_record_throws _ Ht)
        as [[e He] _].
      right. exists e, 3%nat, w3. split; [lia|]. split.
      - rewrite (driver_details_caught fb S req uid _ e
                   (mkSt w3 (((evs ++ [EvGetUser uid]) ++ [EvOnce ["deliveries"]])
                             ++ [EvOnce ["scaleTickets"; uid]]))
                   Hq Hne).
        + cbn [world events take read_events]. by rewrite <- !app_assoc.
        + unfold driver_details_try, getUser, once.
          rewrite (bind_call_ok _ _ _ _ _ _ _ H1), (bind_call_ok _ _ _ _ _ _ _ H2).
          erewrite bind_lift_ok; [|rewrite entries_snapshot; exact Hloads].
          rewrite (bind_call_ok _ _ _ _ _ _ _ H3).
          erewrite bind_lift_throw; [reflexivity|].
          rewrite entries_snapshot. exact He.
      - intros (u' & dv' & tv' & rv & w4
                & (w1' & w2' & w3' & H1' & H2' & H3' & _) & _ & Ht' & _).
        assert (tv' = tv) as -> by congruence.
        exact (stored_and_not _ _ Ht' Ht). }
  destruct (db_once fb ["driverRatings"; uid] w3) as [[rv|e] w4] eqn:H4.
  2:{ right. exists e, 4%nat, w4. split; [lia|]. split.
      - rewrite (driver_details_caught fb S req uid _ e
                   (mkSt w4 ((((evs ++ [EvGetUser uid]) ++ [EvOnce ["deliveries"]])
                              ++ [EvOnce ["scaleTickets"; uid]])
                             ++ [EvOnce ["driverRatings"; uid]]))
                   Hq Hne).
        + cbn [world events take read_events]. by rewrite <- !app_assoc.
        + unfold driver_details_try, getUser, once.
          rewrite (bind_call_ok _ _ _ _ _ _ _ H1), (bind_call_ok _ _ _ _ _ _ _ H2).
          erewrite bind_lift_ok; [|rewrite entries_snapshot; exact Hloads].
          rewrite (bind_call_ok _ _ _ _ _ _ _ H3).
          erewrite bind_lift_ok.
          2:{ rewrite entries_snapshot. apply map_exc_values.
              eapply Forall_impl; [exact Ht|]. intros [id t] Hs. simpl in Hs.
              rewrite ticket_of_entry_stored by exact Hs. eauto. }
          by rewrite (bind_call_throw _ _ _ _ _ _ _ H4).
      - intros (u' & dv' & tv' & rv & w4'
                & (w1' & w2' & w3' & H1' & H2' & H3' & H4') & _).
        congruence. }
  destruct (stored_or_not stored_record (snapshot_entries rv)) as [Hr|Hr].
  2:{ destruct (null_record_throws _ Hr)
        as [_ [e He]].
      right. exists e, 4%nat, w4. split; [lia|]. split.
      - rewrite (driver_details_caught fb S req uid _ e
                   (mkSt w4 ((((evs ++ [EvGetUser uid]) ++ [EvOnce ["deliveries"]])
                              ++ [EvOnce ["scaleTickets"; uid]])
                             ++ [EvOnce ["driverRatings"; uid]]))
                   Hq Hne).
        + cbn [world events take read_events]. by rewrite <- !app_assoc.
        + unfold driver_details_try, getUser, once.
          rewrite (bind_call_ok _ _ _ _ _ _ _ H1), (bind_call_ok _ _ _ _ _ _ _ H2).
          erewrite bind_lift_ok; [|rewrite entries_snapshot; exact Hloads].
          rewrite (bind_call_ok _ _ _ _ _ _ _ H3).
          erewrite bind_lift_ok.
          2:{ rewrite entries_snapshot. apply map_exc_values.
              eapply Forall_impl; [exact Ht|]. intros [id t] Hs. simpl in Hs.
              rewrite ticket_of_entry_stored by exact Hs. eauto. }
          rewrite (bind_call_ok _ _ _ _ _ _ _ H4).
          erewrite bind_lift_throw; [reflexivity|].
          rewrite entries_snapshot. exact He.
      - intros (u' & dv' & tv' & rv' & w4'
                & (w1' & w2' & w3' & H1' & H2' & H3' & H4') & _ & _ & Hr').
        assert (rv' = rv) as -> by congruence.
        exact (stored_and_not _ _ (stored_ratings_records _ Hr') Hr). }
  destruct (stored_or_not (fun obj => negb (toString_throws (record_field obj "rating")))
              (snapshot_entries rv)) as [Hc|Hc].
  2:{ assert (Hex : Exists (fun e => toString_throws (record_field e.2 "rating") = true)
                      (snapshot_entries rv)).
      { eapply Exists_impl; [exact Hc|]. intros e He. by apply negb_false_iff in He. }
      destruct (avgRating_of_throws S _ Hr Hex) as [e He].
      right. exists e, 4%nat, w4. split; [lia|]. split.
      - rewrite (driver_details_caught fb S req uid _ e
                   (mkSt w4 ((((evs ++ [EvGetUser uid]) ++ [EvOnce ["deliveries"]])
                              ++ [EvOnce ["scaleTickets"; uid]])
                             ++ [EvOnce ["driverRatings"; uid]]))
                   Hq Hne).
        + cbn [world events take read_events]. by rewrite <- !app_assoc.
        + unfold driver_details_try, getUser, once.
          rewrite (bind_call_ok _ _ _ _ _ _ _ H1), (bind_call_ok _ _ _ _ _ _ _ H2).
          erewrite bind_lift_ok; [|rewrite entries_snapshot; exact Hloads].
          rewrite (bind_call_ok _ _ _ _ _ _ _ H3).
          erewrite bind_lift_ok.
          2:{ rewrite entries_snapshot. apply map_exc_values.
              eapply Forall_impl; [exact Ht|]. intros [id t] Hs. simpl in Hs.
              rewrite ticket_of_entry_stored by exact Hs. eauto. }
          rewrite (bind_call_ok _ _ _ _ _ _ _ H4).
          erewrite bind_lift_ok.
          2:{ rewrite entries_snapshot. apply map_exc_values.
              eapply Forall_impl; [exact Hr|]. intros [id r] Hs. simpl in Hs.
              rewrite rating_of_entry_stored by exact Hs. eauto. }
          erewrite bind_lift_throw; [reflexivity | exact He].
      - intros (u' & dv' & tv' & rv' & w4'
                & (w1' & w2' & w3' & H1' & H2' & H3' & H4') & _ & _ & Hr').
        assert (rv' = rv) as -> by congruence.
        apply (stored_and_not
                 (fun obj => negb (toString_throws (record_field obj "rating")))
                 (snapshot_entries rv)); [|exact Hc].
        eapply Forall_impl; [exact Hr'|]. intros e0 He0.
        unfold stored_rating in He0. by apply andb_true_iff in He0 as [_ ?]. }
  left. exists u, dv, tv, rv, w4.
  assert (Hreads : store_reads fb uid w0 u dv tv rv w4).
  { exists w1, w2, w3. auto. }
  assert (Hwell : well_stored dv tv rv).
  { split; [exact Hd|]. split; [exact Ht|].
    rewrite Forall_forall in Hr, Hc |- *. intros e Hin.
    unfold stored_rating. by rewrite (Hr e Hin), (Hc e Hin). }
  split; [exact Hreads|]. split; [exact Hwell|].
  by apply driver_details_run.
Qed.

(** X8.  A request with a [uid] is always answered, with 200 or with 500:
    no exception leaves the handler.  The adapter calls are a prefix of
    the fixed sequence identity lookup, deliveries, tickets, ratings; on
    200 all four were made, on 500 the sequence stops at the call (or the
    scan after it) that threw, the error is logged and its message is in
    the body.  The handler never lists or deletes accounts. *)
Theorem driver_details_always_answers {SC : StringCase} {W} (fb : Firebase W)
    (S : string -> float) req uid w0 evs :
  query req !! "uid" = Some uid ->
  uid <> "" ->
  exists r st',
    driver_details fb S req (mkSt w0 evs) = (Return r, st') /\
    ((status r = 200%N /\ events st' = evs ++ read_events uid) \/
     (status r = 500%N /\
      exists e k,
        (1 <= k <= 4)%nat /\
        body r = BErrorDetails "Failed to load driver details" (err_message e) /\
        events st' = evs ++ take k (read_events uid)
                         ++ [EvConsoleError "Error in /driver-details:" e])).
Proof.
  intros Hq Hne.
  destruct (driver_details_outcome fb S req uid w0 evs Hq Hne)
    as [(u & dv & tv & rv & w4 & _ & _ & Hrun) | (e & k & w' & Hk & Hrun & _)];
    rewrite Hrun; do 2 eexists; (split; [reflexivity|]).
  - left. split; reflexivity.
  - right. split; [reflexivity|]. exists e, k. auto.
Qed.

Lemma driver_details_always_answers_witness :
  exists r st',
    driver_details Mock.firebase Mock.StringToNumber (Mock.request_for "ghost")
      (mkSt Mock.demo []) = (Return r, st') /\
    ((status r = 200%N /\ events st' = [] ++ read_events "ghost") \/
     (status r = 500%N /\
      exists e k,
        (1 <= k <= 4)%nat /\
        body r = BErrorDetails "Failed to load driver details" (err_message e) /\
        events st' = [] ++ take k (read_events "ghost")
                        ++ [EvConsoleError "Error in /driver-details:" e])).
Proof.
  apply (driver_details_always_answers Mock.firebase Mock.StringToNumber
           (Mock.request_for "ghost") "ghost" Mock.demo []).
  - vm_compute. reflexivity.
  - discriminate.
Defined.

(** X9.  A request with a [uid] is answered 200 exactly when the identity
    lookup and the three database reads succeed and the snapshots hold
    stored records only: no [null] entry among the deliveries, tickets and
    ratings, no delivery whose assigned e-mail is a truthy value other
    than a string, and no rating whose value [Number] cannot convert (an
    object with a property named [toString], or an array holding one).
    One such entry anywhere fails the whole request. *)
Theorem driver_details_200_iff_well_stored {SC : StringCase} {W} (fb : Firebase W)
    (S : string -> float) req uid w0 evs r st' :
  query req !! "uid" = Some uid ->
  uid <> "" ->
  driver_details fb S req (mkSt w0 evs) = (Return r, st') ->
  (status r = 200%N <->
   exists u dv tv rv w4,
     store_reads fb uid w0 u dv tv rv w4 /\ well_stored dv tv rv).
Proof.
  intros Hq Hne Hrun.
  destruct (driver_details_outcome fb S req uid w0 evs Hq Hne)
    as [(u & dv & tv & rv & w4 & Hreads & Hwell & Hrun')
       | (e & k & w' & Hk & Hrun' & Hnot)];
    rewrite Hrun' in Hrun; injection Hrun as <- <-.
  - split; [|reflexivity]. intros _. exists u, dv, tv, rv, w4. auto.
  - split; [discriminate|]. intros Hyes. by destruct (Hnot Hyes).
Qed.

(** A store with a [null] entry among the deliveries. *)
Example null_delivery_is_500 :
  let broken :=
    {| Mock.accounts := [Mock.d3];
       Mock.database :=
         JObj [("deliveries", JArr [JObj [("status", JStr "pending")]; JNull])];
       Mock.database_up := true |} in
  app_get_driver_details Mock.firebase Mock.key Mock.StringToNumber
    (Mock.request_for "d3") (Mock.st0 broken)
  = (Return (status_json 500
               (BErrorDetails "Failed to load driver details"
                  "Cannot read properties of null (reading 'details')")),
     mkSt broken
       [EvGetUser "d3"; EvOnce ["deliveries"];
        EvConsoleError "Error in /driver-details:"
          (TypeError "Cannot read properties of null (reading 'details')")]).
Proof. vm_compute. reflexivity. Qed.

Lemma driver_details_200_iff_well_stored_witness :
  status (json (BSummary (summary_of Mock.StringToNumber Mock.d1 "d1"
                            Mock.deliveries Mock.tickets_d1 Mock.ratings_d1)))
    = 200%N <->
  exists u dv tv rv w4,
    store_reads Mock.firebase "d1" Mock.demo u dv tv rv w4 /\ well_stored dv tv rv.
Proof.
  apply (driver_details_200_iff_well_stored Mock.firebase Mock.StringToNumber
           (Mock.request_for "d1") "d1" Mock.demo [] _
           (mkSt Mock.demo (read_events "d1"))).
  - vm_compute. reflexivity.
  - discriminate.
  - vm_compute. reflexivity.
Defined.

(** ** Tickets and ratings *)

Lemma jor_stored_or default v : stored_or default v (jor v default).
Proof. unfold stored_or, jor. split; intros ->; reflexivity. Qed.

Lemma tickets_of_stored es :
  Forall (fun e => stored_record e.2 = true) es ->
  map Ticket.id (values_of ticket_of_entry es) = map fst es /\
  forall t, In t (values_of ticket_of_entry es) ->
    exists obj, In (Ticket.id t, obj) es /\ ticket_projects obj t.
Proof.
  induction 1 as [|[id obj] es Hst _ [IHid IHin]]; [split; [reflexivity | intros t []]|].
  rewrite values_of_cons, (ticket_of_entry_stored id obj Hst).
  split; [cbn [map fst Ticket.id]; by rewrite IHid|].
  intros t [<- | Hin].
  - exists obj. split; [by left|]. repeat split; apply jor_stored_or.
  - destruct (IHin t Hin) as (obj' & Hin' & Hp). exists obj'. split; [by right | exact Hp].
Qed.

Lemma ratings_projected es :
  Forall (fun e => stored_record e.2 = true) es ->
  map Rating.id (values_of rating_of_entry es) = map fst es /\
  forall r, In r (values_of rating_of_entry es) ->
    exists obj, In (Rating.id r, obj) es /\ rating_projects obj r.
Proof.
  induction 1 as [|[id obj] es Hst _ [IHid IHin]]; [split; [reflexivity | intros t []]|].
  rewrite values_of_cons, (rating_of_entry_stored id obj Hst).
  split; [cbn [map fst Rating.id]; by rewrite IHid|].
  intros r [<- | Hin].
  - exists obj. split; [by left|]. repeat split; apply jor_stored_or.
  - destruct (IHin r Hin) as (obj' & Hin' & Hp). exists obj'. split; [by right | exact Hp].
Qed.

(** X10.  The tickets of the summary are the entries of the driver's
    ticket partition, in order and under their keys; [totalTickets] is
    their number.  In each, [url] and [fileName] are the stored value when
    it is truthy and the empty string otherwise, [uploadedAt] and [loadId]
    the stored value when truthy and [null] otherwise. *)
Theorem tickets_are_the_partition {SC : StringCase} {W} (fb : Firebase W)
    (S : string -> float) req uid w0 evs u dv tv rv w4 :
  query req !! "uid" = Some uid ->
  uid <> "" ->
  store_reads fb uid w0 u dv tv rv w4 ->
  well_stored dv tv rv ->
  exists s,
    driver_details fb S req (mkSt w0 evs)
      = (Return (json (BSummary s)), mkSt w4 (evs ++ read_events uid)) /\
    map Ticket.id (Summary.tickets s) = map fst (snapshot_entries tv) /\
    Stats.totalTickets (Summary.stats s) = length (snapshot_entries tv) /\
    forall t, In t (Summary.tickets s) ->
      exists obj, In (Ticket.id t, obj) (snapshot_entries tv) /\ ticket_projects obj t.
Proof.
  intros Hq Hne Hreads Hwell.
  exists (summary_of S u uid dv tv rv).
  split; [by apply driver_details_run|].
  destruct Hwell as (_ & Ht & _).
  destruct (tickets_of_stored _ Ht) as [Hid Hin].
  cbn [summary_of Summary.tickets Summary.stats Stats.totalTickets].
  split; [exact Hid|]. split; [|exact Hin].
  by rewrite <- (length_map Ticket.id), Hid, length_map.
Qed.

Lemma tickets_are_the_partition_witness :
  exists s,
    driver_details Mock.firebase Mock.StringToNumber (Mock.request_for "d1")
      (mkSt Mock.demo [])
      = (Return (json (BSummary s)), mkSt Mock.demo ([] ++ read_events "d1")) /\
    map Ticket.id (Summary.tickets s) = ["t1"] /\
    Stats.totalTickets (Summary.stats s) = 1%nat.
Proof.
  destruct (tickets_are_the_partition Mock.firebase Mock.StringToNumber
              (Mock.request_for "d1") "d1" Mock.demo [] Mock.d1 Mock.deliveries
              Mock.tickets_d1 Mock.ratings_d1 Mock.demo)
    as (s & Hrun & Hids & Hlen & _).
  - vm_compute. reflexivity.
  - discriminate.
  - mock_reads.
  - repeat split; all_entries.
  - exists s. split; [exact Hrun|]. split; [exact Hids | exact Hlen].
Defined.

(** X11.  The ratings of the summary are the entries of the driver's
    rating partition, in order and under their keys.  In each, [rating],
    [loadId] and [createdAt] are the stored value when it is truthy and
    [null] otherwise (a stored rating of [0] is reported as [null]),
    [comment] and [customerName] the stored value when truthy and the
    empty string otherwise. *)
Theorem ratings_are_the_partition {SC : StringCase} {W} (fb : Firebase W)
    (S : string -> float) req uid w0 evs u dv tv rv w4 :
  query req !! "uid" = Some uid ->
  uid <> "" ->
  store_reads fb uid w0 u dv tv rv w4 ->
  well_stored dv tv rv ->
  exists s,
    driver_details fb S req (mkSt w0 evs)
      = (Return (json (BSummary s)), mkSt w4 (evs ++ read_events uid)) /\
    map Rating.id (Summary.ratings s) = map fst (snapshot_entries rv) /\
    forall r, In r (Summary.ratings s) ->
      exists obj, In (Rating.id r, obj) (snapshot_entries rv) /\ rating_projects obj r.
Proof.
  intros Hq Hne Hreads Hwell.
  exists (summary_of S u uid dv tv rv).
  split; [by apply driver_details_run|].
  destruct Hwell as (_ & _ & Hr).
  destruct (ratings_projected _ (stored_ratings_records _ Hr)) as [Hid Hin].
  cbn [summary_of Summary.ratings].
  split; [exact Hid | exact Hin].
Qed.

Lemma ratings_are_the_partition_witness :
  exists s,
    driver_details Mock.firebase Mock.StringToNumber (Mock.request_for "d1")
      (mkSt Mock.demo [])
      = (Return (json (BSummary s)), mkSt Mock.demo ([] ++ read_events "d1")) /\
    map Rating.id (Summary.ratings s) = ["r1"; "r2"; "r3"].
Proof.
  destruct (ratings_are_the_partition Mock.firebase Mock.StringToNumber
              (Mock.request_for "d1") "d1" Mock.demo [] Mock.d1 Mock.deliveries
              Mock.tickets_d1 Mock.ratings_d1 Mock.demo)
    as (s & Hrun & Hids & _).
  - vm_compute. reflexivity.
  - discriminate.
  - mock_reads.
  - repeat split; all_entries.
  - exists s. split; [exact Hrun | exact Hids].
Defined.

Example zero_rating_reported_null :
  rating_of_entry ("r0", JObj [("rating", JNum 0); ("comment", JStr "bad")])
  = Ok {| Rating.id := "r0"; Rating.rating := JNull; Rating.comment := JStr "bad";
          Rating.customerName := JStr ""; Rating.loadId := JNull;
          Rating.createdAt := JNull |}.
Proof. reflexivity. Qed.

(** ** Letter case of the identity e-mail *)

Lemma email_matches_up_to_case {SC : StringCase} u u' a :
  same_email_up_to_case u u' -> email_matches u a = email_matches u' a.
Proof.
  unfold same_email_up_to_case, email_matches.
  destruct (email u) as [e|], (email u') as [e'|]; try tauto.
  intros Hlow. rewrite Hlow. f_equal.
  destruct (decide (e = "")) as [->|He].
  - symmetry in Hlow. rewrite toLowerCase_of_empty in Hlow.
    apply toLowerCase_empty in Hlow. by subst e'.
  - assert (e' <> "").
    { intros ->. rewrite toLowerCase_of_empty in Hlow.
      apply toLowerCase_empty in Hlow. congruence. }
    simpl. by rewrite !bool_decide_false.
Qed.

Lemma load_of_entry_up_to_case {SC : StringCase} u u' uid entry :
  same_email_up_to_case u u' ->
  load_of_entry u uid entry = load_of_entry u' uid entry.
Proof.
  intros Hsame. destruct entry as [id obj].
  destruct (is_nullish obj) eqn:Hn.
  { destruct obj; try discriminate; reflexivity. }
  rewrite !load_of_entry_stored_eq by exact Hn.
  unfold mbind, Exc_bind.
  destruct (call_toLowerCase _) as [a|e]; simpl; [|reflexivity].
  by rewrite (email_matches_up_to_case u u' a Hsame).
Qed.

(** X13.  The scan of the deliveries depends on the identity e-mail only
    up to letter case: two identity records whose addresses agree in lower
    case (or which both have none) give the same loads, or the same
    exception, on every collection of deliveries. *)
Theorem scan_ignores_identity_email_case {SC : StringCase} (u u' : UserRecord) (uid : string)
    (es : list (string * JsVal)) (loads : list Load.t) :
  same_email_up_to_case u u' ->
  forEach_push u uid es loads = forEach_push u' uid es loads.
Proof.
  intros Hsame. revert loads. induction es as [|entry es IH]; intros loads;
    [reflexivity|].
  rewrite !forEach_push_cons, (load_of_entry_up_to_case u u' uid entry Hsame).
  destruct (load_of_entry u' uid entry) as [r|e]; [apply IH | reflexivity].
Qed.

Lemma scan_ignores_identity_email_case_witness :
  forEach_push (Mock.driver "d1" (Some "A@B.com")) "d1"
    (snapshot_entries Mock.deliveries) []
  = forEach_push (Mock.driver "d1" (Some "a@b.COM")) "d1"
      (snapshot_entries Mock.deliveries) [].
Proof.
  apply (scan_ignores_identity_email_case
           (Mock.driver "d1" (Some "A@B.com")) (Mock.driver "d1" (Some "a@b.COM"))).
  reflexivity.
Defined.

(** ** The earlier revision's single-driver routes *)

Lemma get_driver_profile_fails {W} (fb : Firebase W) req w evs u w1 e w2 :
  auth_getUser fb (params req "uid") w = (Ok u, w1) ->
  db_once fb ["driverProfiles/" +:+ params req "uid"] w1 = (Err e, w2) ->
  Part000.get_driver fb req (mkSt w evs) =
  (Return (if bool_decide (err_code e = Some "auth/user-not-found")
           then status_json 404 (BError "User not found")
           else status_json 500 (BError "Failed to fetch driver")),
   mkSt w2 (((evs ++ [EvGetUser (params req "uid")])
             ++ [EvOnce ["driverProfiles/" +:+ params req "uid"]])
            ++ [EvConsoleError "Error getting user:" e])).
Proof.
  intros H1 H2. unfold Part000.get_driver, getUser, once, try_catch.
  rewrite (bind_call_ok _ _ _ _ _ _ _ H1), (bind_call_throw _ _ _ _ _ _ _ H2).
  unfold_m. case_bool_decide; reflexivity.
Qed.

Lemma get_driver_found_run {W} (fb : Firebase W) req w evs u w1 p w2 :
  auth_getUser fb (params req "uid") w = (Ok u, w1) ->
  db_once fb ["driverProfiles/" +:+ params req "uid"] w1 = (Ok p, w2) ->
  Part000.get_driver fb req (mkSt w evs) =
  (Return (json (BAuthProfile (Part000.auth_data u) (jor p JNull))),
   mkSt w2 ((evs ++ [EvGetUser (params req "uid")])
            ++ [EvOnce ["driverProfiles/" +:+ params req "uid"]])).
Proof.
  intros H1 H2. unfold Part000.get_driver, getUser, once, try_catch.
  rewrite (bind_call_ok _ _ _ _ _ _ _ H1), (bind_call_ok _ _ _ _ _ _ _ H2).
  reflexivity.
Qed.

Lemma failure_status (e : JsError) :
  let r := if bool_decide (err_code e = Some "auth/user-not-found")
           then status_json 404 (BError "User not found")
           else status_json 500 (BError "Failed to fetch driver") in
  (status r = 200%N \/ status r = 404%N \/ status r = 500%N) /\
  status r <> 200%N /\
  (status r = 404%N <-> err_code e = Some "auth/user-not-found").
Proof.
  cbv zeta. case_bool_decide as Hc; cbn.
  - split; [auto|]. split; [discriminate | tauto].
  - split; [auto|]. split; [discriminate|]. split; [discriminate | tauto].
Qed.

(** X14.  The earlier revision's [GET /drivers/:uid] always answers, with
    200, 404 or 500.  It answers 200 exactly when the identity lookup and
    the read of the profile both succeed, and 404 exactly when the first
    call that fails throws an error whose code is [auth/user-not-found],
    be it the lookup or the read of the profile.  After a failed lookup
    the profile is not read. *)
Theorem get_driver_statuses {W} (fb : Firebase W) req w evs :
  exists r st',
    Part000.get_driver fb req (mkSt w evs) = (Return r, st') /\
    (status r = 200%N \/ status r = 404%N \/ status r = 500%N) /\
    (status r = 200%N <-> get_driver_failure fb (params req "uid") w = None) /\
    (status r = 404%N <->
     exists e, get_driver_failure fb (params req "uid") w = Some e
               /\ err_code e = Some "auth/user-not-found") /\
    (forall e w1,
        auth_getUser fb (params req "uid") w = (Err e, w1) ->
        world st' = w1 /\
        events st' = evs ++ [EvGetUser (params req "uid");
                             EvConsoleError "Error getting user:" e]).
Proof.
  unfold get_driver_failure.
  destruct (auth_getUser fb (params req "uid") w) as [[u|e] w1] eqn:H1.
  - destruct (db_once fb ["driverProfiles/" +:+ params req "uid"] w1)
      as [[p|e] w2] eqn:H2.
    + rewrite (get_driver_found_run fb req w evs u w1 p w2 H1 H2).
      do 2 eexists. split; [reflexivity|]. cbn.
      split; [auto|]. split; [tauto|]. split; [|intros e' w' [=]].
      split; [discriminate | intros (e' & [=] & _)].
    + rewrite (get_driver_profile_fails fb req w evs u w1 e w2 H1 H2).
      destruct (failure_status e) as (H3 & Hnot & H404). cbv zeta in H3, Hnot, H404.
      do 2 eexists. split; [reflexivity|].
      split; [exact H3|]. split; [split; [tauto | discriminate]|].
      split; [|intros e' w' [=]].
      rewrite H404. split; [eauto | by intros (e' & [= <-] & Hc)].
  - rewrite (get_driver_lookup_fails fb req w evs e w1 H1).
    destruct (failure_status e) as (H3 & Hnot & H404). cbv zeta in H3, Hnot, H404.
    do 2 eexists. split; [reflexivity|].
    split; [exact H3|]. split; [split; [tauto | discriminate]|]. split.
    + rewrite H404. split; [eauto | by intros (e' & [= <-] & Hc)].
    + intros e' w' [= <- <-]. cbn [world events]. split; [reflexivity|].
      by rewrite <- app_assoc.
Qed.

Lemma get_driver_statuses_witness :
  exists r st',
    Part000.get_driver Mock.firebase (Mock.request_for "ghost") (mkSt Mock.demo [])
      = (Return r, st') /\
    status r = 404%N /\
    world st' = Mock.demo /\
    events st' = [] ++ [EvGetUser "ghost";
                        EvConsoleError "Error getting user:" Mock.user_not_found].
Proof.
  destruct (get_driver_statuses Mock.firebase (Mock.request_for "ghost") Mock.demo [])
    as (r & st' & Hrun & _ & _ & H404 & Hlookup).
  exists r, st'. split; [exact Hrun|]. split.
  - apply H404. exists Mock.user_not_found. split; vm_compute; reflexivity.
  - apply (Hlookup Mock.user_not_found Mock.demo). vm_compute. reflexivity.
Defined.

(** A profile read that fails with the identity store's code is reported
    as a missing user. *)
Example profile_error_with_user_code_is_404 :
  let fb :=
    {| auth_getUser := fun _ w => (Ok Mock.d1, w);
       auth_listUsers := fun _ _ w => (Err Mock.unavailable, w);
       auth_deleteUser := fun _ w => (Err Mock.unavailable, w);
       db_once := fun _ w => (Err Mock.user_not_found, w) |} in
  (Part000.get_driver fb (Mock.request_for "d1") (mkSt () [])).1
  = Return (status_json 404 (BError "User not found")).
Proof. vm_compute. reflexivity. Qed.

(** X15.  The earlier revision's [DELETE /drivers/:uid] clears the two
    profile nodes only after the account is deleted: when the deletion
    fails the update is not applied.  It answers 200 exactly when both
    steps succeed; when the account is deleted and the update then fails
    it answers 500 although the account is gone. *)
Theorem earlier_delete_cascades_after_deletion {W} (fb : Firebase W)
    (db_update : JsVal -> W -> Exc () * W) req w evs :
  exists r st',
    Part000Delete.delete_driver fb db_update req (mkSt w evs) = (Return r, st') /\
    (Part000Delete.status r = 200%N <->
     exists w1 w2,
       auth_deleteUser fb (params req "uid") w = (Ok (), w1) /\
       db_update (cascade_updates (params req "uid")) w1 = (Ok (), w2)) /\
    (forall e w1,
        auth_deleteUser fb (params req "uid") w = (Err e, w1) ->
        Part000Delete.status r = 500%N /\ world st' = w1) /\
    (forall w1 e w2,
        auth_deleteUser fb (params req "uid") w = (Ok (), w1) ->
        db_update (cascade_updates (params req "uid")) w1 = (Err e, w2) ->
        Part000Delete.status r = 500%N /\ world st' = w2).
Proof.
  unfold Part000Delete.delete_driver, deleteUser, try_catch.
  fold (cascade_updates (params req "uid")).
  destruct (auth_deleteUser fb (params req "uid") w) as [[[]|e] w1] eqn:H1.
  - rewrite (bind_call_ok _ _ _ _ _ _ _ H1).
    unfold Part000Delete.update. unfold_m. cbn [world events].
    destruct (db_update (cascade_updates (params req "uid")) w1)
      as [[[]|e] w2] eqn:H2; do 2 eexists; (split; [reflexivity|]); cbn.
    + split; [split; [eauto | reflexivity]|]. split; [intros e w' [=]|].
      intros w1' e w2' [= <-]. rewrite H2. intros [=].
    + split; [split; [discriminate|]|].
      { intros (w1' & w2' & [= <-] & H2'). congruence. }
      split; [intros e' w' [=]|].
      intros w1' e' w2' [= <-]. rewrite H2. intros [= <- <-]. auto.
  - rewrite (bind_call_throw _ _ _ _ _ _ _ H1). unfold_m.
    do 2 eexists. split; [reflexivity|]. cbn.
    split; [split; [discriminate | intros (w1' & w2' & [=] & _)]|].
    split; [intros e' w' [= <- <-]; auto | intros w1' e' w2' [=]].
Qed.

Lemma earlier_delete_cascades_after_deletion_witness :
  exists r st',
    Part000Delete.delete_driver Mock.firebase mock_update (Mock.request_for "d1")
      (mkSt database_down []) = (Return r, st') /\
    Part000Delete.status r = 500%N /\
    map uid (Mock.accounts (world st')) = ["d2"].
Proof.
  destruct (earlier_delete_cascades_after_deletion Mock.firebase mock_update
              (Mock.request_for "d1") database_down [])
    as (r & st' & Hrun & _ & _ & Hhalf).
  exists r, st'. split; [exact Hrun|].
  destruct (Hhalf {| Mock.accounts := [Mock.d2]; Mock.database := JNull;
                     Mock.database_up := false |}
              Mock.unavailable
              {| Mock.accounts := [Mock.d2]; Mock.database := JNull;
                 Mock.database_up := false |}) as [H500 Hworld].
  - vm_compute. reflexivity.
  - vm_compute. reflexivity.
  - split; [exact H500|]. rewrite Hworld. reflexivity.
Defined.

(** ** Requests without a driver id *)

(** X16.  [GET /driver-details] answers every request.  It answers 400
    exactly when the [uid] query parameter is missing or empty, and then
    it calls no adapter and logs nothing. *)
Theorem driver_details_400_iff_no_uid {SC : StringCase} {W} (fb : Firebase W)
    (S : string -> float) req st :
  exists r st',
    driver_details fb S req st = (Return r, st') /\
    (status r = 400%N <-> nonempty (query req !! "uid") = None) /\
    (status r = 400%N -> st' = st /\ r = missing_uid).
Proof.
  destruct (nonempty_cases (query req !! "uid"))
    as [(uid & Hsome & Hof & Hne & _) | [Hnone Hfalsy]].
  - assert (Hq : query req !! "uid" = Some uid).
    { destruct (query req !! "uid"); [by injection Hof as -> | discriminate]. }
    destruct st as [w evs].
    destruct (driver_details_outcome fb S req uid w evs Hq Hne)
      as [(u & dv & tv & rv & w4 & _ & _ & Hrun) | (e & k & w' & _ & Hrun & _)];
      rewrite Hrun, Hsome; do 2 eexists; (split; [reflexivity|]); cbn;
      (split; [split; discriminate | discriminate]).
  - exists missing_uid, st. rewrite Hnone. split.
    + unfold driver_details.
      destruct (query req !! "uid") as [uid|]; [|reflexivity].
      change (truthy (JStr uid) = false) in Hfalsy. by rewrite Hfalsy.
    + split; [split; reflexivity | auto].
Qed.

Lemma driver_details_400_iff_no_uid_witness :
  exists r st',
    driver_details Mock.firebase Mock.StringToNumber
      (Mock.request [] [("uid", "")] "") (Mock.st0 Mock.demo) = (Return r, st') /\
    st' = Mock.st0 Mock.demo /\ r = missing_uid.
Proof.
  destruct (driver_details_400_iff_no_uid Mock.firebase Mock.StringToNumber
              (Mock.request [] [("uid", "")] "") (Mock.st0 Mock.demo))
    as (r & st' & Hrun & H400 & Hnothing).
  exists r, st'. split; [exact Hrun|].
  apply Hnothing, H400. vm_compute. reflexivity.
Defined.
